(** * Verification model of [video_share.py]

    The script copies a video into [videos/], writes a player page into
    [pages/], stages and commits both with git, builds the public URL of the
    page and saves a QR code of it into [qrcodes/].

    Python strings are sequences of Unicode code points; the file system, the
    console, the spawned processes and the clock are an explicit [World]
    threaded through a small exception monad. *)

From Stdlib Require Import NArith ZArith Ascii String List Lia.
From stdpp Require Import base option gmap.
Import ListNotations.

Local Open Scope N_scope.

(** ** Python strings *)

Module Py.

(** A character is a Unicode code point, a string is the list of its
    characters. *)
Abbreviation char := N (only parsing).
Abbreviation str := (list N) (only parsing).

Definition ch (a : ascii) : char := N_of_ascii a.

(** String literals of the source are written as they are there and read as
    UTF-8. *)
Fixpoint utf8_decode (bs : list N) : str :=
  match bs with
  | [] => []
  | b :: rest =>
      if b <? 0x80 then b :: utf8_decode rest
      else if b <? 0xE0 then
        match rest with
        | b1 :: rest1 => ((b - 0xC0) * 0x40 + (b1 - 0x80)) :: utf8_decode rest1
        | _ => []
        end
      else if b <? 0xF0 then
        match rest with
        | b1 :: b2 :: rest2 =>
            ((b - 0xE0) * 0x1000 + (b1 - 0x80) * 0x40 + (b2 - 0x80)) :: utf8_decode rest2
        | _ => []
        end
      else
        match rest with
        | b1 :: b2 :: b3 :: rest3 =>
            ((b - 0xF0) * 0x40000 + (b1 - 0x80) * 0x1000 + (b2 - 0x80) * 0x40 + (b3 - 0x80))
              :: utf8_decode rest3
        | _ => []
        end
  end.

Definition u (s : string) : str :=
  utf8_decode (List.map N_of_ascii (list_ascii_of_string s)).

Fixpoint in_ranges (c : char) (rs : list (N * N)) : bool :=
  match rs with
  | [] => false
  | (lo, hi) :: rest => ((lo <=? c) && (c <=? hi)) || in_ranges c rest
  end.

(** [str.isalnum] on one character: the code points for which CPython 3.11
    (Unicode 14.0) answers [True], as inclusive ranges. *)
Definition alnum_ranges : list (N * N) :=
  [(0x30, 0x39); (0x41, 0x5A); (0x61, 0x7A); (0xAA, 0xAA); (0xB2, 0xB3); (0xB5, 0xB5);
   (0xB9, 0xBA); (0xBC, 0xBE); (0xC0, 0xD6); (0xD8, 0xF6); (0xF8, 0x2C1); (0x2C6, 0x2D1);
   (0x2E0, 0x2E4); (0x2EC, 0x2EC); (0x2EE, 0x2EE); (0x370, 0x374); (0x376, 0x377);
   (0x37A, 0x37D); (0x37F, 0x37F); (0x386, 0x386); (0x388, 0x38A); (0x38C, 0x38C);
   (0x38E, 0x3A1); (0x3A3, 0x3F5); (0x3F7, 0x481); (0x48A, 0x52F); (0x531, 0x556);
   (0x559, 0x559); (0x560, 0x588); (0x5D0, 0x5EA); (0x5EF, 0x5F2); (0x620, 0x64A);
   (0x660, 0x669); (0x66E, 0x66F); (0x671, 0x6D3); (0x6D5, 0x6D5); (0x6E5, 0x6E6);
   (0x6EE, 0x6FC); (0x6FF, 0x6FF); (0x710, 0x710); (0x712, 0x72F); (0x74D, 0x7A5);
   (0x7B1, 0x7B1); (0x7C0, 0x7EA); (0x7F4, 0x7F5); (0x7FA, 0x7FA); (0x800, 0x815);
   (0x81A, 0x81A); (0x824, 0x824); (0x828, 0x828); (0x840, 0x858); (0x860, 0x86A);
   (0x870, 0x887); (0x889, 0x88E); (0x8A0, 0x8C9); (0x904, 0x939); (0x93D, 0x93D);
   (0x950, 0x950); (0x958, 0x961); (0x966, 0x96F); (0x971, 0x980); (0x985, 0x98C);
   (0x98F, 0x990); (0x993, 0x9A8); (0x9AA, 0x9B0); (0x9B2, 0x9B2); (0x9B6, 0x9B9);
   (0x9BD, 0x9BD); (0x9CE, 0x9CE); (0x9DC, 0x9DD); (0x9DF, 0x9E1); (0x9E6, 0x9F1);
   (0x9F4, 0x9F9); (0x9FC, 0x9FC); (0xA05, 0xA0A); (0xA0F, 0xA10); (0xA13, 0xA28);
   (0xA2A, 0xA30); (0xA32, 0xA33); (0xA35, 0xA36); (0xA38, 0xA39); (0xA59, 0xA5C);
   (0xA5E, 0xA5E); (0xA66, 0xA6F); (0xA72, 0xA74); (0xA85, 0xA8D); (0xA8F, 0xA91);
   (0xA93, 0xAA8); (0xAAA, 0xAB0); (0xAB2, 0xAB3); (0xAB5, 0xAB9); (0xABD, 0xABD);
   (0xAD0, 0xAD0); (0xAE0, 0xAE1); (0xAE6, 0xAEF); (0xAF9, 0xAF9); (0xB05, 0xB0C);
   (0xB0F, 0xB10); (0xB13, 0xB28); (0xB2A, 0xB30); (0xB32, 0xB33); (0xB35, 0xB39);
   (0xB3D, 0xB3D); (0xB5C, 0xB5D); (0xB5F, 0xB61); (0xB66, 0xB6F); (0xB71, 0xB77);
   (0xB83, 0xB83); (0xB85, 0xB8A); (0xB8E, 0xB90); (0xB92, 0xB95); (0xB99, 0xB9A);
   (0xB9C, 0xB9C); (0xB9E, 0xB9F); (0xBA3, 0xBA4); (0xBA8, 0xBAA); (0xBAE, 0xBB9);
   (0xBD0, 0xBD0); (0xBE6, 0xBF2); (0xC05, 0xC0C); (0xC0E, 0xC10); (0xC12, 0xC28);
   (0xC2A, 0xC39); (0xC3D, 0xC3D); (0xC58, 0xC5A); (0xC5D, 0xC5D); (0xC60, 0xC61);
   (0xC66, 0xC6F); (0xC78, 0xC7E); (0xC80, 0xC80); (0xC85, 0xC8C); (0xC8E, 0xC90);
   (0xC92, 0xCA8); (0xCAA, 0xCB3); (0xCB5, 0xCB9); (0xCBD, 0xCBD); (0xCDD, 0xCDE);
   (0xCE0, 0xCE1); (0xCE6, 0xCEF); (0xCF1, 0xCF2); (0xD04, 0xD0C); (0xD0E, 0xD10);
   (0xD12, 0xD3A); (0xD3D, 0xD3D); (0xD4E, 0xD4E); (0xD54, 0xD56); (0xD58, 0xD61);
   (0xD66, 0xD78); (0xD7A, 0xD7F); (0xD85, 0xD96); (0xD9A, 0xDB1); (0xDB3, 0xDBB);
   (0xDBD, 0xDBD); (0xDC0, 0xDC6); (0xDE6, 0xDEF); (0xE01, 0xE30); (0xE32, 0xE33);
   (0xE40, 0xE46); (0xE50, 0xE59); (0xE81, 0xE82); (0xE84, 0xE84); (0xE86, 0xE8A);
   (0xE8C, 0xEA3); (0xEA5, 0xEA5); (0xEA7, 0xEB0); (0xEB2, 0xEB3); (0xEBD, 0xEBD);
   (0xEC0, 0xEC4); (0xEC6, 0xEC6); (0xED0, 0xED9); (0xEDC, 0xEDF); (0xF00, 0xF00);
   (0xF20, 0xF33); (0xF40, 0xF47); (0xF49, 0xF6C); (0xF88, 0xF8C); (0x1000, 0x102A);
   (0x103F, 0x1049); (0x1050, 0x1055); (0x105A, 0x105D); (0x1061, 0x1061); (0x1065, 0x1066);
   (0x106E, 0x1070); (0x1075, 0x1081); (0x108E, 0x108E); (0x1090, 0x1099); (0x10A0, 0x10C5);
   (0x10C7, 0x10C7); (0x10CD, 0x10CD); (0x10D0, 0x10FA); (0x10FC, 0x1248); (0x124A, 0x124D);
   (0x1250, 0x1256); (0x1258, 0x1258); (0x125A, 0x125D); (0x1260, 0x1288); (0x128A, 0x128D);
   (0x1290, 0x12B0); (0x12B2, 0x12B5); (0x12B8, 0x12BE); (0x12C0, 0x12C0); (0x12C2, 0x12C5);
   (0x12C8, 0x12D6); (0x12D8, 0x1310); (0x1312, 0x1315); (0x1318, 0x135A); (0x1369, 0x137C);
   (0x1380, 0x138F); (0x13A0, 0x13F5); (0x13F8, 0x13FD); (0x1401, 0x166C); (0x166F, 0x167F);
   (0x1681, 0x169A); (0x16A0, 0x16EA); (0x16EE, 0x16F8); (0x1700, 0x1711); (0x171F, 0x1731);
   (0x1740, 0x1751); (0x1760, 0x176C); (0x176E, 0x1770); (0x1780, 0x17B3); (0x17D7, 0x17D7);
   (0x17DC, 0x17DC); (0x17E0, 0x17E9); (0x17F0, 0x17F9); (0x1810, 0x1819); (0x1820, 0x1878);
   (0x1880, 0x1884); (0x1887, 0x18A8); (0x18AA, 0x18AA); (0x18B0, 0x18F5); (0x1900, 0x191E);
   (0x1946, 0x196D); (0x1970, 0x1974); (0x1980, 0x19AB); (0x19B0, 0x19C9); (0x19D0, 0x19DA);
   (0x1A00, 0x1A16); (0x1A20, 0x1A54); (0x1A80, 0x1A89); (0x1A90, 0x1A99); (0x1AA7, 0x1AA7);
   (0x1B05, 0x1B33); (0x1B45, 0x1B4C); (0x1B50, 0x1B59); (0x1B83, 0x1BA0); (0x1BAE, 0x1BE5);
   (0x1C00, 0x1C23); (0x1C40, 0x1C49); (0x1C4D, 0x1C7D); (0x1C80, 0x1C88); (0x1C90, 0x1CBA);
   (0x1CBD, 0x1CBF); (0x1CE9, 0x1CEC); (0x1CEE, 0x1CF3); (0x1CF5, 0x1CF6); (0x1CFA, 0x1CFA);
   (0x1D00, 0x1DBF); (0x1E00, 0x1F15); (0x1F18, 0x1F1D); (0x1F20, 0x1F45); (0x1F48, 0x1F4D);
   (0x1F50, 0x1F57); (0x1F59, 0x1F59); (0x1F5B, 0x1F5B); (0x1F5D, 0x1F5D); (0x1F5F, 0x1F7D);
   (0x1F80, 0x1FB4); (0x1FB6, 0x1FBC); (0x1FBE, 0x1FBE); (0x1FC2, 0x1FC4); (0x1FC6, 0x1FCC);
   (0x1FD0, 0x1FD3); (0x1FD6, 0x1FDB); (0x1FE0, 0x1FEC); (0x1FF2, 0x1FF4); (0x1FF6, 0x1FFC);
   (0x2070, 0x2071); (0x2074, 0x2079); (0x207F, 0x2089); (0x2090, 0x209C); (0x2102, 0x2102);
   (0x2107, 0x2107); (0x210A, 0x2113); (0x2115, 0x2115); (0x2119, 0x211D); (0x2124, 0x2124);
   (0x2126, 0x2126); (0x2128, 0x2128); (0x212A, 0x212D); (0x212F, 0x2139); (0x213C, 0x213F);
   (0x2145, 0x2149); (0x214E, 0x214E); (0x2150, 0x2189); (0x2460, 0x249B); (0x24EA, 0x24FF);
   (0x2776, 0x2793); (0x2C00, 0x2CE4); (0x2CEB, 0x2CEE); (0x2CF2, 0x2CF3); (0x2CFD, 0x2CFD);
   (0x2D00, 0x2D25); (0x2D27, 0x2D27); (0x2D2D, 0x2D2D); (0x2D30, 0x2D67); (0x2D6F, 0x2D6F);
   (0x2D80, 0x2D96); (0x2DA0, 0x2DA6); (0x2DA8, 0x2DAE); (0x2DB0, 0x2DB6); (0x2DB8, 0x2DBE);
   (0x2DC0, 0x2DC6); (0x2DC8, 0x2DCE); (0x2DD0, 0x2DD6); (0x2DD8, 0x2DDE); (0x2E2F, 0x2E2F);
   (0x3005, 0x3007); (0x3021, 0x3029); (0x3031, 0x3035); (0x3038, 0x303C); (0x3041, 0x3096);
   (0x309D, 0x309F); (0x30A1, 0x30FA); (0x30FC, 0x30FF); (0x3105, 0x312F); (0x3131, 0x318E);
   (0x3192, 0x3195); (0x31A0, 0x31BF); (0x31F0, 0x31FF); (0x3220, 0x3229); (0x3248, 0x324F);
   (0x3251, 0x325F); (0x3280, 0x3289); (0x32B1, 0x32BF); (0x3400, 0x4DBF); (0x4E00, 0xA48C);
   (0xA4D0, 0xA4FD); (0xA500, 0xA60C); (0xA610, 0xA62B); (0xA640, 0xA66E); (0xA67F, 0xA69D);
   (0xA6A0, 0xA6EF); (0xA717, 0xA71F); (0xA722, 0xA788); (0xA78B, 0xA7CA); (0xA7D0, 0xA7D1);
   (0xA7D3, 0xA7D3); (0xA7D5, 0xA7D9); (0xA7F2, 0xA801); (0xA803, 0xA805); (0xA807, 0xA80A);
   (0xA80C, 0xA822); (0xA830, 0xA835); (0xA840, 0xA873); (0xA882, 0xA8B3); (0xA8D0, 0xA8D9);
   (0xA8F2, 0xA8F7); (0xA8FB, 0xA8FB); (0xA8FD, 0xA8FE); (0xA900, 0xA925); (0xA930, 0xA946);
   (0xA960, 0xA97C); (0xA984, 0xA9B2); (0xA9CF, 0xA9D9); (0xA9E0, 0xA9E4); (0xA9E6, 0xA9FE);
   (0xAA00, 0xAA28); (0xAA40, 0xAA42); (0xAA44, 0xAA4B); (0xAA50, 0xAA59); (0xAA60, 0xAA76);
   (0xAA7A, 0xAA7A); (0xAA7E, 0xAAAF); (0xAAB1, 0xAAB1); (0xAAB5, 0xAAB6); (0xAAB9, 0xAABD);
   (0xAAC0, 0xAAC0); (0xAAC2, 0xAAC2); (0xAADB, 0xAADD); (0xAAE0, 0xAAEA); (0xAAF2, 0xAAF4);
   (0xAB01, 0xAB06); (0xAB09, 0xAB0E); (0xAB11, 0xAB16); (0xAB20, 0xAB26); (0xAB28, 0xAB2E);
   (0xAB30, 0xAB5A); (0xAB5C, 0xAB69); (0xAB70, 0xABE2); (0xABF0, 0xABF9); (0xAC00, 0xD7A3);
   (0xD7B0, 0xD7C6); (0xD7CB, 0xD7FB); (0xF900, 0xFA6D); (0xFA70, 0xFAD9); (0xFB00, 0xFB06);
   (0xFB13, 0xFB17); (0xFB1D, 0xFB1D); (0xFB1F, 0xFB28); (0xFB2A, 0xFB36); (0xFB38, 0xFB3C);
   (0xFB3E, 0xFB3E); (0xFB40, 0xFB41); (0xFB43, 0xFB44); (0xFB46, 0xFBB1); (0xFBD3, 0xFD3D);
   (0xFD50, 0xFD8F); (0xFD92, 0xFDC7); (0xFDF0, 0xFDFB); (0xFE70, 0xFE74); (0xFE76, 0xFEFC);
   (0xFF10, 0xFF19); (0xFF21, 0xFF3A); (0xFF41, 0xFF5A); (0xFF66, 0xFFBE); (0xFFC2, 0xFFC7);
   (0xFFCA, 0xFFCF); (0xFFD2, 0xFFD7); (0xFFDA, 0xFFDC); (0x10000, 0x1000B); (0x1000D, 0x10026);
   (0x10028, 0x1003A); (0x1003C, 0x1003D); (0x1003F, 0x1004D); (0x10050, 0x1005D);
   (0x10080, 0x100FA); (0x10107, 0x10133); (0x10140, 0x10178); (0x1018A, 0x1018B);
   (0x10280, 0x1029C); (0x102A0, 0x102D0); (0x102E1, 0x102FB); (0x10300, 0x10323);
   (0x1032D, 0x1034A); (0x10350, 0x10375); (0x10380, 0x1039D); (0x103A0, 0x103C3);
   (0x103C8, 0x103CF); (0x103D1, 0x103D5); (0x10400, 0x1049D); (0x104A0, 0x104A9);
   (0x104B0, 0x104D3); (0x104D8, 0x104FB); (0x10500, 0x10527); (0x10530, 0x10563);
   (0x10570, 0x1057A); (0x1057C, 0x1058A); (0x1058C, 0x10592); (0x10594, 0x10595);
   (0x10597, 0x105A1); (0x105A3, 0x105B1); (0x105B3, 0x105B9); (0x105BB, 0x105BC);
   (0x10600, 0x10736); (0x10740, 0x10755); (0x10760, 0x10767); (0x10780, 0x10785);
   (0x10787, 0x107B0); (0x107B2, 0x107BA); (0x10800, 0x10805); (0x10808, 0x10808);
   (0x1080A, 0x10835); (0x10837, 0x10838); (0x1083C, 0x1083C); (0x1083F, 0x10855);
   (0x10858, 0x10876); (0x10879, 0x1089E); (0x108A7, 0x108AF); (0x108E0, 0x108F2);
   (0x108F4, 0x108F5); (0x108FB, 0x1091B); (0x10920, 0x10939); (0x10980, 0x109B7);
   (0x109BC, 0x109CF); (0x109D2, 0x10A00); (0x10A10, 0x10A13); (0x10A15, 0x10A17);
   (0x10A19, 0x10A35); (0x10A40, 0x10A48); (0x10A60, 0x10A7E); (0x10A80, 0x10A9F);
   (0x10AC0, 0x10AC7); (0x10AC9, 0x10AE4); (0x10AEB, 0x10AEF); (0x10B00, 0x10B35);
   (0x10B40, 0x10B55); (0x10B58, 0x10B72); (0x10B78, 0x10B91); (0x10BA9, 0x10BAF);
   (0x10C00, 0x10C48); (0x10C80, 0x10CB2); (0x10CC0, 0x10CF2); (0x10CFA, 0x10D23);
   (0x10D30, 0x10D39); (0x10E60, 0x10E7E); (0x10E80, 0x10EA9); (0x10EB0, 0x10EB1);
   (0x10F00, 0x10F27); (0x10F30, 0x10F45); (0x10F51, 0x10F54); (0x10F70, 0x10F81);
   (0x10FB0, 0x10FCB); (0x10FE0, 0x10FF6); (0x11003, 0x11037); (0x11052, 0x1106F);
   (0x11071, 0x11072); (0x11075, 0x11075); (0x11083, 0x110AF); (0x110D0, 0x110E8);
   (0x110F0, 0x110F9); (0x11103, 0x11126); (0x11136, 0x1113F); (0x11144, 0x11144);
   (0x11147, 0x11147); (0x11150, 0x11172); (0x11176, 0x11176); (0x11183, 0x111B2);
   (0x111C1, 0x111C4); (0x111D0, 0x111DA); (0x111DC, 0x111DC); (0x111E1, 0x111F4);
   (0x11200, 0x11211); (0x11213, 0x1122B); (0x11280, 0x11286); (0x11288, 0x11288);
   (0x1128A, 0x1128D); (0x1128F, 0x1129D); (0x1129F, 0x112A8); (0x112B0, 0x112DE);
   (0x112F0, 0x112F9); (0x11305, 0x1130C); (0x1130F, 0x11310); (0x11313, 0x11328);
   (0x1132A, 0x11330); (0x11332, 0x11333); (0x11335, 0x11339); (0x1133D, 0x1133D);
   (0x11350, 0x11350); (0x1135D, 0x11361); (0x11400, 0x11434); (0x11447, 0x1144A);
   (0x11450, 0x11459); (0x1145F, 0x11461); (0x11480, 0x114AF); (0x114C4, 0x114C5);
   (0x114C7, 0x114C7); (0x114D0, 0x114D9); (0x11580, 0x115AE); (0x115D8, 0x115DB);
   (0x11600, 0x1162F); (0x11644, 0x11644); (0x11650, 0x11659); (0x11680, 0x116AA);
   (0x116B8, 0x116B8); (0x116C0, 0x116C9); (0x11700, 0x1171A); (0x11730, 0x1173B);
   (0x11740, 0x11746); (0x11800, 0x1182B); (0x118A0, 0x118F2); (0x118FF, 0x11906);
   (0x11909, 0x11909); (0x1190C, 0x11913); (0x11915, 0x11916); (0x11918, 0x1192F);
   (0x1193F, 0x1193F); (0x11941, 0x11941); (0x11950, 0x11959); (0x119A0, 0x119A7);
   (0x119AA, 0x119D0); (0x119E1, 0x119E1); (0x119E3, 0x119E3); (0x11A00, 0x11A00);
   (0x11A0B, 0x11A32); (0x11A3A, 0x11A3A); (0x11A50, 0x11A50); (0x11A5C, 0x11A89);
   (0x11A9D, 0x11A9D); (0x11AB0, 0x11AF8); (0x11C00, 0x11C08); (0x11C0A, 0x11C2E);
   (0x11C40, 0x11C40); (0x11C50, 0x11C6C); (0x11C72, 0x11C8F); (0x11D00, 0x11D06);
   (0x11D08, 0x11D09); (0x11D0B, 0x11D30); (0x11D46, 0x11D46); (0x11D50, 0x11D59);
   (0x11D60, 0x11D65); (0x11D67, 0x11D68); (0x11D6A, 0x11D89); (0x11D98, 0x11D98);
   (0x11DA0, 0x11DA9); (0x11EE0, 0x11EF2); (0x11FB0, 0x11FB0); (0x11FC0, 0x11FD4);
   (0x12000, 0x12399); (0x12400, 0x1246E); (0x12480, 0x12543); (0x12F90, 0x12FF0);
   (0x13000, 0x1342E); (0x14400, 0x14646); (0x16800, 0x16A38); (0x16A40, 0x16A5E);
   (0x16A60, 0x16A69); (0x16A70, 0x16ABE); (0x16AC0, 0x16AC9); (0x16AD0, 0x16AED);
   (0x16B00, 0x16B2F); (0x16B40, 0x16B43); (0x16B50, 0x16B59); (0x16B5B, 0x16B61);
   (0x16B63, 0x16B77); (0x16B7D, 0x16B8F); (0x16E40, 0x16E96); (0x16F00, 0x16F4A);
   (0x16F50, 0x16F50); (0x16F93, 0x16F9F); (0x16FE0, 0x16FE1); (0x16FE3, 0x16FE3);
   (0x17000, 0x187F7); (0x18800, 0x18CD5); (0x18D00, 0x18D08); (0x1AFF0, 0x1AFF3);
   (0x1AFF5, 0x1AFFB); (0x1AFFD, 0x1AFFE); (0x1B000, 0x1B122); (0x1B150, 0x1B152);
   (0x1B164, 0x1B167); (0x1B170, 0x1B2FB); (0x1BC00, 0x1BC6A); (0x1BC70, 0x1BC7C);
   (0x1BC80, 0x1BC88); (0x1BC90, 0x1BC99); (0x1D2E0, 0x1D2F3); (0x1D360, 0x1D378);
   (0x1D400, 0x1D454); (0x1D456, 0x1D49C); (0x1D49E, 0x1D49F); (0x1D4A2, 0x1D4A2);
   (0x1D4A5, 0x1D4A6); (0x1D4A9, 0x1D4AC); (0x1D4AE, 0x1D4B9); (0x1D4BB, 0x1D4BB);
   (0x1D4BD, 0x1D4C3); (0x1D4C5, 0x1D505); (0x1D507, 0x1D50A); (0x1D50D, 0x1D514);
   (0x1D516, 0x1D51C); (0x1D51E, 0x1D539); (0x1D53B, 0x1D53E); (0x1D540, 0x1D544);
   (0x1D546, 0x1D546); (0x1D54A, 0x1D550); (0x1D552, 0x1D6A5); (0x1D6A8, 0x1D6C0);
   (0x1D6C2, 0x1D6DA); (0x1D6DC, 0x1D6FA); (0x1D6FC, 0x1D714); (0x1D716, 0x1D734);
   (0x1D736, 0x1D74E); (0x1D750, 0x1D76E); (0x1D770, 0x1D788); (0x1D78A, 0x1D7A8);
   (0x1D7AA, 0x1D7C2); (0x1D7C4, 0x1D7CB); (0x1D7CE, 0x1D7FF); (0x1DF00, 0x1DF1E);
   (0x1E100, 0x1E12C); (0x1E137, 0x1E13D); (0x1E140, 0x1E149); (0x1E14E, 0x1E14E);
   (0x1E290, 0x1E2AD); (0x1E2C0, 0x1E2EB); (0x1E2F0, 0x1E2F9); (0x1E7E0, 0x1E7E6);
   (0x1E7E8, 0x1E7EB); (0x1E7ED, 0x1E7EE); (0x1E7F0, 0x1E7FE); (0x1E800, 0x1E8C4);
   (0x1E8C7, 0x1E8CF); (0x1E900, 0x1E943); (0x1E94B, 0x1E94B); (0x1E950, 0x1E959);
   (0x1EC71, 0x1ECAB); (0x1ECAD, 0x1ECAF); (0x1ECB1, 0x1ECB4); (0x1ED01, 0x1ED2D);
   (0x1ED2F, 0x1ED3D); (0x1EE00, 0x1EE03); (0x1EE05, 0x1EE1F); (0x1EE21, 0x1EE22);
   (0x1EE24, 0x1EE24); (0x1EE27, 0x1EE27); (0x1EE29, 0x1EE32); (0x1EE34, 0x1EE37);
   (0x1EE39, 0x1EE39); (0x1EE3B, 0x1EE3B); (0x1EE42, 0x1EE42); (0x1EE47, 0x1EE47);
   (0x1EE49, 0x1EE49); (0x1EE4B, 0x1EE4B); (0x1EE4D, 0x1EE4F); (0x1EE51, 0x1EE52);
   (0x1EE54, 0x1EE54); (0x1EE57, 0x1EE57); (0x1EE59, 0x1EE59); (0x1EE5B, 0x1EE5B);
   (0x1EE5D, 0x1EE5D); (0x1EE5F, 0x1EE5F); (0x1EE61, 0x1EE62); (0x1EE64, 0x1EE64);
   (0x1EE67, 0x1EE6A); (0x1EE6C, 0x1EE72); (0x1EE74, 0x1EE77); (0x1EE79, 0x1EE7C);
   (0x1EE7E, 0x1EE7E); (0x1EE80, 0x1EE89); (0x1EE8B, 0x1EE9B); (0x1EEA1, 0x1EEA3);
   (0x1EEA5, 0x1EEA9); (0x1EEAB, 0x1EEBB); (0x1F100, 0x1F10C); (0x1FBF0, 0x1FBF9);
   (0x20000, 0x2A6DF); (0x2A700, 0x2B738); (0x2B740, 0x2B81D); (0x2B820, 0x2CEA1);
   (0x2CEB0, 0x2EBE0); (0x2F800, 0x2FA1D); (0x30000, 0x3134A)]%N.

(** [str.isspace] on one character; these are also the characters that
    [str.strip()] removes. *)
Definition space_ranges : list (N * N) :=
  [(0x9, 0xD); (0x1C, 0x20); (0x85, 0x85); (0xA0, 0xA0); (0x1680, 0x1680); (0x2000, 0x200A);
   (0x2028, 0x2029); (0x202F, 0x202F); (0x205F, 0x205F); (0x3000, 0x3000)]%N.

Definition isalnum (c : char) : bool := in_ranges c alnum_ranges.
Definition isspace (c : char) : bool := in_ranges c space_ranges.

Fixpoint lstrip_by (p : char -> bool) (s : str) : str :=
  match s with
  | [] => []
  | c :: rest => if p c then lstrip_by p rest else s
  end.

Definition rstrip_by (p : char -> bool) (s : str) : str :=
  rev (lstrip_by p (rev s)).

Definition strip_by (p : char -> bool) (s : str) : str :=
  rstrip_by p (lstrip_by p s).

(** [s.strip()] *)
Definition strip (s : str) : str := strip_by isspace s.

Definition mem (c : char) (cs : str) : bool := existsb (N.eqb c) cs.

(** [s.strip(chars)] *)
Definition strip_chars (chars s : str) : str := strip_by (fun c => mem c chars) s.

(** [s.replace(a, b)] for one-character [a] and [b] *)
Definition replace (a b : char) (s : str) : str :=
  List.map (fun c => if c =? a then b else c) s.

(** [s.rfind(c)] for a one-character [c]: the last index of [c], if any. *)
Fixpoint rfind (c : char) (s : str) : option nat :=
  match s with
  | [] => None
  | x :: rest =>
      match rfind c rest with
      | Some i => Some (S i)
      | None => if x =? c then Some O else None
      end
  end.

(** [s.startswith(pre)] *)
Fixpoint startswith (pre s : str) : bool :=
  match pre, s with
  | [], _ => true
  | _ :: _, [] => false
  | a :: pre', b :: s' => (a =? b) && startswith pre' s'
  end.

(** [needle in hay] *)
Fixpoint contains (needle hay : str) : bool :=
  startswith needle hay ||
  match hay with
  | [] => false
  | _ :: rest => contains needle rest
  end.

(** The last [width] decimal digits of [n], lowest first. *)
Fixpoint digits_rev (width : nat) (n : N) : str :=
  match width with
  | O => []
  | S width' => (48 + n mod 10) :: digits_rev width' (n / 10)
  end.

(** [n] in decimal, zero-padded on the left to [width] characters, as
    [strftime] prints a field of a date; the fields of a [datetime] fit their
    widths (a year has at most four digits). *)

Definition zero_padded (width : nat) (n : N) : str := rev (digits_rev width n).

(** [str.isprintable] on one character, as CPython 3.11 has it (Unicode
    14.0). *)
Definition printable_ranges : list (N * N) :=
  [(0x20, 0x7E); (0xA1, 0xAC); (0xAE, 0x377); (0x37A, 0x37F); (0x384, 0x38A); (0x38C, 0x38C);
   (0x38E, 0x3A1); (0x3A3, 0x52F); (0x531, 0x556); (0x559, 0x58A); (0x58D, 0x58F);
   (0x591, 0x5C7); (0x5D0, 0x5EA); (0x5EF, 0x5F4); (0x606, 0x61B); (0x61D, 0x6DC);
   (0x6DE, 0x70D); (0x710, 0x74A); (0x74D, 0x7B1); (0x7C0, 0x7FA); (0x7FD, 0x82D);
   (0x830, 0x83E); (0x840, 0x85B); (0x85E, 0x85E); (0x860, 0x86A); (0x870, 0x88E);
   (0x898, 0x8E1); (0x8E3, 0x983); (0x985, 0x98C); (0x98F, 0x990); (0x993, 0x9A8);
   (0x9AA, 0x9B0); (0x9B2, 0x9B2); (0x9B6, 0x9B9); (0x9BC, 0x9C4); (0x9C7, 0x9C8);
   (0x9CB, 0x9CE); (0x9D7, 0x9D7); (0x9DC, 0x9DD); (0x9DF, 0x9E3); (0x9E6, 0x9FE);
   (0xA01, 0xA03); (0xA05, 0xA0A); (0xA0F, 0xA10); (0xA13, 0xA28); (0xA2A, 0xA30);
   (0xA32, 0xA33); (0xA35, 0xA36); (0xA38, 0xA39); (0xA3C, 0xA3C); (0xA3E, 0xA42);
   (0xA47, 0xA48); (0xA4B, 0xA4D); (0xA51, 0xA51); (0xA59, 0xA5C); (0xA5E, 0xA5E);
   (0xA66, 0xA76); (0xA81, 0xA83); (0xA85, 0xA8D); (0xA8F, 0xA91); (0xA93, 0xAA8);
   (0xAAA, 0xAB0); (0xAB2, 0xAB3); (0xAB5, 0xAB9); (0xABC, 0xAC5); (0xAC7, 0xAC9);
   (0xACB, 0xACD); (0xAD0, 0xAD0); (0xAE0, 0xAE3); (0xAE6, 0xAF1); (0xAF9, 0xAFF);
   (0xB01, 0xB03); (0xB05, 0xB0C); (0xB0F, 0xB10); (0xB13, 0xB28); (0xB2A, 0xB30);
   (0xB32, 0xB33); (0xB35, 0xB39); (0xB3C, 0xB44); (0xB47, 0xB48); (0xB4B, 0xB4D);
   (0xB55, 0xB57); (0xB5C, 0xB5D); (0xB5F, 0xB63); (0xB66, 0xB77); (0xB82, 0xB83);
   (0xB85, 0xB8A); (0xB8E, 0xB90); (0xB92, 0xB95); (0xB99, 0xB9A); (0xB9C, 0xB9C);
   (0xB9E, 0xB9F); (0xBA3, 0xBA4); (0xBA8, 0xBAA); (0xBAE, 0xBB9); (0xBBE, 0xBC2);
   (0xBC6, 0xBC8); (0xBCA, 0xBCD); (0xBD0, 0xBD0); (0xBD7, 0xBD7); (0xBE6, 0xBFA);
   (0xC00, 0xC0C); (0xC0E, 0xC10); (0xC12, 0xC28); (0xC2A, 0xC39); (0xC3C, 0xC44);
   (0xC46, 0xC48); (0xC4A, 0xC4D); (0xC55, 0xC56); (0xC58, 0xC5A); (0xC5D, 0xC5D);
   (0xC60, 0xC63); (0xC66, 0xC6F); (0xC77, 0xC8C); (0xC8E, 0xC90); (0xC92, 0xCA8);
   (0xCAA, 0xCB3); (0xCB5, 0xCB9); (0xCBC, 0xCC4); (0xCC6, 0xCC8); (0xCCA, 0xCCD);
   (0xCD5, 0xCD6); (0xCDD, 0xCDE); (0xCE0, 0xCE3); (0xCE6, 0xCEF); (0xCF1, 0xCF2);
   (0xD00, 0xD0C); (0xD0E, 0xD10); (0xD12, 0xD44); (0xD46, 0xD48); (0xD4A, 0xD4F);
   (0xD54, 0xD63); (0xD66, 0xD7F); (0xD81, 0xD83); (0xD85, 0xD96); (0xD9A, 0xDB1);
   (0xDB3, 0xDBB); (0xDBD, 0xDBD); (0xDC0, 0xDC6); (0xDCA, 0xDCA); (0xDCF, 0xDD4);
   (0xDD6, 0xDD6); (0xDD8, 0xDDF); (0xDE6, 0xDEF); (0xDF2, 0xDF4); (0xE01, 0xE3A);
   (0xE3F, 0xE5B); (0xE81, 0xE82); (0xE84, 0xE84); (0xE86, 0xE8A); (0xE8C, 0xEA3);
   (0xEA5, 0xEA5); (0xEA7, 0xEBD); (0xEC0, 0xEC4); (0xEC6, 0xEC6); (0xEC8, 0xECD);
   (0xED0, 0xED9); (0xEDC, 0xEDF); (0xF00, 0xF47); (0xF49, 0xF6C); (0xF71, 0xF97);
   (0xF99, 0xFBC); (0xFBE, 0xFCC); (0xFCE, 0xFDA); (0x1000, 0x10C5); (0x10C7, 0x10C7);
   (0x10CD, 0x10CD); (0x10D0, 0x1248); (0x124A, 0x124D); (0x1250, 0x1256); (0x1258, 0x1258);
   (0x125A, 0x125D); (0x1260, 0x1288); (0x128A, 0x128D); (0x1290, 0x12B0); (0x12B2, 0x12B5);
   (0x12B8, 0x12BE); (0x12C0, 0x12C0); (0x12C2, 0x12C5); (0x12C8, 0x12D6); (0x12D8, 0x1310);
   (0x1312, 0x1315); (0x1318, 0x135A); (0x135D, 0x137C); (0x1380, 0x1399); (0x13A0, 0x13F5);
   (0x13F8, 0x13FD); (0x1400, 0x167F); (0x1681, 0x169C); (0x16A0, 0x16F8); (0x1700, 0x1715);
   (0x171F, 0x1736); (0x1740, 0x1753); (0x1760, 0x176C); (0x176E, 0x1770); (0x1772, 0x1773);
   (0x1780, 0x17DD); (0x17E0, 0x17E9); (0x17F0, 0x17F9); (0x1800, 0x180D); (0x180F, 0x1819);
   (0x1820, 0x1878); (0x1880, 0x18AA); (0x18B0, 0x18F5); (0x1900, 0x191E); (0x1920, 0x192B);
   (0x1930, 0x193B); (0x1940, 0x1940); (0x1944, 0x196D); (0x1970, 0x1974); (0x1980, 0x19AB);
   (0x19B0, 0x19C9); (0x19D0, 0x19DA); (0x19DE, 0x1A1B); (0x1A1E, 0x1A5E); (0x1A60, 0x1A7C);
   (0x1A7F, 0x1A89); (0x1A90, 0x1A99); (0x1AA0, 0x1AAD); (0x1AB0, 0x1ACE); (0x1B00, 0x1B4C);
   (0x1B50, 0x1B7E); (0x1B80, 0x1BF3); (0x1BFC, 0x1C37); (0x1C3B, 0x1C49); (0x1C4D, 0x1C88);
   (0x1C90, 0x1CBA); (0x1CBD, 0x1CC7); (0x1CD0, 0x1CFA); (0x1D00, 0x1F15); (0x1F18, 0x1F1D);
   (0x1F20, 0x1F45); (0x1F48, 0x1F4D); (0x1F50, 0x1F57); (0x1F59, 0x1F59); (0x1F5B, 0x1F5B);
   (0x1F5D, 0x1F5D); (0x1F5F, 0x1F7D); (0x1F80, 0x1FB4); (0x1FB6, 0x1FC4); (0x1FC6, 0x1FD3);
   (0x1FD6, 0x1FDB); (0x1FDD, 0x1FEF); (0x1FF2, 0x1FF4); (0x1FF6, 0x1FFE); (0x2010, 0x2027);
   (0x2030, 0x205E); (0x2070, 0x2071); (0x2074, 0x208E); (0x2090, 0x209C); (0x20A0, 0x20C0);
   (0x20D0, 0x20F0); (0x2100, 0x218B); (0x2190, 0x2426); (0x2440, 0x244A); (0x2460, 0x2B73);
   (0x2B76, 0x2B95); (0x2B97, 0x2CF3); (0x2CF9, 0x2D25); (0x2D27, 0x2D27); (0x2D2D, 0x2D2D);
   (0x2D30, 0x2D67); (0x2D6F, 0x2D70); (0x2D7F, 0x2D96); (0x2DA0, 0x2DA6); (0x2DA8, 0x2DAE);
   (0x2DB0, 0x2DB6); (0x2DB8, 0x2DBE); (0x2DC0, 0x2DC6); (0x2DC8, 0x2DCE); (0x2DD0, 0x2DD6);
   (0x2DD8, 0x2DDE); (0x2DE0, 0x2E5D); (0x2E80, 0x2E99); (0x2E9B, 0x2EF3); (0x2F00, 0x2FD5);
   (0x2FF0, 0x2FFB); (0x3001, 0x303F); (0x3041, 0x3096); (0x3099, 0x30FF); (0x3105, 0x312F);
   (0x3131, 0x318E); (0x3190, 0x31E3); (0x31F0, 0x321E); (0x3220, 0xA48C); (0xA490, 0xA4C6);
   (0xA4D0, 0xA62B); (0xA640, 0xA6F7); (0xA700, 0xA7CA); (0xA7D0, 0xA7D1); (0xA7D3, 0xA7D3);
   (0xA7D5, 0xA7D9); (0xA7F2, 0xA82C); (0xA830, 0xA839); (0xA840, 0xA877); (0xA880, 0xA8C5);
   (0xA8CE, 0xA8D9); (0xA8E0, 0xA953); (0xA95F, 0xA97C); (0xA980, 0xA9CD); (0xA9CF, 0xA9D9);
   (0xA9DE, 0xA9FE); (0xAA00, 0xAA36); (0xAA40, 0xAA4D); (0xAA50, 0xAA59); (0xAA5C, 0xAAC2);
   (0xAADB, 0xAAF6); (0xAB01, 0xAB06); (0xAB09, 0xAB0E); (0xAB11, 0xAB16); (0xAB20, 0xAB26);
   (0xAB28, 0xAB2E); (0xAB30, 0xAB6B); (0xAB70, 0xABED); (0xABF0, 0xABF9); (0xAC00, 0xD7A3);
   (0xD7B0, 0xD7C6); (0xD7CB, 0xD7FB); (0xF900, 0xFA6D); (0xFA70, 0xFAD9); (0xFB00, 0xFB06);
   (0xFB13, 0xFB17); (0xFB1D, 0xFB36); (0xFB38, 0xFB3C); (0xFB3E, 0xFB3E); (0xFB40, 0xFB41);
   (0xFB43, 0xFB44); (0xFB46, 0xFBC2); (0xFBD3, 0xFD8F); (0xFD92, 0xFDC7); (0xFDCF, 0xFDCF);
   (0xFDF0, 0xFE19); (0xFE20, 0xFE52); (0xFE54, 0xFE66); (0xFE68, 0xFE6B); (0xFE70, 0xFE74);
   (0xFE76, 0xFEFC); (0xFF01, 0xFFBE); (0xFFC2, 0xFFC7); (0xFFCA, 0xFFCF); (0xFFD2, 0xFFD7);
   (0xFFDA, 0xFFDC); (0xFFE0, 0xFFE6); (0xFFE8, 0xFFEE); (0xFFFC, 0xFFFD); (0x10000, 0x1000B);
   (0x1000D, 0x10026); (0x10028, 0x1003A); (0x1003C, 0x1003D); (0x1003F, 0x1004D);
   (0x10050, 0x1005D); (0x10080, 0x100FA); (0x10100, 0x10102); (0x10107, 0x10133);
   (0x10137, 0x1018E); (0x10190, 0x1019C); (0x101A0, 0x101A0); (0x101D0, 0x101FD);
   (0x10280, 0x1029C); (0x102A0, 0x102D0); (0x102E0, 0x102FB); (0x10300, 0x10323);
   (0x1032D, 0x1034A); (0x10350, 0x1037A); (0x10380, 0x1039D); (0x1039F, 0x103C3);
   (0x103C8, 0x103D5); (0x10400, 0x1049D); (0x104A0, 0x104A9); (0x104B0, 0x104D3);
   (0x104D8, 0x104FB); (0x10500, 0x10527); (0x10530, 0x10563); (0x1056F, 0x1057A);
   (0x1057C, 0x1058A); (0x1058C, 0x10592); (0x10594, 0x10595); (0x10597, 0x105A1);
   (0x105A3, 0x105B1); (0x105B3, 0x105B9); (0x105BB, 0x105BC); (0x10600, 0x10736);
   (0x10740, 0x10755); (0x10760, 0x10767); (0x10780, 0x10785); (0x10787, 0x107B0);
   (0x107B2, 0x107BA); (0x10800, 0x10805); (0x10808, 0x10808); (0x1080A, 0x10835);
   (0x10837, 0x10838); (0x1083C, 0x1083C); (0x1083F, 0x10855); (0x10857, 0x1089E);
   (0x108A7, 0x108AF); (0x108E0, 0x108F2); (0x108F4, 0x108F5); (0x108FB, 0x1091B);
   (0x1091F, 0x10939); (0x1093F, 0x1093F); (0x10980, 0x109B7); (0x109BC, 0x109CF);
   (0x109D2, 0x10A03); (0x10A05, 0x10A06); (0x10A0C, 0x10A13); (0x10A15, 0x10A17);
   (0x10A19, 0x10A35); (0x10A38, 0x10A3A); (0x10A3F, 0x10A48); (0x10A50, 0x10A58);
   (0x10A60, 0x10A9F); (0x10AC0, 0x10AE6); (0x10AEB, 0x10AF6); (0x10B00, 0x10B35);
   (0x10B39, 0x10B55); (0x10B58, 0x10B72); (0x10B78, 0x10B91); (0x10B99, 0x10B9C);
   (0x10BA9, 0x10BAF); (0x10C00, 0x10C48); (0x10C80, 0x10CB2); (0x10CC0, 0x10CF2);
   (0x10CFA, 0x10D27); (0x10D30, 0x10D39); (0x10E60, 0x10E7E); (0x10E80, 0x10EA9);
   (0x10EAB, 0x10EAD); (0x10EB0, 0x10EB1); (0x10F00, 0x10F27); (0x10F30, 0x10F59);
   (0x10F70, 0x10F89); (0x10FB0, 0x10FCB); (0x10FE0, 0x10FF6); (0x11000, 0x1104D);
   (0x11052, 0x11075); (0x1107F, 0x110BC); (0x110BE, 0x110C2); (0x110D0, 0x110E8);
   (0x110F0, 0x110F9); (0x11100, 0x11134); (0x11136, 0x11147); (0x11150, 0x11176);
   (0x11180, 0x111DF); (0x111E1, 0x111F4); (0x11200, 0x11211); (0x11213, 0x1123E);
   (0x11280, 0x11286); (0x11288, 0x11288); (0x1128A, 0x1128D); (0x1128F, 0x1129D);
   (0x1129F, 0x112A9); (0x112B0, 0x112EA); (0x112F0, 0x112F9); (0x11300, 0x11303);
   (0x11305, 0x1130C); (0x1130F, 0x11310); (0x11313, 0x11328); (0x1132A, 0x11330);
   (0x11332, 0x11333); (0x11335, 0x11339); (0x1133B, 0x11344); (0x11347, 0x11348);
   (0x1134B, 0x1134D); (0x11350, 0x11350); (0x11357, 0x11357); (0x1135D, 0x11363);
   (0x11366, 0x1136C); (0x11370, 0x11374); (0x11400, 0x1145B); (0x1145D, 0x11461);
   (0x11480, 0x114C7); (0x114D0, 0x114D9); (0x11580, 0x115B5); (0x115B8, 0x115DD);
   (0x11600, 0x11644); (0x11650, 0x11659); (0x11660, 0x1166C); (0x11680, 0x116B9);
   (0x116C0, 0x116C9); (0x11700, 0x1171A); (0x1171D, 0x1172B); (0x11730, 0x11746);
   (0x11800, 0x1183B); (0x118A0, 0x118F2); (0x118FF, 0x11906); (0x11909, 0x11909);
   (0x1190C, 0x11913); (0x11915, 0x11916); (0x11918, 0x11935); (0x11937, 0x11938);
   (0x1193B, 0x11946); (0x11950, 0x11959); (0x119A0, 0x119A7); (0x119AA, 0x119D7);
   (0x119DA, 0x119E4); (0x11A00, 0x11A47); (0x11A50, 0x11AA2); (0x11AB0, 0x11AF8);
   (0x11C00, 0x11C08); (0x11C0A, 0x11C36); (0x11C38, 0x11C45); (0x11C50, 0x11C6C);
   (0x11C70, 0x11C8F); (0x11C92, 0x11CA7); (0x11CA9, 0x11CB6); (0x11D00, 0x11D06);
   (0x11D08, 0x11D09); (0x11D0B, 0x11D36); (0x11D3A, 0x11D3A); (0x11D3C, 0x11D3D);
   (0x11D3F, 0x11D47); (0x11D50, 0x11D59); (0x11D60, 0x11D65); (0x11D67, 0x11D68);
   (0x11D6A, 0x11D8E); (0x11D90, 0x11D91); (0x11D93, 0x11D98); (0x11DA0, 0x11DA9);
   (0x11EE0, 0x11EF8); (0x11FB0, 0x11FB0); (0x11FC0, 0x11FF1); (0x11FFF, 0x12399);
   (0x12400, 0x1246E); (0x12470, 0x12474); (0x12480, 0x12543); (0x12F90, 0x12FF2);
   (0x13000, 0x1342E); (0x14400, 0x14646); (0x16800, 0x16A38); (0x16A40, 0x16A5E);
   (0x16A60, 0x16A69); (0x16A6E, 0x16ABE); (0x16AC0, 0x16AC9); (0x16AD0, 0x16AED);
   (0x16AF0, 0x16AF5); (0x16B00, 0x16B45); (0x16B50, 0x16B59); (0x16B5B, 0x16B61);
   (0x16B63, 0x16B77); (0x16B7D, 0x16B8F); (0x16E40, 0x16E9A); (0x16F00, 0x16F4A);
   (0x16F4F, 0x16F87); (0x16F8F, 0x16F9F); (0x16FE0, 0x16FE4); (0x16FF0, 0x16FF1);
   (0x17000, 0x187F7); (0x18800, 0x18CD5); (0x18D00, 0x18D08); (0x1AFF0, 0x1AFF3);
   (0x1AFF5, 0x1AFFB); (0x1AFFD, 0x1AFFE); (0x1B000, 0x1B122); (0x1B150, 0x1B152);
   (0x1B164, 0x1B167); (0x1B170, 0x1B2FB); (0x1BC00, 0x1BC6A); (0x1BC70, 0x1BC7C);
   (0x1BC80, 0x1BC88); (0x1BC90, 0x1BC99); (0x1BC9C, 0x1BC9F); (0x1CF00, 0x1CF2D);
   (0x1CF30, 0x1CF46); (0x1CF50, 0x1CFC3); (0x1D000, 0x1D0F5); (0x1D100, 0x1D126);
   (0x1D129, 0x1D172); (0x1D17B, 0x1D1EA); (0x1D200, 0x1D245); (0x1D2E0, 0x1D2F3);
   (0x1D300, 0x1D356); (0x1D360, 0x1D378); (0x1D400, 0x1D454); (0x1D456, 0x1D49C);
   (0x1D49E, 0x1D49F); (0x1D4A2, 0x1D4A2); (0x1D4A5, 0x1D4A6); (0x1D4A9, 0x1D4AC);
   (0x1D4AE, 0x1D4B9); (0x1D4BB, 0x1D4BB); (0x1D4BD, 0x1D4C3); (0x1D4C5, 0x1D505);
   (0x1D507, 0x1D50A); (0x1D50D, 0x1D514); (0x1D516, 0x1D51C); (0x1D51E, 0x1D539);
   (0x1D53B, 0x1D53E); (0x1D540, 0x1D544); (0x1D546, 0x1D546); (0x1D54A, 0x1D550);
   (0x1D552, 0x1D6A5); (0x1D6A8, 0x1D7CB); (0x1D7CE, 0x1DA8B); (0x1DA9B, 0x1DA9F);
   (0x1DAA1, 0x1DAAF); (0x1DF00, 0x1DF1E); (0x1E000, 0x1E006); (0x1E008, 0x1E018);
   (0x1E01B, 0x1E021); (0x1E023, 0x1E024); (0x1E026, 0x1E02A); (0x1E100, 0x1E12C);
   (0x1E130, 0x1E13D); (0x1E140, 0x1E149); (0x1E14E, 0x1E14F); (0x1E290, 0x1E2AE);
   (0x1E2C0, 0x1E2F9); (0x1E2FF, 0x1E2FF); (0x1E7E0, 0x1E7E6); (0x1E7E8, 0x1E7EB);
   (0x1E7ED, 0x1E7EE); (0x1E7F0, 0x1E7FE); (0x1E800, 0x1E8C4); (0x1E8C7, 0x1E8D6);
   (0x1E900, 0x1E94B); (0x1E950, 0x1E959); (0x1E95E, 0x1E95F); (0x1EC71, 0x1ECB4);
   (0x1ED01, 0x1ED3D); (0x1EE00, 0x1EE03); (0x1EE05, 0x1EE1F); (0x1EE21, 0x1EE22);
   (0x1EE24, 0x1EE24); (0x1EE27, 0x1EE27); (0x1EE29, 0x1EE32); (0x1EE34, 0x1EE37);
   (0x1EE39, 0x1EE39); (0x1EE3B, 0x1EE3B); (0x1EE42, 0x1EE42); (0x1EE47, 0x1EE47);
   (0x1EE49, 0x1EE49); (0x1EE4B, 0x1EE4B); (0x1EE4D, 0x1EE4F); (0x1EE51, 0x1EE52);
   (0x1EE54, 0x1EE54); (0x1EE57, 0x1EE57); (0x1EE59, 0x1EE59); (0x1EE5B, 0x1EE5B);
   (0x1EE5D, 0x1EE5D); (0x1EE5F, 0x1EE5F); (0x1EE61, 0x1EE62); (0x1EE64, 0x1EE64);
   (0x1EE67, 0x1EE6A); (0x1EE6C, 0x1EE72); (0x1EE74, 0x1EE77); (0x1EE79, 0x1EE7C);
   (0x1EE7E, 0x1EE7E); (0x1EE80, 0x1EE89); (0x1EE8B, 0x1EE9B); (0x1EEA1, 0x1EEA3);
   (0x1EEA5, 0x1EEA9); (0x1EEAB, 0x1EEBB); (0x1EEF0, 0x1EEF1); (0x1F000, 0x1F02B);
   (0x1F030, 0x1F093); (0x1F0A0, 0x1F0AE); (0x1F0B1, 0x1F0BF); (0x1F0C1, 0x1F0CF);
   (0x1F0D1, 0x1F0F5); (0x1F100, 0x1F1AD); (0x1F1E6, 0x1F202); (0x1F210, 0x1F23B);
   (0x1F240, 0x1F248); (0x1F250, 0x1F251); (0x1F260, 0x1F265); (0x1F300, 0x1F6D7);
   (0x1F6DD, 0x1F6EC); (0x1F6F0, 0x1F6FC); (0x1F700, 0x1F773); (0x1F780, 0x1F7D8);
   (0x1F7E0, 0x1F7EB); (0x1F7F0, 0x1F7F0); (0x1F800, 0x1F80B); (0x1F810, 0x1F847);
   (0x1F850, 0x1F859); (0x1F860, 0x1F887); (0x1F890, 0x1F8AD); (0x1F8B0, 0x1F8B1);
   (0x1F900, 0x1FA53); (0x1FA60, 0x1FA6D); (0x1FA70, 0x1FA74); (0x1FA78, 0x1FA7C);
   (0x1FA80, 0x1FA86); (0x1FA90, 0x1FAAC); (0x1FAB0, 0x1FABA); (0x1FAC0, 0x1FAC5);
   (0x1FAD0, 0x1FAD9); (0x1FAE0, 0x1FAE7); (0x1FAF0, 0x1FAF6); (0x1FB00, 0x1FB92);
   (0x1FB94, 0x1FBCA); (0x1FBF0, 0x1FBF9); (0x20000, 0x2A6DF); (0x2A700, 0x2B738);
   (0x2B740, 0x2B81D); (0x2B820, 0x2CEA1); (0x2CEB0, 0x2EBE0); (0x2F800, 0x2FA1D);
   (0x30000, 0x3134A); (0xE0100, 0xE01EF)]%N.

Definition isprintable (c : char) : bool := in_ranges c printable_ranges.

Definition hex_digit (d : N) : char := if d <? 10 then 48 + d else 87 + d.

(** The last [width] hexadecimal digits of [n], lowest first. *)
Fixpoint hex_rev (width : nat) (n : N) : str :=
  match width with
  | O => []
  | S width' => hex_digit (n mod 16) :: hex_rev width' (n / 16)
  end.

Definition hex_padded (width : nat) (n : N) : str := rev (hex_rev width n).

(** One character of a string as [repr] writes it between the quotes [q]. *)
Definition repr_char (q c : char) : str :=
  if (c =? q) || (c =? ch "\") then [ch "\"; c]
  else if c =? 9 then u "\t"
  else if c =? 10 then u "\n"
  else if c =? 13 then u "\r"
  else if (c <? 32) || (c =? 127) then u "\x" ++ hex_padded 2 c
  else if c <? 127 then [c]
  else if isprintable c then [c]
  else if c <=? 0xFF then u "\x" ++ hex_padded 2 c
  else if c <=? 0xFFFF then u "\u" ++ hex_padded 4 c
  else u "\U" ++ hex_padded 8 c.

(** [repr(s)] of a string: in single quotes, unless it has a single quote
    and no double quote. *)
Definition repr (s : str) : str :=
  let q := if mem (ch "'") s && negb (mem 34 s) then 34 else ch "'" in
  [q] ++ flat_map (repr_char q) s ++ [q].

End Py.
Import Py.

(** ** pathlib and os.path *)

Module PathLib.

(** The two path flavours of pathlib: they differ in the separator that
    [str] prints and in the separators that parsing accepts. *)
Inductive Flavour := Posix | Windows.

Definition sep (fl : Flavour) : char :=
  match fl with Posix => ch "/" | Windows => ch "\" end.

Definition is_sep (fl : Flavour) (c : char) : bool :=
  (c =? ch "/") || match fl with Posix => false | Windows => c =? ch "\" end.

(** A pure path: the anchor (drive and root; empty for a relative path) and
    the components below it. *)
Record Path := mkPath { anchor : str; parts : list str }.

Fixpoint split_on (p : char -> bool) (s : str) : list str :=
  match s with
  | [] => [[]]
  | c :: rest =>
      if p c then [] :: split_on p rest
      else match split_on p rest with
           | [] => [[c]]
           | w :: ws => (c :: w) :: ws
           end
  end.

Definition str_eqb (a b : str) : bool := bool_decide (a = b).

Definition is_letter (c : char) : bool :=
  ((ch "a" <=? c) && (c <=? ch "z")) || ((ch "A" <=? c) && (c <=? ch "Z")).

(** Drive of a Windows path ([X:]); UNC shares are not modelled. *)
Definition split_drive (fl : Flavour) (s : str) : str * str :=
  match fl, s with
  | Windows, d :: c :: rest =>
      if is_letter d && (c =? ch ":") then ([d; c], rest) else ([], s)
  | _, _ => ([], s)
  end.

(** Root of a path: one separator; POSIX keeps exactly two leading slashes
    apart from one. *)
Definition split_root (fl : Flavour) (s : str) : str * str :=
  match s with
  | c :: rest =>
      if is_sep fl c then
        match fl, rest with
        | Posix, c2 :: c3 :: _ =>
            if (c2 =? ch "/") && negb (c3 =? ch "/") then ([c; c2], rest) else ([sep fl], rest)
        | Posix, [c2] => if c2 =? ch "/" then ([c; c2], rest) else ([sep fl], rest)
        | _, _ => ([sep fl], rest)
        end
      else ([], s)
  | [] => ([], s)
  end.

Definition is_component (w : str) : bool :=
  negb (str_eqb w [] || str_eqb w (u ".")).

(** [Path(s)]: empty components and [.] are dropped, [..] is kept. *)
Definition Path_of (fl : Flavour) (s : str) : Path :=
  let (drv, s1) := split_drive fl s in
  let (root, s2) := split_root fl s1 in
  mkPath (drv ++ root) (List.filter is_component (split_on (is_sep fl) s2)).

(** [p / s] *)
Definition joinpath (fl : Flavour) (p : Path) (s : str) : Path :=
  let q := Path_of fl s in
  match anchor q with
  | [] => mkPath (anchor p) (parts p ++ parts q)
  | _ :: _ => q
  end.

(** [p.name] *)
Definition name (p : Path) : str := List.last (parts p) [].

(** [p.stem]: the name up to its last dot, unless that dot is the first or
    the last character. *)
Definition stem (p : Path) : str :=
  let n := name p in
  match rfind (ch ".") n with
  | Some i => if (0 <? i)%nat && (i <? length n - 1)%nat then firstn i n else n
  | None => n
  end.

(** [p.parent] *)
Definition parent (p : Path) : Path := mkPath (anchor p) (removelast (parts p)).

Fixpoint join (s : str) (ws : list str) : str :=
  match ws with
  | [] => []
  | [w] => w
  | w :: rest => w ++ s ++ join s rest
  end.

(** [str(p)] *)
Definition to_str (fl : Flavour) (p : Path) : str :=
  match anchor p, parts p with
  | [], [] => u "."
  | a, ps => a ++ join [sep fl] ps
  end.

Fixpoint strip_prefix (pre l : list str) : option (list str) :=
  match pre, l with
  | [], _ => Some l
  | _ :: _, [] => None
  | a :: pre', b :: l' => if str_eqb a b then strip_prefix pre' l' else None
  end.

(** [p.relative_to(other)]; [None] stands for the [ValueError]. *)
Definition relative_to (p other : Path) : option Path :=
  if str_eqb (anchor p) (anchor other) then
    match strip_prefix (parts other) (parts p) with
    | Some rest => Some (mkPath [] rest)
    | None => None
    end
  else None.

(** [os.path.basename(s)] *)
Definition basename (fl : Flavour) (s : str) : str :=
  List.last (split_on (is_sep fl) (snd (split_drive fl s))) [].

(** [os.path.join(a, b)] for a base name [b]: a separator comes between the
    two unless [a] ends with one or is no more than a drive. *)
Definition join_text (fl : Flavour) (a b : str) : str :=
  match rev (snd (split_drive fl a)) with
  | [] => a ++ b
  | c :: _ => if is_sep fl c then a ++ b else a ++ [sep fl] ++ b
  end.

(** [p.as_posix()] *)
Definition as_posix (fl : Flavour) (p : Path) : str :=
  replace (sep fl) (ch "/") (to_str fl p).

(** [repr(p)] of a concrete path: the class of the platform, and the text
    of the path with forward slashes. *)
Definition repr_path (fl : Flavour) (p : Path) : str :=
  match fl with Posix => u "PosixPath" | Windows => u "WindowsPath" end ++
  u "(" ++ repr (as_posix fl p) ++ u ")".

(** A path text that can only name a directory: it ends in a separator or
    in a separator followed by a dot. *)
Definition dir_only (fl : Flavour) (s : str) : bool :=
  match rev s with
  | c :: before =>
      is_sep fl c ||
      ((c =? ch ".") && match before with c2 :: _ => is_sep fl c2 | [] => false end)
  | [] => false
  end.

(** Absolute location of a file-system object: the anchor and the components
    below it, without [..]. *)
Abbreviation Key := (list N * list (list N))%type (only parsing).

Fixpoint norm (acc : list str) (ps : list str) : list str :=
  match ps with
  | [] => rev acc
  | p :: rest =>
      if str_eqb p (u "..") then norm (List.tail acc) rest else norm (p :: acc) rest
  end.

(** Where [p] leads from the working directory [cwd]; [..] steps back
    textually (no symbolic links). *)
Definition resolve (cwd : Key) (p : Path) : Key :=
  match anchor p with
  | [] => (fst cwd, norm (rev (snd cwd)) (parts p))
  | a => (a, norm [] (parts p))
  end.

Definition key_parent (k : Key) : Key := (fst k, removelast (snd k)).

Definition key_path (k : Key) : Path := mkPath (fst k) (snd k).

End PathLib.
Import PathLib.

(** ** The world the script runs in *)

(** What a file holds: the bytes of a video, the text of a page, or the
    picture of a QR code for some data. *)
Inductive Content :=
  | Bytes (data : list N)
  | Text (text : str)
  | QrImage (data : str).

Inductive Node :=
  | Dir
  | File (c : Content).

(** Requests to the operating system and to the QR library that can fail for
    reasons outside the file tree (permissions, a full disk, data that does
    not fit a QR code). *)
Inductive Op :=
  | Mkdir (k : Key)
  | Chdir (k : Key)
  | OpenRead (k : Key)
  | OpenWrite (k : Key)
  | QrMake (data : str).

(** How a child process ends: [Popen] itself fails, or the process exits with
    a return code, its standard output and its standard error. *)
Inductive Spawn :=
  | SpawnError (err : str)
  | Exited (returncode : Z) (output error : str).

(** [datetime.now()] *)
Record DateTime := mkDateTime {
  year : N; month : N; day : N; hour : N; minute : N; second : N
}.

(** Everything the script does not decide itself: the path flavour of the
    platform, the errors of the operating system and of the QR library, the
    behaviour of the commands, and the clock. *)
Record Env := mkEnv {
  flavour : Flavour;
  os_error : Op -> option str;
  popen : list (list N) -> Spawn;
  now : DateTime
}.

Definition with_popen (env : Env) (f : list (list N) -> Spawn) : Env :=
  mkEnv (flavour env) (os_error env) f (now env).

(** The state of the process and of the machine: the working directory, the
    files and directories of the disk, the texts printed so far (one for each
    call of [print] or [input]), the lines the operator has yet to type, and
    the commands started so far. *)
Record World := mkWorld {
  cwd : Key;
  nodes : gmap (list N * list (list N)) Node;
  console : list (list N);
  stdin : list (list N);
  spawned : list (list (list N))
}.

Definition set_cwd (k : Key) (w : World) : World :=
  mkWorld k (nodes w) (console w) (stdin w) (spawned w).
Definition set_nodes (m : gmap (list N * list (list N)) Node) (w : World) : World :=
  mkWorld (cwd w) m (console w) (stdin w) (spawned w).
Definition set_console (c : list (list N)) (w : World) : World :=
  mkWorld (cwd w) (nodes w) c (stdin w) (spawned w).
Definition set_stdin (i : list (list N)) (w : World) : World :=
  mkWorld (cwd w) (nodes w) (console w) i (spawned w).
Definition set_spawned (s : list (list (list N))) (w : World) : World :=
  mkWorld (cwd w) (nodes w) (console w) (stdin w) s.

Definition is_dir (w : World) (k : Key) : bool :=
  match nodes w !! k with Some Dir => true | _ => false end.

(** ** Exceptions *)

(** Every exception the script meets here is an [Exception], which an
    [except Exception] clause catches; [str(e)] is its message. [sys.exit] is
    not one: it ends the process. A [KeyboardInterrupt], which is not one
    either, does not occur. *)
Inductive Exn := Exception (msg : str).

Definition str_of (e : Exn) : str := match e with Exception msg => msg end.

Inductive Outcome (A : Type) :=
  | Ret (a : A)
  | Raise (e : Exn)
  | Exit (code : Z).
Arguments Ret {A} a.
Arguments Raise {A} e.
Arguments Exit {A} code.

Definition M (A : Type) : Type := World -> Outcome A * World.

Definition ret {A} (a : A) : M A := fun w => (Ret a, w).

Definition bind {A B} (m : M A) (k : A -> M B) : M B :=
  fun w =>
    match m w with
    | (Ret a, w1) => k a w1
    | (Raise e, w1) => (Raise e, w1)
    | (Exit c, w1) => (Exit c, w1)
    end.

Definition raise {A} (e : Exn) : M A := fun w => (Raise e, w).

Definition sys_exit {A} (code : Z) : M A := fun w => (Exit code, w).

(** [try: m except Exception as e: handler e] *)
Definition try_except {A} (m : M A) (handler : Exn -> M A) : M A :=
  fun w =>
    match m w with
    | (Raise e, w1) => handler e w1
    | r => r
    end.

#[global] Instance M_ret : MRet M := @ret.
#[global] Instance M_bind : MBind M := fun A B k m => bind m k.

(** Why the operating system refuses a path. *)
Inductive Refusal := NoSuchFile | NotADirectory | FileExists | IsADirectory.

(** The words of an [OSError], as Linux has them. *)
Definition strerror (r : Refusal) : str :=
  match r with
  | NoSuchFile => u "[Errno 2] No such file or directory"
  | NotADirectory => u "[Errno 20] Not a directory"
  | FileExists => u "[Errno 17] File exists"
  | IsADirectory => u "[Errno 21] Is a directory"
  end.

(** [str(e)] of the [OSError] for the path text [s], which is the text that
    was passed to the operating system. *)
Definition os_message (r : Refusal) (s : str) : str :=
  strerror r ++ u ": " ++ repr s.

Section Primitives.

Context (env : Env).

(** [print(s)]; the console is taken to work, so that printing returns. *)
Definition print (s : str) : M unit :=
  fun w => (Ret tt, set_console (console w ++ [s]) w).

(** [input(prompt)]: the prompt is printed and the next line of the operator
    is read; at the end of the input it raises [EOFError]. That the operator
    interrupts the script is not modelled. *)
Definition input (prompt : str) : M (list N) :=
  fun w =>
    let w1 := set_console (console w ++ [prompt]) w in
    match stdin w1 with
    | [] => (Raise (Exception (u "EOF when reading a line")), w1)
    | line :: rest => (Ret line, set_stdin rest w1)
    end.

(** [Path(os.getcwd())]: the working directory, as long as it is on the
    disk; [here] is the place its path names, which is [cwd w] itself for a
    key without [..]. *)
Definition here (w : World) : Key := resolve (cwd w) (key_path (cwd w)).

Definition os_getcwd : M Path :=
  fun w =>
    if is_dir w (here w) then (Ret (key_path (cwd w)), w)
    else (Raise (Exception (strerror NoSuchFile)), w).

(** [datetime.now()] *)
Definition datetime_now : M DateTime := fun w => (Ret (now env), w).

(** [d.strftime('%Y%m%d_%H%M%S')] *)
Definition strftime (d : DateTime) : str :=
  zero_padded 4 (year d) ++ zero_padded 2 (month d) ++ zero_padded 2 (day d) ++ u "_" ++
  zero_padded 2 (hour d) ++ zero_padded 2 (minute d) ++ zero_padded 2 (second d).

(** Following the components of a path from a directory: every step, also a
    step back with [..], starts in a directory. *)
Fixpoint walk (w : World) (a : str) (acc : list str) (ps : list str) : option Key :=
  match ps with
  | [] => Some (a, rev acc)
  | p :: rest =>
      if is_dir w (a, rev acc) then
        if str_eqb p (u "..") then walk w a (List.tail acc) rest else walk w a (p :: acc) rest
      else None
  end.

(** The place a path names, if the operating system can reach it. POSIX
    follows the components one by one; Windows first removes [..] from the
    text and then needs the directory that holds the last component. *)
Definition locate (w : World) (p : Path) : option Key :=
  match flavour env with
  | Posix =>
      match anchor p with
      | [] => walk w (fst (cwd w)) (rev (snd (cwd w))) (parts p)
      | a => walk w a [] (parts p)
      end
  | Windows =>
      let k := resolve (cwd w) p in
      if is_dir w (key_parent k) then Some k else None
  end.

(** What the path text [s] names, as [os.stat] sees it. *)
Definition stat (w : World) (s : str) : option Node :=
  if str_eqb s [] then None
  else
    match locate w (Path_of (flavour env) s) with
    | Some k =>
        match nodes w !! k with
        | Some (File c) => if dir_only (flavour env) s then None else Some (File c)
        | r => r
        end
    | None => None
    end.

(** [os.path.exists(s)] *)
Definition os_path_exists (s : str) : M bool :=
  fun w => (Ret (match stat w s with Some _ => true | None => false end), w).

(** [os.path.isdir(p)] *)
Definition isdir (w : World) (p : Path) : bool :=
  match locate w p with
  | Some k => is_dir w k
  | None => false
  end.

(** Whether a file stands where the path needs a directory. *)
Fixpoint walk_blocked (w : World) (a : str) (acc : list str) (ps : list str) : bool :=
  match ps with
  | [] => false
  | p :: rest =>
      match nodes w !! (a, rev acc) with
      | Some Dir =>
          if str_eqb p (u "..") then walk_blocked w a (List.tail acc) rest
          else walk_blocked w a (p :: acc) rest
      | Some (File _) => true
      | None => false
      end
  end.

Definition blocked (w : World) (p : Path) : bool :=
  match flavour env with
  | Posix =>
      match anchor p with
      | [] => walk_blocked w (fst (cwd w)) (rev (snd (cwd w))) (parts p)
      | a => walk_blocked w a [] (parts p)
      end
  | Windows =>
      match nodes w !! key_parent (resolve (cwd w) p) with
      | Some (File _) => true
      | _ => false
      end
  end.

(** The error for a path that leads nowhere: a directory on the way is
    missing, or a file stands in its place. *)
Definition unreachable {A} (w : World) (p : Path) : Outcome A :=
  Raise (Exception (os_message (if blocked w p then NotADirectory else NoSuchFile)
                      (to_str (flavour env) p))).

(** [p.mkdir(exist_ok=True)] *)
Definition mkdir_exist_ok (p : Path) : M unit :=
  fun w =>
    match locate w p with
    | None => (unreachable w p, w)
    | Some k =>
        match os_error env (Mkdir k) with
        | Some err => (Raise (Exception err), w)
        | None =>
            match nodes w !! k with
            | Some Dir => (Ret tt, w)
            | Some (File _) =>
                (Raise (Exception (os_message FileExists (to_str (flavour env) p))), w)
            | None => (Ret tt, set_nodes (<[k := Dir]> (nodes w)) w)
            end
        end
    end.

(** [os.chdir(p)] *)
Definition os_chdir (p : Path) : M unit :=
  fun w =>
    match locate w p with
    | None => (unreachable w p, w)
    | Some k =>
        match os_error env (Chdir k) with
        | Some err => (Raise (Exception err), w)
        | None =>
            if is_dir w k then (Ret tt, set_cwd k w)
            else
              (Raise (Exception (os_message
                                   (match nodes w !! k with
                                    | Some _ => NotADirectory
                                    | None => NoSuchFile
                                    end)
                                   (to_str (flavour env) p))), w)
        end
    end.

(** Opening [p] for writing and writing [c]: the file is created or replaced. *)
Definition write_file (p : Path) (c : Content) : M unit :=
  fun w =>
    match locate w p with
    | None => (unreachable w p, w)
    | Some k =>
        match os_error env (OpenWrite k) with
        | Some err => (Raise (Exception err), w)
        | None =>
            if is_dir w k then
              (Raise (Exception (os_message IsADirectory (to_str (flavour env) p))), w)
            else (Ret tt, set_nodes (<[k := File c]> (nodes w)) w)
        end
    end.

(** Why the path text [s] names nothing: a file stands where it needs a
    directory (on the way, or at the end of a text that can only name a
    directory), or something is missing. *)
Definition stat_refusal (w : World) (s : str) : Refusal :=
  let p := Path_of (flavour env) s in
  if str_eqb s [] then NoSuchFile
  else
    match locate w p with
    | Some k =>
        match nodes w !! k with
        | Some (File _) => NotADirectory
        | _ => NoSuchFile
        end
    | None => if blocked w p then NotADirectory else NoSuchFile
    end.

(** Opening the path text [s] for reading and reading all of it. *)
Definition read_file (s : str) : M Content :=
  fun w =>
    let p := Path_of (flavour env) s in
    match os_error env (OpenRead (resolve (cwd w) p)) with
    | Some err => (Raise (Exception err), w)
    | None =>
        match stat w s with
        | Some (File c) => (Ret c, w)
        | Some Dir => (Raise (Exception (os_message IsADirectory s)), w)
        | None => (Raise (Exception (os_message (stat_refusal w s) s)), w)
        end
    end.

(** [shutil.copy2(src, dst)]: into [dst] when it is a directory, under the
    base name of [src]; the same file is refused, in a message that shows
    both with [repr]: the text [src], and [dst], which is the joined text
    when [dst] is a directory and the path object otherwise; the source is
    opened before the destination. *)
Definition shutil_copy2 (src : str) (dst : Path) : M Path :=
  fun w =>
    let dst1 :=
      if isdir w dst
      then mkPath (anchor dst) (parts dst ++ List.filter is_component [basename (flavour env) src])
      else dst in
    let same :=
      match stat w src, locate w dst1 with
      | Some _, Some k =>
          match nodes w !! k with
          | Some _ => bool_decide (locate w (Path_of (flavour env) src) = Some k)
          | None => false
          end
      | _, _ => false
      end in
    if same then
      (Raise (Exception
                (repr src ++ u " and " ++
                 (if isdir w dst
                  then repr (join_text (flavour env) (to_str (flavour env) dst)
                               (basename (flavour env) src))
                  else repr_path (flavour env) dst) ++
                 u " are the same file")), w)
    else (c ← read_file src; write_file dst1 c;; ret dst1) w.

(** [subprocess.Popen(command, ...)] followed by [communicate()]: the
    command is recorded, and ends as the environment says. What a command
    itself writes (git: below [.git]) is not part of [nodes]. *)
Definition popen_communicate (command : list (list N)) : M (Z * list N * list N) :=
  fun w =>
    let w1 := set_spawned (spawned w ++ [command]) w in
    match popen env command with
    | SpawnError err => (Raise (Exception err), w1)
    | Exited rc out err => (Ret (rc, out, err), w1)
    end.

(** [qr.add_data(data); qr.make(fit=True)] *)
Definition qr_make (data : str) : M unit :=
  fun w =>
    match os_error env (QrMake data) with
    | Some err => (Raise (Exception err), w)
    | None => (Ret tt, w)
    end.

End Primitives.

(** ** The script *)

Definition nl : str := [10].
Definition quote : str := [34].

(** Text of the page template; a back-quote stands for the double quote of
    the source. *)
Definition tpl (s : string) : str := replace (ch "`") 34 (u s).

Definition allowed_in_name (c : N) : bool :=
  isalnum c || mem c [ch " "; ch "-"; ch "_"; ch "."].

Definition allowed_in_title (c : N) : bool :=
  isalnum c || mem c [ch " "; ch "-"; ch "_"].

(** [safe_name] of [share_video]:
    [''.join(c for c in original_name if c.isalnum() or c in (' ', '-', '_', '.')).strip()] *)
Definition safe_name (original_name : str) : str :=
  strip (List.filter allowed_in_name original_name).

(** [safe_title] of [create_player_page]:
    [''.join(c for c in title if c.isalnum() or c in (' ', '-', '_')).strip()] *)
Definition safe_title (title : str) : str :=
  strip (List.filter allowed_in_title title).

(** [html_content] of [create_player_page] *)
Definition html_content (title video_relative_path : str) : str :=
  nl ++ join nl
    [tpl "<!DOCTYPE html>";
     tpl "<html lang=`zh-CN`>";
     tpl "<head>";
     tpl "    <meta charset=`UTF-8`>";
     tpl "    <meta name=`viewport` content=`width=device-width, initial-scale=1.0`>";
     tpl "    <title>" ++ title ++ tpl "</title>";
     tpl "    <style>";
     tpl "        body {";
     tpl "            margin: 0;";
     tpl "            padding: 0;";
     tpl "            background: #000;";
     tpl "            display: flex;";
     tpl "            flex-direction: column;";
     tpl "            justify-content: center;";
     tpl "            align-items: center;";
     tpl "            min-height: 100vh;";
     tpl "            color: #fff;";
     tpl "        }";
     tpl "        .video-container {";
     tpl "            width: 100%;";
     tpl "            max-width: 1920px;";
     tpl "            margin: 20px auto;";
     tpl "            padding: 0 20px;";
     tpl "        }";
     tpl "        video {";
     tpl "            width: 100%;";
     tpl "            max-height: 85vh;";
     tpl "        }";
     tpl "    </style>";
     tpl "</head>";
     tpl "<body>";
     tpl "    <div class=`video-container`>";
     tpl "        <video controls preload=`metadata`>";
     tpl "            <source src=`" ++ video_relative_path ++ tpl "` type=`video/mp4`>";
     tpl "        </video>";
     tpl "    </div>";
     tpl "</body>";
     tpl "</html>"] ++ nl.

(** [video_relative_path] of [create_player_page]: [f'../videos/{safe_title}'] *)
Definition video_relative_path (safe_title : str) : str := u "../videos/" ++ safe_title.

(** [page_name] of [create_player_page]: [f'{timestamp}_{safe_title}.html'] *)
Definition page_name (timestamp safe_title : str) : str :=
  timestamp ++ u "_" ++ safe_title ++ u ".html".

Definition repo_url : str := u "https://estellalin21.github.io/camforu".

(** [page_url] of [share_video]: [f"{repo_url}/{relative_path.replace(chr(92), '/')}"] *)
Definition page_url (relative_path : str) : str :=
  repo_url ++ u "/" ++ replace (ch "\") (ch "/") relative_path.

Record GitLFSVideoShare := mkShare {
  repo_path : Path;
  videos_dir : Path;
  pages_dir : Path
}.

(** The record that [share_video] returns. *)
Module ShareResult.
Record t := mk {
  video_path : str;
  page_path : str;
  page_url : str;
  qr_path : str
}.
End ShareResult.

Section Script.

Context (env : Env).

Definition setup_repository (self : GitLFSVideoShare) : M unit :=
  try_except
    (mkdir_exist_ok env (videos_dir self);;
     mkdir_exist_ok env (pages_dir self);;
     os_chdir env (repo_path self))
    (fun e => print (u "仓库设置失败: " ++ str_of e);; sys_exit 1).

(** The fields that [__init__] sets. *)
Definition new (repo_path : Path) : GitLFSVideoShare :=
  mkShare repo_path
    (joinpath (flavour env) repo_path (u "videos"))
    (joinpath (flavour env) repo_path (u "pages")).

Definition __init__ (repo_path : Path) : M GitLFSVideoShare :=
  let self := new repo_path in
  setup_repository self;; ret self.

Definition _run_command (command : list str) : M str :=
  try_except
    (r ← popen_communicate env command;
     let '(returncode, output, error) := r in
     if bool_decide (returncode = 0%Z) then ret (strip output)
     else raise (Exception (u "命令失败: " ++ error)))
    (fun e => print (u "命令执行错误: " ++ str_of e);; ret []).

Definition create_player_page (self : GitLFSVideoShare) (video_path : Path) (title : str)
  : M Path :=
  let safe_title := safe_title title in
  let video_relative_path := video_relative_path safe_title in
  let html_content := html_content title video_relative_path in
  d ← datetime_now env;
  let timestamp := strftime d in
  let page_name := page_name timestamp safe_title in
  let page_path := joinpath (flavour env) (pages_dir self) page_name in
  write_file env page_path (Text html_content);;
  ret page_path.

(** [target_path] of [share_video]: [self.videos_dir / safe_name] *)
Definition target_path (self : GitLFSVideoShare) (safe_name : str) : Path :=
  joinpath (flavour env) (videos_dir self) safe_name.

(** [qr_path] of [share_video]:
    [self.repo_path / 'qrcodes' / f'{Path(safe_name).stem}_qr.png'] *)
Definition qr_path (self : GitLFSVideoShare) (safe_name : str) : Path :=
  joinpath (flavour env) (joinpath (flavour env) (repo_path self) (u "qrcodes"))
    (stem (Path_of (flavour env) safe_name) ++ u "_qr.png").

Definition share_video (self : GitLFSVideoShare) (video_path : str) : M ShareResult.t :=
  try_except
    (let original_name := name (Path_of (flavour env) video_path) in
     let safe_name := safe_name original_name in
     let target_path := target_path self safe_name in
     print (u "复制视频文件...");;
     shutil_copy2 env video_path target_path;;
     print (u "创建播放页面...");;
     page_path ← create_player_page self target_path (stem (Path_of (flavour env) safe_name));
     print (u "提交到Git...");;
     _run_command [u "git"; u "add"; to_str (flavour env) target_path];;
     _run_command [u "git"; u "add"; to_str (flavour env) page_path];;
     _run_command [u "git"; u "commit"; u "-m"; u "Add video: " ++ safe_name];;
     relative ←
       match relative_to page_path (repo_path self) with
       | Some r => ret r
       | None =>
           raise (Exception (u "'" ++ to_str (flavour env) page_path ++
                             u "' is not in the subpath of '" ++
                             to_str (flavour env) (repo_path self) ++ u "'"))
       end;
     let relative_path := to_str (flavour env) relative in
     let page_url := page_url relative_path in
     print (u "生成二维码...");;
     qr_make env page_url;;
     let qr_path := qr_path self safe_name in
     mkdir_exist_ok env (parent qr_path);;
     write_file env qr_path (QrImage page_url);;
     ret (ShareResult.mk (to_str (flavour env) target_path) (to_str (flavour env) page_path)
            page_url (to_str (flavour env) qr_path)))
    (fun e => raise (Exception (u "分享失败: " ++ str_of e))).

Definition main : M unit :=
  print (u "=== GitHub LFS 视频分享工具 ===" ++ nl);;
  try_except
    (repo_path ← os_getcwd;
     print (u "使用当前目录作为仓库路径: " ++ to_str (flavour env) repo_path);;
     sharer ← __init__ repo_path;
     line ← input (nl ++ u "请输入视频文件路径（直接拖入文件即可）: ");
     let video_path := strip_chars quote (strip line) in
     found ← os_path_exists env video_path;
     if negb found then print (u "错误：视频文件不存在！")
     else
       print (nl ++ u "处理中...");;
       info ← share_video sharer video_path;
       print (nl ++ u "=== 分享成功！===");;
       print (u "视频路径: " ++ ShareResult.video_path info);;
       print (u "播放页面: " ++ ShareResult.page_path info);;
       print (u "访问地址: " ++ ShareResult.page_url info);;
       print (u "二维码位置: " ++ ShareResult.qr_path info);;
       print (nl ++ u "注意：需要手动push到GitHub才能访问");;
       print (u "运行: git push origin main"))
    (fun e => print (nl ++ u "错误：" ++ str_of e)).

End Script.

(** * Properties *)

(** ** Predicates of the statements *)

(** [p] does not hold of the first character, if there is one. *)
Definition head_ok (p : N -> bool) (s : str) : Prop :=
  match s with
  | [] => True
  | c :: _ => p c = false
  end.

(** No leading and no trailing whitespace. *)
Definition trimmed (s : str) : Prop :=
  head_ok isspace s /\ head_ok isspace (rev s).

(** Neither a path separator of either flavour nor the colon of a drive. *)
Definition plain_char (c : N) : bool :=
  negb (c =? ch "/") && negb (c =? ch "\") && negb (c =? ch ":").

Definition plain (s : str) : Prop := forallb plain_char s = true.

(** The QR image lies under the sanitized title, the title with its dots
    removed: C6 as it is worded. *)
Definition qr_under_sanitized_title (env : Env) (self : GitLFSVideoShare) (vp : str)
  (w : World) : Prop :=
  forall info,
    fst (share_video env self vp w) = Ret info ->
    let fl := flavour env in
    let w' := snd (share_video env self vp w) in
    let title := stem (Path_of fl (safe_name (name (Path_of fl vp)))) in
    let claimed :=
      joinpath fl (joinpath fl (repo_path self) (u "qrcodes")) (safe_title title ++ u "_qr.png") in
    exists c, nodes w' !! resolve (cwd w') claimed = Some (File c).

(** Two worlds that differ at most in what was printed. *)
Definition same_but_console (w1 w2 : World) : Prop :=
  cwd w1 = cwd w2 /\ nodes w1 = nodes w2 /\ stdin w1 = stdin w2 /\ spawned w1 = spawned w2.

(** Two computations that, from such worlds, end alike and in such worlds. *)
Definition agree {A} (m1 m2 : M A) : Prop :=
  forall w1 w2, same_but_console w1 w2 ->
    fst (m1 w1) = fst (m2 w2) /\ same_but_console (snd (m1 w1)) (snd (m2 w2)).


(** The computation does not end the process. *)
Definition never_exits {A} (m : M A) : Prop :=
  forall w code, fst (m w) <> Exit code.

(** Only a failure to make one of the two base directories ends the
    process: C8 as it is worded. *)
Definition exits_only_when_creation_raises (env : Env) (w : World) : Prop :=
  forall code,
    fst (main env w) = Exit code ->
    let self := new env (key_path (cwd w)) in
    exists e,
      fst ((mkdir_exist_ok env (videos_dir self);; mkdir_exist_ok env (pages_dir self)) w)
      = Raise e.

(** The computation runs no command. *)
Definition runs_nothing {A} (m : M A) : Prop :=
  forall w, spawned (snd (m w)) = spawned w.

(** ** Concrete runs *)

Module Run.

(** An environment in which nothing fails, at noon of 1 January 2024. *)
Definition quiet (fl : Flavour) : Env :=
  mkEnv fl (fun _ => None) (fun _ => Exited 0 [] []) (mkDateTime 2024 1 1 12 0 0).

(** The same, except that every command ends with status 128. *)
Definition no_git (fl : Flavour) : Env :=
  mkEnv fl (fun _ => None)
    (fun _ => Exited 128 [] (u "fatal: not a git repository (or any of the parent directories): .git"))
    (mkDateTime 2024 1 1 12 0 0).

(** The same as [quiet], except that there is no [git] to start. *)
Definition git_missing (fl : Flavour) : Env :=
  mkEnv fl (fun _ => None)
    (fun _ => SpawnError (u "[Errno 2] No such file or directory: 'git'"))
    (mkDateTime 2024 1 1 12 0 0).

(** The same as [quiet], except that [os.chdir] is refused. *)
Definition no_chdir (fl : Flavour) : Env :=
  mkEnv fl (fun op => match op with Chdir _ => Some (u "[Errno 5] Input/output error") | _ => None end)
    (fun _ => Exited 0 [] []) (mkDateTime 2024 1 1 12 0 0).

(** The same as [quiet], except that no directory can be made. *)
Definition no_mkdir (fl : Flavour) : Env :=
  mkEnv fl (fun op => match op with Mkdir _ => Some (u "[Errno 13] Permission denied") | _ => None end)
    (fun _ => Exited 0 [] []) (mkDateTime 2024 1 1 12 0 0).


Definition video_bytes : list N := [0; 0; 0; 24; 102; 116; 121; 112].

(** A disk with the repository, already set up, and one video in a directory
    next to it. *)
Definition disk (root : str) (video : str) : gmap (list N * list (list N)) Node :=
  <[(root, [u "home"; video]) := File (Bytes video_bytes)]>
  (<[(root, [u "repo"; u "pages"]) := Dir]>
  (<[(root, [u "repo"; u "videos"]) := Dir]>
  (<[(root, [u "repo"]) := Dir]>
  (<[(root, [u "home"]) := Dir]>
  (<[(root, []) := Dir]> ∅))))).

(** A disk with a repository in which the script has not run yet. *)
Definition fresh_disk (root : str) : gmap (list N * list (list N)) Node :=
  <[(root, [u "repo"]) := Dir]>
  (<[(root, [u "home"]) := Dir]>
  (<[(root, []) := Dir]> ∅)).

Definition fresh (root : str) (typed : list str) : World :=
  mkWorld (root, [u "repo"]) (fresh_disk root) [] typed [].

(** The script is started in the repository; [typed] is what the operator
    will type. *)
Definition world (root : str) (video : str) (typed : list str) : World :=
  mkWorld (root, [u "repo"]) (disk root video) [] typed [].

Definition repo (root : str) : Path := mkPath root [u "repo"].

(** What the script returns for [C:\home\My Clip.mov] on Windows. *)
Definition my_clip_windows : ShareResult.t :=
  ShareResult.mk (u "C:\repo\videos\My Clip.mov")
    (u "C:\repo\pages\20240101_120000_My Clip.html")
    (u "https://estellalin21.github.io/camforu/pages/20240101_120000_My Clip.html")
    (u "C:\repo\qrcodes\My Clip_qr.png").

(** What the script returns for [/home/My Clip.mov]. *)
Definition my_clip : ShareResult.t :=
  ShareResult.mk (u "/repo/videos/My Clip.mov")
    (u "/repo/pages/20240101_120000_My Clip.html")
    (u "https://estellalin21.github.io/camforu/pages/20240101_120000_My Clip.html")
    (u "/repo/qrcodes/My Clip_qr.png").

(** What the script returns for [/home/clip.v2.mp4]. *)
Definition clip_v2 : ShareResult.t :=
  ShareResult.mk (u "/repo/videos/clip.v2.mp4")
    (u "/repo/pages/20240101_120000_clipv2.html")
    (u "https://estellalin21.github.io/camforu/pages/20240101_120000_clipv2.html")
    (u "/repo/qrcodes/clip.v2_qr.png").

End Run.

(** ** Predicates of the further properties *)

(** From the working directory [cw], the computation stays in [cw] and
    leaves every place on the disk outside [ks] as it was. *)
Definition frames {A} (cw : Key) (ks : list (list N * list (list N))) (m : M A) : Prop :=
  forall w,
    cwd w = cw ->
    cwd (snd (m w)) = cw /\
    stdin (snd (m w)) = stdin w /\
    forall k, k ∉ ks -> nodes (snd (m w)) !! k = nodes w !! k.

(** The page of a share: [self.pages_dir / page_name]. *)
Definition page_of (env : Env) (self : GitLFSVideoShare) (vp : str) : Path :=
  let fl := flavour env in
  let sn := safe_name (name (Path_of fl vp)) in
  joinpath fl (pages_dir self) (page_name (strftime (now env)) (safe_title (stem (Path_of fl sn)))).

(** The places that a share can write, seen from the working directory [cw]:
    the target of the copy, the same with the base name of the video below it,
    the page, the directory of the QR images and the QR image. *)
Definition footprint (env : Env) (self : GitLFSVideoShare) (vp : str) (cw : Key)
  : list (list N * list (list N)) :=
  let fl := flavour env in
  let sn := safe_name (name (Path_of fl vp)) in
  let target := target_path env self sn in
  [resolve cw target;
   resolve cw (mkPath (anchor target)
                 (parts target ++ List.filter is_component [basename fl vp]));
   resolve cw (page_of env self vp);
   resolve cw (parent (qr_path env self sn));
   resolve cw (qr_path env self sn)].

(** A disk with the repository, already set up, and two videos with different
    content in a directory next to it; the script is started in the
    repository. *)
Definition two_videos (v1 v2 : str) : World :=
  mkWorld (u "/", [u "repo"])
    (<[(u "/", [u "home"; v1]) := File (Bytes [1])]>
     (<[(u "/", [u "home"; v2]) := File (Bytes [2])]>
      (Run.disk (u "/") (u "My Clip.mov"))))
    [] [] [].

(** The environment in which the QR library refuses every data with the
    error [err], and all else is as in [env]. *)
Definition qr_fails (env : Env) (err : str) : Env :=
  mkEnv (flavour env)
    (fun op => match op with QrMake _ => Some err | _ => os_error env op end)
    (popen env) (now env).

(** ** Stripping and filtering *)

Lemma lstrip_by_head p s : head_ok p (lstrip_by p s).
Proof.
  induction s as [|c s IH]; simpl; [exact I|].
  destruct (p c) eqn:E; [exact IH | exact E].
Qed.

Lemma lstrip_by_suffix p s : exists pre, s = pre ++ lstrip_by p s.
Proof.
  induction s as [|c s [pre IH]]; simpl.
  - exists []. reflexivity.
  - destruct (p c).
    + exists (c :: pre). simpl. congruence.
    + exists []. reflexivity.
Qed.

Lemma lstrip_by_fixed p s : head_ok p s -> lstrip_by p s = s.
Proof. destruct s as [|c s]; simpl; [reflexivity|]. intros ->. reflexivity. Qed.

Lemma rstrip_by_prefix p s : exists suf, s = rstrip_by p s ++ suf.
Proof.
  unfold rstrip_by. destruct (lstrip_by_suffix p (rev s)) as [pre E].
  exists (rev pre). rewrite <- rev_app_distr, <- E, rev_involutive. reflexivity.
Qed.

Lemma head_ok_prefix p a b : head_ok p (a ++ b) -> head_ok p a.
Proof. destruct a; simpl; auto. Qed.

Lemma strip_by_head p s : head_ok p (strip_by p s).
Proof.
  unfold strip_by. destruct (rstrip_by_prefix p (lstrip_by p s)) as [suf E].
  apply head_ok_prefix with suf. rewrite <- E. apply lstrip_by_head.
Qed.

Lemma strip_by_last p s : head_ok p (rev (strip_by p s)).
Proof. unfold strip_by, rstrip_by. rewrite rev_involutive. apply lstrip_by_head. Qed.

Lemma strip_by_fixed p s : head_ok p s -> head_ok p (rev s) -> strip_by p s = s.
Proof.
  intros H1 H2. unfold strip_by, rstrip_by.
  rewrite (lstrip_by_fixed p s H1), (lstrip_by_fixed p (rev s) H2).
  apply rev_involutive.
Qed.

Lemma strip_by_Forall (P : N -> Prop) p s : Forall P s -> Forall P (strip_by p s).
Proof.
  intros H. unfold strip_by.
  destruct (lstrip_by_suffix p s) as [pre E1].
  destruct (rstrip_by_prefix p (lstrip_by p s)) as [suf E2].
  rewrite E1 in H. apply Forall_app in H as [_ H].
  rewrite E2 in H. apply Forall_app in H as [H _]. exact H.
Qed.

Lemma filter_Forall_true (f : N -> bool) s : Forall (fun c => f c = true) (List.filter f s).
Proof.
  induction s as [|c s IH]; simpl; [constructor|].
  destruct (f c) eqn:E; [constructor; assumption | assumption].
Qed.

Lemma filter_fixed (f : N -> bool) s : Forall (fun c => f c = true) s -> List.filter f s = s.
Proof.
  induction 1 as [|c s Hc _ IH]; simpl; [reflexivity|].
  rewrite Hc, IH. reflexivity.
Qed.

Lemma strip_trimmed s : trimmed (strip s).
Proof. split; [apply strip_by_head | apply strip_by_last]. Qed.

Lemma safe_name_allowed s : Forall (fun c => allowed_in_name c = true) (safe_name s).
Proof. apply strip_by_Forall, filter_Forall_true. Qed.

Lemma safe_title_allowed s : Forall (fun c => allowed_in_title c = true) (safe_title s).
Proof. apply strip_by_Forall, filter_Forall_true. Qed.

(** The characters the two sanitizers keep, spelled out. *)
Lemma allowed_in_name_spec c :
  allowed_in_name c = true <->
  isalnum c = true \/ c = ch " " \/ c = ch "-" \/ c = ch "_" \/ c = ch ".".
Proof.
  unfold allowed_in_name, mem; simpl.
  rewrite !orb_true_iff, !N.eqb_eq. intuition discriminate.
Qed.

Lemma allowed_in_title_spec c :
  allowed_in_title c = true <->
  isalnum c = true \/ c = ch " " \/ c = ch "-" \/ c = ch "_".
Proof.
  unfold allowed_in_title, mem; simpl.
  rewrite !orb_true_iff, !N.eqb_eq. intuition discriminate.
Qed.

Lemma allowed_in_title_not_dot c : allowed_in_title c = true -> c <> ch ".".
Proof. intros H ->. vm_compute in H. discriminate. Qed.

(** ** The sanitizers *)

(** C3: the sanitized file name holds only alphanumeric characters, spaces,
    hyphens, underscores and dots, the sanitized title the same without dots,
    and neither starts or ends with whitespace. Both sanitizers are functions
    of the input string alone: they take no world and no environment. *)
Theorem C3_sanitizer_charset (s : str) :
  Forall (fun c => isalnum c = true \/ c = ch " " \/ c = ch "-" \/ c = ch "_" \/ c = ch ".")
         (safe_name s) /\
  trimmed (safe_name s) /\
  Forall (fun c => (isalnum c = true \/ c = ch " " \/ c = ch "-" \/ c = ch "_") /\ c <> ch ".")
         (safe_title s) /\
  trimmed (safe_title s).
Proof.
  repeat split; try apply strip_by_head; try apply strip_by_last.
  - eapply List.Forall_impl; [|apply safe_name_allowed].
    intros c Hc. apply allowed_in_name_spec, Hc.
  - eapply List.Forall_impl; [|apply safe_title_allowed].
    intros c Hc. split; [apply allowed_in_title_spec, Hc | apply allowed_in_title_not_dot, Hc].
Qed.

(** C10: sanitizing a sanitized file name, or a sanitized title, changes
    nothing. *)
Theorem C10_sanitizers_idempotent (s : str) :
  safe_name (safe_name s) = safe_name s /\ safe_title (safe_title s) = safe_title s.
Proof.
  split.
  - unfold safe_name at 1. rewrite filter_fixed by apply safe_name_allowed.
    apply strip_by_fixed; apply strip_trimmed.
  - unfold safe_title at 1. rewrite filter_fixed by apply safe_title_allowed.
    apply strip_by_fixed; apply strip_trimmed.
Qed.

(** ** Sequencing *)

Lemma bind_Ret_inv {A B} (m : M A) (k : A -> M B) w b w' :
  (m ≫= k) w = (Ret b, w') ->
  exists a w1, m w = (Ret a, w1) /\ k a w1 = (Ret b, w').
Proof.
  unfold mbind, M_bind, bind. destruct (m w) as [[a|e|c] w1]; intros H; try discriminate.
  exists a, w1. split; [reflexivity | exact H].
Qed.

Lemma try_reraise_Ret_inv {A} (m : M A) (f : Exn -> Exn) w a w' :
  try_except m (fun e => raise (f e)) w = (Ret a, w') -> m w = (Ret a, w').
Proof.
  unfold try_except, raise. destruct (m w) as [[x|e|c] w1]; intros H; try discriminate.
  exact H.
Qed.

Lemma pair_of_fst {A B} (p : A * B) a : fst p = a -> p = (a, snd p).
Proof. intros <-. destruct p; reflexivity. Qed.

(** A successful step of a sequence is split off; the value and the world it
    leaves get the given names. *)
Ltac split_bind H a w1 Hstep :=
  apply bind_Ret_inv in H as (a & w1 & Hstep & H).

(** ** What the primitives leave behind *)

Lemma walk_norm w a acc ps k : walk w a acc ps = Some k -> k = (a, norm acc ps).
Proof.
  revert acc. induction ps as [|p ps IH]; intros acc; simpl.
  - congruence.
  - destruct (is_dir w _); [|discriminate].
    destruct (str_eqb p (u "..")); apply IH.
Qed.

(** A place that is reached is the place the path text resolves to. *)
Lemma locate_resolve env w p k : locate env w p = Some k -> k = resolve (cwd w) p.
Proof.
  unfold locate, resolve. destruct (flavour env).
  - destruct (anchor p); apply walk_norm.
  - destruct (is_dir w _); congruence.
Qed.

Lemma write_file_Ret_inv env p c w u0 w' :
  write_file env p c w = (Ret u0, w') ->
  w' = set_nodes (<[resolve (cwd w) p := File c]> (nodes w)) w /\
  is_dir w (resolve (cwd w) p) = false.
Proof.
  unfold write_file. destruct (locate env w p) as [k|] eqn:Hk; [|discriminate].
  apply locate_resolve in Hk as ->.
  destruct (os_error env _); [discriminate|].
  destruct (is_dir w (resolve (cwd w) p)) eqn:Hd; [discriminate|].
  intros H. injection H as _ <-. split; reflexivity.
Qed.

Lemma mkdir_Ret_inv env p w u0 w' :
  mkdir_exist_ok env p w = (Ret u0, w') ->
  cwd w' = cwd w /\ is_dir w' (resolve (cwd w) p) = true /\
  console w' = console w /\ spawned w' = spawned w /\ stdin w' = stdin w /\
  forall k, nodes w' !! k = nodes w !! k \/
            (k = resolve (cwd w) p /\ nodes w !! k = None /\ nodes w' !! k = Some Dir).
Proof.
  unfold mkdir_exist_ok. destruct (locate env w p) as [k0|] eqn:Hk; [|discriminate].
  apply locate_resolve in Hk as ->.
  destruct (os_error env _); [discriminate|].
  destruct (nodes w !! resolve (cwd w) p) as [[|c]|] eqn:Hn; try discriminate.
  - intros H. injection H as _ <-. repeat split; auto. unfold is_dir. rewrite Hn. reflexivity.
  - intros H. injection H as _ <-. repeat split; auto.
    + unfold is_dir; simpl. rewrite lookup_insert_eq. reflexivity.
    + intros k. simpl. destruct (decide (k = resolve (cwd w) p)) as [->|Hne].
      * right. rewrite lookup_insert_eq. auto.
      * left. apply lookup_insert_ne. congruence.
Qed.

(** ** Names that are one path component *)

Lemma plain_app a b : plain a -> plain b -> plain (a ++ b).
Proof. unfold plain. intros Ha Hb. rewrite forallb_app, Ha, Hb. reflexivity. Qed.

Lemma plain_firstn n s : plain s -> plain (firstn n s).
Proof.
  unfold plain. revert n. induction s as [|c s IH]; intros [|n]; simpl; auto.
  rewrite !andb_true_iff. intros [Hc Hs]. split; [exact Hc | apply IH, Hs].
Qed.

Lemma plain_Forall (P : N -> Prop) s :
  (forall c, P c -> plain_char c = true) -> Forall P s -> plain s.
Proof.
  intros HP. unfold plain. induction 1 as [|c s Hc _ IH]; simpl; [reflexivity|].
  rewrite (HP c Hc), IH. reflexivity.
Qed.

Lemma allowed_in_name_plain c : allowed_in_name c = true -> plain_char c = true.
Proof.
  intros H. unfold plain_char.
  destruct (N.eqb_spec c (ch "/")) as [->|_]; [vm_compute in H; discriminate|].
  destruct (N.eqb_spec c (ch "\")) as [->|_]; [vm_compute in H; discriminate|].
  destruct (N.eqb_spec c (ch ":")) as [->|_]; [vm_compute in H; discriminate|].
  reflexivity.
Qed.

Lemma allowed_in_title_name c : allowed_in_title c = true -> allowed_in_name c = true.
Proof.
  unfold allowed_in_title, allowed_in_name, mem; simpl.
  rewrite !orb_true_iff. intuition.
Qed.

Lemma safe_name_plain s : plain (safe_name s).
Proof. eapply plain_Forall; [apply allowed_in_name_plain | apply safe_name_allowed]. Qed.

Lemma safe_title_plain s : plain (safe_title s).
Proof.
  eapply plain_Forall; [|apply safe_title_allowed].
  intros c Hc. apply allowed_in_name_plain, allowed_in_title_name, Hc.
Qed.

Lemma digits_rev_plain n m : plain (digits_rev n m).
Proof.
  unfold plain. revert m. induction n as [|n IH]; intros m; simpl; [reflexivity|].
  rewrite IH, andb_true_r. unfold plain_char.
  assert (m mod 10 < 10) by (apply N.mod_lt; discriminate).
  change (ch "/") with 47. change (ch "\") with 92. change (ch ":") with 58.
  rewrite !andb_true_iff, !negb_true_iff, !N.eqb_neq.
  set (x := m mod 10) in *. clearbody x. lia.
Qed.

Lemma plain_rev s : plain s -> plain (rev s).
Proof.
  unfold plain. induction s as [|c s IH]; simpl; [auto|].
  rewrite andb_true_iff, forallb_app. intros [Hc Hs]. simpl.
  rewrite (IH Hs), Hc. reflexivity.
Qed.

Lemma zero_padded_plain n m : plain (zero_padded n m).
Proof. apply plain_rev, digits_rev_plain. Qed.

Lemma strftime_plain d : plain (strftime d).
Proof.
  unfold strftime.
  repeat (apply plain_app; [first [apply zero_padded_plain | reflexivity]|]).
  apply zero_padded_plain.
Qed.

Lemma plain_char_sep fl c : plain_char c = true -> is_sep fl c = false.
Proof.
  unfold plain_char, is_sep. rewrite !andb_true_iff, !negb_true_iff.
  intros [[-> H] _]. destruct fl; [reflexivity | exact H].
Qed.

Lemma plain_char_colon c : plain_char c = true -> (c =? ch ":") = false.
Proof.
  unfold plain_char. rewrite !andb_true_iff, !negb_true_iff. intros [_ H]. exact H.
Qed.

Lemma plain_cons c s : plain (c :: s) -> plain_char c = true /\ plain s.
Proof. unfold plain. simpl. rewrite andb_true_iff. auto. Qed.

Lemma split_on_plain fl s : plain s -> split_on (is_sep fl) s = [s].
Proof.
  induction s as [|c s IH]; [reflexivity|].
  intros [Hc Hs]%plain_cons. cbn [split_on].
  rewrite (plain_char_sep fl c Hc), (IH Hs). reflexivity.
Qed.

(** A name without separator and colon parses to itself, or to nothing when
    it is empty or a single dot. *)
Lemma Path_of_plain fl s :
  plain s -> Path_of fl s = mkPath [] (List.filter is_component [s]).
Proof.
  intros Hs. unfold Path_of.
  assert (split_drive fl s = ([], s)) as ->.
  { destruct fl; [reflexivity|]. destruct s as [|d [|c rest]]; try reflexivity.
    apply plain_cons in Hs as [_ [Hc _]%plain_cons]. cbn [split_drive].
    rewrite (plain_char_colon c Hc), andb_false_r. reflexivity. }
  assert (split_root fl s = ([], s)) as ->.
  { destruct s as [|c rest]; [reflexivity|].
    apply plain_cons in Hs as [Hc _]. cbn [split_root].
    rewrite (plain_char_sep fl c Hc). reflexivity. }
  rewrite (split_on_plain fl s Hs). reflexivity.
Qed.

Lemma is_component_long s : (2 <= length s)%nat -> is_component s = true.
Proof.
  intros H. unfold is_component, str_eqb.
  rewrite !bool_decide_eq_false_2; [reflexivity| |]; intros ->; simpl in H; lia.
Qed.

Lemma Path_of_component fl s :
  plain s -> (2 <= length s)%nat -> Path_of fl s = mkPath [] [s].
Proof.
  intros Hs Hl. rewrite (Path_of_plain fl s Hs). simpl.
  rewrite (is_component_long s Hl). reflexivity.
Qed.

Lemma joinpath_component fl p s :
  plain s -> (2 <= length s)%nat -> joinpath fl p s = mkPath (anchor p) (parts p ++ [s]).
Proof. intros Hs Hl. unfold joinpath. rewrite (Path_of_component fl s Hs Hl). reflexivity. Qed.

Lemma stem_plain fl s : plain s -> plain (stem (Path_of fl s)).
Proof.
  intros Hs. rewrite (Path_of_plain fl s Hs). unfold stem, name. simpl.
  assert (plain (List.last (if is_component s then [s] else []) [])) as Hn
    by (destruct (is_component s); [exact Hs | reflexivity]).
  destruct (rfind _ _) as [i|]; [|exact Hn].
  destruct (_ && _); [apply plain_firstn, Hn | exact Hn].
Qed.

Lemma strip_prefix_app pre l : strip_prefix pre (pre ++ l) = Some l.
Proof.
  induction pre as [|a pre IH]; simpl; [destruct l; reflexivity|].
  unfold str_eqb. rewrite bool_decide_eq_true_2 by reflexivity. exact IH.
Qed.

Lemma replace_plain s : plain s -> replace (ch "\") (ch "/") s = s.
Proof.
  induction s as [|c s IH]; [reflexivity|].
  intros [Hc Hs]%plain_cons. unfold replace in *. cbn [List.map]. rewrite (IH Hs).
  unfold plain_char in Hc. rewrite !andb_true_iff, !negb_true_iff in Hc.
  destruct Hc as [[_ ->] _]. reflexivity.
Qed.

(** ** A share that returns *)

Lemma create_player_page_Ret_inv env self video title w page w' :
  create_player_page env self video title w = (Ret page, w') ->
  page = joinpath (flavour env) (pages_dir self)
           (page_name (strftime (now env)) (safe_title title)) /\
  w' = set_nodes (<[resolve (cwd w) page :=
                      File (Text (html_content title (video_relative_path (safe_title title))))]>
                    (nodes w)) w.
Proof.
  unfold create_player_page. intros H.
  split_bind H d w1 Hd. unfold datetime_now in Hd. injection Hd as <- <-.
  split_bind H x w2 Hw. injection H as <- <-.
  apply write_file_Ret_inv in Hw as [-> _]. split; reflexivity.
Qed.

(** Every step of a share that returns has returned; the last three are the
    QR code, its directory and its file. *)
Lemma share_video_Ret_inv env self vp w info w' :
  share_video env self vp w = (Ret info, w') ->
  let fl := flavour env in
  let sn := safe_name (name (Path_of fl vp)) in
  let page := joinpath fl (pages_dir self)
                (page_name (strftime (now env)) (safe_title (stem (Path_of fl sn)))) in
  exists rel w5 w6,
    relative_to page (repo_path self) = Some rel /\
    mkdir_exist_ok env (parent (qr_path env self sn)) w5 = (Ret (), w6) /\
    write_file env (qr_path env self sn) (QrImage (page_url (to_str fl rel))) w6 = (Ret (), w') /\
    info = ShareResult.mk (to_str fl (target_path env self sn)) (to_str fl page)
             (page_url (to_str fl rel)) (to_str fl (qr_path env self sn)).
Proof.
  intros H fl sn page. unfold share_video in H.
  apply try_reraise_Ret_inv with (f := fun e => Exception (u "分享失败: " ++ str_of e)) in H.
  split_bind H x1 w1 H1. split_bind H x2 w2 H2. split_bind H x3 w3 H3.
  split_bind H pg w4 H4. apply create_player_page_Ret_inv in H4 as [-> _].
  split_bind H x5 w5 H5. split_bind H x6 w6 H6. split_bind H x7 w7 H7.
  split_bind H x8 w8 H8. split_bind H rel w9 H9.
  fold fl sn page in H9, H.
  destruct (relative_to page (repo_path self)) as [r|] eqn:Hrel; [|discriminate].
  injection H9 as -> ->.
  split_bind H x10 w10 H10. split_bind H x11 w11 H11.
  split_bind H x12 w12 H12. split_bind H x13 w13 H13. injection H as <- <-.
  destruct x12, x13.
  fold fl sn in H12, H13 |- *.
  exists rel, w11, w12. auto.
Qed.

(** ** The page URL *)

Lemma page_name_plain ts title : plain ts -> plain (page_name ts (safe_title title)).
Proof.
  intros H. unfold page_name.
  repeat (apply plain_app; [first [exact H | apply safe_title_plain | reflexivity]|]).
  reflexivity.
Qed.

Lemma page_name_long ts st : (3 <= length (page_name ts st))%nat.
Proof. unfold page_name. rewrite !length_app. simpl. lia. Qed.

Lemma pages_dir_new env repo :
  pages_dir (new env repo) = mkPath (anchor repo) (parts repo ++ [u "pages"]).
Proof. unfold new; simpl. apply joinpath_component; [reflexivity | simpl; lia]. Qed.

Lemma replace_app a b x y : replace a b (x ++ y) = replace a b x ++ replace a b y.
Proof. unfold replace. apply List.map_app. Qed.

Lemma page_url_pages fl file :
  plain file ->
  page_url (to_str fl (mkPath [] [u "pages"; file])) = repo_url ++ u "/pages/" ++ file.
Proof.
  intros Hfile. unfold page_url.
  change (to_str fl (mkPath [] [u "pages"; file])) with (u "pages" ++ [sep fl] ++ file).
  change (u "/pages/" ++ file) with (u "/" ++ u "pages" ++ [ch "/"] ++ file).
  rewrite !replace_app, (replace_plain file Hfile).
  destruct fl; reflexivity.
Qed.

(** C4: the URL in the result of a share is the base origin, a slash, and
    the path of the page relative to the repository root with its backslashes
    turned into slashes; that is the base origin followed by [/pages/] and the
    name of the page file. *)
Theorem C4_page_url env repo vp w info :
  fst (share_video env (new env repo) vp w) = Ret info ->
  let fl := flavour env in
  let title := stem (Path_of fl (safe_name (name (Path_of fl vp)))) in
  let file := page_name (strftime (now env)) (safe_title title) in
  let page := joinpath fl (pages_dir (new env repo)) file in
  exists rel,
    relative_to page repo = Some rel /\
    ShareResult.page_path info = to_str fl page /\
    ShareResult.page_url info = repo_url ++ u "/" ++ replace (ch "\") (ch "/") (to_str fl rel) /\
    ShareResult.page_url info = repo_url ++ u "/pages/" ++ file.
Proof.
  intros H fl title file page.
  destruct (share_video env (new env repo) vp w) as [r w'] eqn:Hrun. simpl in H. subst r.
  apply share_video_Ret_inv in Hrun as (rel & w5 & w6 & Hrel & _ & _ & ->).
  fold fl title file page in Hrel |- *. change (repo_path (new env repo)) with repo in Hrel.
  exists rel. split; [exact Hrel|]. split; [reflexivity|]. split; [reflexivity|].
  assert (Hfile : plain file) by apply page_name_plain, strftime_plain.
  assert (page = mkPath (anchor repo) ((parts repo ++ [u "pages"]) ++ [file])) as Hpage.
  { unfold page. rewrite pages_dir_new.
    pose proof (page_name_long (strftime (now env)) (safe_title title)).
    rewrite joinpath_component; [reflexivity | exact Hfile | fold file in H; lia]. }
  rewrite Hpage in Hrel. unfold relative_to in Hrel. cbn [anchor parts] in Hrel.
  unfold str_eqb in Hrel. rewrite bool_decide_eq_true_2 in Hrel by reflexivity.
  rewrite <- app_assoc, strip_prefix_app in Hrel. injection Hrel as <-.
  apply page_url_pages, Hfile.
Qed.


(** On Windows, for [C:\home\My Clip.mov] in the repository [C:\repo]: the
    relative path is [pages\20240101_120000_My Clip.html], the URL has
    slashes only. *)
Lemma C4_page_url_witness :
  let env := Run.quiet Windows in
  fst (share_video env (new env (Run.repo (u "C:\"))) (u "C:\home\My Clip.mov")
         (Run.world (u "C:\") (u "My Clip.mov") [])) = Ret Run.my_clip_windows /\
  ShareResult.page_url Run.my_clip_windows =
    repo_url ++ u "/pages/" ++ page_name (strftime (now env)) (u "My Clip").
Proof.
  intros env.
  assert (H : fst (share_video env (new env (Run.repo (u "C:\"))) (u "C:\home\My Clip.mov")
                     (Run.world (u "C:\") (u "My Clip.mov") [])) = Ret Run.my_clip_windows)
    by (vm_compute; reflexivity).
  split; [exact H|].
  destruct (C4_page_url _ _ _ _ _ H) as (rel & _ & _ & _ & Hurl).
  exact Hurl.
Defined.

(** ** The QR image *)

Lemma qr_path_parts env self sn :
  plain sn ->
  qr_path env self sn =
  mkPath (anchor (repo_path self))
    (parts (repo_path self) ++ [u "qrcodes"; stem (Path_of (flavour env) sn) ++ u "_qr.png"]).
Proof.
  intros Hsn. unfold qr_path.
  rewrite (joinpath_component _ _ (u "qrcodes")); [|reflexivity | simpl; lia].
  rewrite joinpath_component.
  - cbn [anchor parts]. rewrite <- app_assoc. reflexivity.
  - apply plain_app; [apply stem_plain, Hsn | reflexivity].
  - rewrite length_app. simpl. lia.
Qed.

Lemma parent_snoc a ps x : parent (mkPath a (ps ++ [x])) = mkPath a ps.
Proof. unfold parent. cbn [anchor parts]. rewrite removelast_last. reflexivity. Qed.

(** C6, as the script has it: the QR image of the page URL is written to
    [qrcodes/<stem>_qr.png] under the repository root, where [<stem>] is the
    stem of the sanitized file name as it is, dots inside it included; the
    [qrcodes] directory is there afterwards, created by the share when it was
    missing. *)
Theorem C6_qr_image_path env self vp w info :
  fst (share_video env self vp w) = Ret info ->
  let fl := flavour env in
  let w' := snd (share_video env self vp w) in
  let name_stem := stem (Path_of fl (safe_name (name (Path_of fl vp)))) in
  let qrcodes := mkPath (anchor (repo_path self)) (parts (repo_path self) ++ [u "qrcodes"]) in
  let qr := mkPath (anchor (repo_path self))
              (parts (repo_path self) ++ [u "qrcodes"; name_stem ++ u "_qr.png"]) in
  ShareResult.qr_path info = to_str fl qr /\
  nodes w' !! resolve (cwd w') qr = Some (File (QrImage (ShareResult.page_url info))) /\
  nodes w' !! resolve (cwd w') qrcodes = Some Dir.
Proof.
  intros H fl w' name_stem qrcodes qr. subst w'.
  destruct (share_video env self vp w) as [r w'] eqn:Hrun. simpl in H. subst r.
  apply share_video_Ret_inv in Hrun as (rel & w5 & w6 & _ & Hmk & Hwr & ->).
  rewrite qr_path_parts in Hmk, Hwr |- * by apply safe_name_plain.
  fold fl name_stem qr in Hmk, Hwr |- *. cbn [snd ShareResult.qr_path ShareResult.page_url].
  assert (parent qr = qrcodes) as Hparent.
  { unfold qr, qrcodes.
    change [u "qrcodes"; name_stem ++ u "_qr.png"]
      with ([u "qrcodes"] ++ [name_stem ++ u "_qr.png"]).
    rewrite app_assoc. apply parent_snoc. }
  rewrite Hparent in Hmk.
  apply mkdir_Ret_inv in Hmk as (Hcwd & Hdir & _).
  apply write_file_Ret_inv in Hwr as [-> Hfile].
  cbn [cwd nodes set_nodes]. split; [reflexivity|]. split.
  - apply lookup_insert_eq.
  - rewrite Hcwd in Hfile |- *.
    rewrite lookup_insert_ne.
    + unfold is_dir in Hdir. destruct (nodes w6 !! _) as [[|c]|]; congruence.
    + intros E. rewrite E in Hfile. congruence.
Qed.

(** For [clip.v2.mp4] the image is [qrcodes/clip.v2_qr.png]. *)
Lemma C6_qr_image_path_witness :
  let env := Run.quiet Posix in
  let run := share_video env (new env (Run.repo (u "/"))) (u "/home/clip.v2.mp4")
               (Run.world (u "/") (u "clip.v2.mp4") []) in
  fst run = Ret Run.clip_v2 /\
  ShareResult.qr_path Run.clip_v2 = u "/repo/qrcodes/clip.v2_qr.png" /\
  nodes (snd run) !! (u "/", [u "repo"; u "qrcodes"; u "clip.v2_qr.png"]) =
    Some (File (QrImage (ShareResult.page_url Run.clip_v2))) /\
  nodes (snd run) !! (u "/", [u "repo"; u "qrcodes"]) = Some Dir.
Proof.
  intros env run.
  assert (H : fst run = Ret Run.clip_v2) by (vm_compute; reflexivity).
  split; [exact H|].
  pose proof (C6_qr_image_path _ _ _ _ _ H) as (H1 & H2 & H3).
  split; [reflexivity|]. split; [exact H2 | exact H3].
Defined.

(** C6 as worded fails for [clip.v2.mp4]: the sanitized title is [clipv2],
    the image is [qrcodes/clip.v2_qr.png], and there is no
    [qrcodes/clipv2_qr.png]. *)
Lemma C6_counterexample :
  ~ qr_under_sanitized_title (Run.quiet Posix) (new (Run.quiet Posix) (Run.repo (u "/")))
      (u "/home/clip.v2.mp4") (Run.world (u "/") (u "clip.v2.mp4") []).
Proof.
  intros H. specialize (H Run.clip_v2).
  assert (Hrun : fst (share_video (Run.quiet Posix) (new (Run.quiet Posix) (Run.repo (u "/")))
                        (u "/home/clip.v2.mp4") (Run.world (u "/") (u "clip.v2.mp4") []))
                 = Ret Run.clip_v2) by (vm_compute; reflexivity).
  specialize (H Hrun). clear Hrun. vm_compute in H. destruct H as [c H]. discriminate H.
Qed.

(** ** The page and the copy it should play *)

(** C1 at [My Clip.mov]: the video is copied to [videos/My Clip.mov], and
    the source element of the page names [../videos/My Clip]; the name of the
    copy, with its extension, is nowhere in the page. *)
Theorem C1_page_source_without_extension :
  let env := Run.quiet Posix in
  let run := share_video env (new env (Run.repo (u "/"))) (u "/home/My Clip.mov")
               (Run.world (u "/") (u "My Clip.mov") []) in
  let html := html_content (u "My Clip") (u "../videos/My Clip") in
  fst run = Ret Run.my_clip /\
  nodes (snd run) !! (u "/", [u "repo"; u "videos"; u "My Clip.mov"]) =
    Some (File (Bytes Run.video_bytes)) /\
  nodes (snd run) !! (u "/", [u "repo"; u "pages"; u "20240101_120000_My Clip.html"]) =
    Some (File (Text html)) /\
  contains (tpl "<source src=`../videos/My Clip` type=`video/mp4`>") html = true /\
  contains (u "../videos/My Clip.mov") html = false.
Proof. repeat split; vm_compute; reflexivity. Qed.

(** ** A name that leaves the videos directory *)

(** C5 at a file named [.:.]: its sanitized name is [..], the target
    [videos/..] is the repository root, and the copy is written there, outside
    [videos]. *)
Theorem C5_sanitized_name_dot_dot :
  let env := Run.quiet Posix in
  let self := new env (Run.repo (u "/")) in
  let w := Run.world (u "/") (u ".:.") [] in
  let run := share_video env self (u "/home/.:.") w in
  safe_name (name (Path_of Posix (u "/home/.:."))) = u ".." /\
  locate env w (target_path env self (u "..")) = Some (u "/", [u "repo"]) /\
  nodes w !! (u "/", [u "repo"; u ".:."]) = None /\
  nodes (snd run) !! (u "/", [u "repo"; u ".:."]) = Some (File (Bytes Run.video_bytes)) /\
  nodes (snd run) !! (u "/", [u "repo"; u "videos"; u ".:."]) = None.
Proof. repeat split; vm_compute; reflexivity. Qed.

(** ** Commands that fail *)

Lemma same_but_console_refl w : same_but_console w w.
Proof. repeat split. Qed.

Lemma agree_ret {A} (a : A) : agree (ret a) (ret a).
Proof. intros w1 w2 H. split; [reflexivity | exact H]. Qed.

Lemma agree_raise {A} e : agree (@raise A e) (raise e).
Proof. intros w1 w2 H. split; [reflexivity | exact H]. Qed.

Lemma agree_bind {A B} (m1 m2 : M A) (k1 k2 : A -> M B) :
  agree m1 m2 -> (forall a, agree (k1 a) (k2 a)) -> agree (m1 ≫= k1) (m2 ≫= k2).
Proof.
  intros Hm Hk w1 w2 Hw. unfold mbind, M_bind, bind.
  destruct (Hm w1 w2 Hw) as [Hr Hw'].
  destruct (m1 w1) as [r1 w1'], (m2 w2) as [r2 w2']. simpl in Hr, Hw'. subst r2.
  destruct r1 as [a|e|c]; [apply Hk, Hw' | split; [reflexivity | exact Hw'] ..].
Qed.

Lemma agree_try {A} (m1 m2 : M A) (h1 h2 : Exn -> M A) :
  agree m1 m2 -> (forall e, agree (h1 e) (h2 e)) -> agree (try_except m1 h1) (try_except m2 h2).
Proof.
  intros Hm Hh w1 w2 Hw. unfold try_except.
  destruct (Hm w1 w2 Hw) as [Hr Hw'].
  destruct (m1 w1) as [r1 w1'], (m2 w2) as [r2 w2']. simpl in Hr, Hw'. subst r2.
  destruct r1 as [a|e|c]; [split; [reflexivity | exact Hw'] | apply Hh, Hw' |
                           split; [reflexivity | exact Hw']].
Qed.

(** Printing different lines keeps the worlds alike. *)
Lemma agree_print s1 s2 : agree (print s1) (print s2).
Proof. intros w1 w2 (H1 & H2 & H3 & H4). repeat split; assumption. Qed.

Lemma walk_alike w1 w2 a acc ps :
  nodes w1 = nodes w2 -> walk w1 a acc ps = walk w2 a acc ps.
Proof.
  intros Hn. revert acc. induction ps as [|p ps IH]; intros acc; [reflexivity|].
  cbn [walk]. unfold is_dir. rewrite Hn, !IH. reflexivity.
Qed.

Lemma locate_alike env w1 w2 p :
  cwd w1 = cwd w2 -> nodes w1 = nodes w2 -> locate env w1 p = locate env w2 p.
Proof.
  intros Hc Hn. unfold locate, is_dir. rewrite Hc, Hn.
  destruct (flavour env); [|reflexivity].
  destruct (anchor p); apply walk_alike, Hn.
Qed.

Lemma stat_alike env w1 w2 x :
  cwd w1 = cwd w2 -> nodes w1 = nodes w2 -> stat env w1 x = stat env w2 x.
Proof. intros Hc Hn. unfold stat. rewrite (locate_alike env w1 w2), Hn by assumption. reflexivity. Qed.

Lemma isdir_alike env w1 w2 p :
  cwd w1 = cwd w2 -> nodes w1 = nodes w2 -> isdir env w1 p = isdir env w2 p.
Proof.
  intros Hc Hn. unfold isdir, is_dir. rewrite (locate_alike env w1 w2), Hn by assumption.
  reflexivity.
Qed.

Lemma walk_blocked_alike w1 w2 a acc ps :
  nodes w1 = nodes w2 -> walk_blocked w1 a acc ps = walk_blocked w2 a acc ps.
Proof.
  intros Hn. revert acc. induction ps as [|p ps IH]; intros acc; [reflexivity|].
  cbn [walk_blocked]. rewrite Hn, !IH. reflexivity.
Qed.

Lemma blocked_alike env w1 w2 p :
  cwd w1 = cwd w2 -> nodes w1 = nodes w2 -> blocked env w1 p = blocked env w2 p.
Proof.
  intros Hc Hn. unfold blocked. rewrite Hc, Hn.
  destruct (flavour env); [|reflexivity].
  destruct (anchor p); apply walk_blocked_alike, Hn.
Qed.

Lemma unreachable_alike {A} env w1 w2 p :
  cwd w1 = cwd w2 -> nodes w1 = nodes w2 -> @unreachable env A w1 p = unreachable env w2 p.
Proof. intros Hc Hn. unfold unreachable. rewrite (blocked_alike env w1 w2 p Hc Hn). reflexivity. Qed.

Lemma locate_console env c n co1 co2 i s p :
  locate env (mkWorld c n co1 i s) p = locate env (mkWorld c n co2 i s) p.
Proof. apply locate_alike; reflexivity. Qed.

Lemma unreachable_console {A} env c n co1 co2 i s p :
  @unreachable env A (mkWorld c n co1 i s) p = unreachable env (mkWorld c n co2 i s) p.
Proof. apply unreachable_alike; reflexivity. Qed.

Lemma stat_refusal_alike env w1 w2 x :
  cwd w1 = cwd w2 -> nodes w1 = nodes w2 -> stat_refusal env w1 x = stat_refusal env w2 x.
Proof.
  intros Hc Hn. unfold stat_refusal.
  rewrite (locate_alike env w1 w2), (blocked_alike env w1 w2), Hn by assumption. reflexivity.
Qed.

Lemma stat_console env c n co1 co2 i s x :
  stat env (mkWorld c n co1 i s) x = stat env (mkWorld c n co2 i s) x.
Proof. apply stat_alike; reflexivity. Qed.

Lemma stat_refusal_console env c n co1 co2 i s x :
  stat_refusal env (mkWorld c n co1 i s) x = stat_refusal env (mkWorld c n co2 i s) x.
Proof. apply stat_refusal_alike; reflexivity. Qed.

(** Worlds that are alike are one world up to the console. *)
Ltac alike_worlds :=
  let c := fresh "c" in let n := fresh "n" in let co1 := fresh "co" in
  let co2 := fresh "co" in let i := fresh "i" in let s := fresh "s" in
  intros [c n co1 i s] [? ? co2 ? ?] (? & ? & ? & ?); cbn [cwd nodes stdin spawned] in *; subst.

Lemma agree_mkdir env p : agree (mkdir_exist_ok env p) (mkdir_exist_ok env p).
Proof.
  alike_worlds. unfold mkdir_exist_ok.
  rewrite (locate_console env _ _ co co0), (unreachable_console env _ _ co co0).
  destruct (locate _ _ _); [|repeat split]. destruct (os_error _ _); [repeat split|].
  cbn [nodes]. destruct (_ !! _) as [[|?]|]; repeat split.
Qed.

Lemma agree_write_file env p c : agree (write_file env p c) (write_file env p c).
Proof.
  alike_worlds. unfold write_file.
  rewrite (locate_console env _ _ co co0), (unreachable_console env _ _ co co0).
  destruct (locate _ _ _); [|repeat split]. destruct (os_error _ _); [repeat split|].
  unfold is_dir. cbn [nodes]. destruct (_ !! _) as [[|?]|]; repeat split.
Qed.

Lemma agree_read_file env s : agree (read_file env s) (read_file env s).
Proof.
  alike_worlds. unfold read_file. rewrite (stat_console env _ _ co co0). cbn [cwd].
  rewrite (stat_refusal_console env _ _ co co0).
  destruct (os_error _ _); [repeat split|].
  destruct (stat _ _ _) as [[|?]|]; repeat split.
Qed.

Lemma agree_copy2 env src dst : agree (shutil_copy2 env src dst) (shutil_copy2 env src dst).
Proof.
  intros w1 w2 Hw. unfold shutil_copy2.
  assert (isdir env w1 dst = isdir env w2 dst /\ stat env w1 src = stat env w2 src /\
          (forall p, locate env w1 p = locate env w2 p) /\ nodes w1 = nodes w2)
    as (-> & -> & Hl & ->).
  { destruct Hw as (Hc & Hn & _). repeat split; try assumption.
    - apply isdir_alike; assumption.
    - apply stat_alike; assumption.
    - intros p. apply locate_alike; assumption. }
  rewrite !Hl.
  match goal with |- context [if ?b then _ else _] => destruct b end.
  - split; [reflexivity | exact Hw].
  - apply (agree_bind (read_file env src) (read_file env src));
      [apply agree_read_file | | exact Hw].
    intros c. apply agree_bind; [apply agree_write_file|]. intros _. apply agree_ret.
Qed.

Lemma agree_qr_make env data : agree (qr_make env data) (qr_make env data).
Proof. intros w1 w2 Hw. unfold qr_make. destruct (os_error _ _); split; auto. Qed.

Lemma agree_create_player_page env self video title :
  agree (create_player_page env self video title) (create_player_page env self video title).
Proof.
  unfold create_player_page. apply agree_bind; [intros w1 w2 Hw; split; [reflexivity | exact Hw]|].
  intros d. apply agree_bind; [apply agree_write_file|]. intros _. apply agree_ret.
Qed.

(** What a command leaves behind, by the way it ends. *)
Lemma run_command_spec env command w :
  _run_command env command w =
  let w1 := set_spawned (spawned w ++ [command]) w in
  match popen env command with
  | SpawnError err =>
      (Ret [], set_console (console w1 ++ [u "命令执行错误: " ++ err]) w1)
  | Exited rc out err =>
      if bool_decide (rc = 0%Z) then (Ret (strip out), w1)
      else (Ret [], set_console (console w1 ++ [u "命令执行错误: " ++ (u "命令失败: " ++ err)]) w1)
  end.
Proof.
  unfold _run_command, try_except, popen_communicate, mbind, M_bind, bind.
  destruct (popen env command) as [err|rc out err]; [reflexivity|].
  destruct (bool_decide (rc = 0%Z)); reflexivity.
Qed.

(** A command always returns, it adds itself to the commands run, and it
    touches nothing else but the console: what follows it goes on alike,
    however the command ends. *)
Lemma agree_run_command {A} env f command (k1 k2 : M A) :
  agree k1 k2 ->
  agree (_run_command env command ;; k1) (_run_command (with_popen env f) command ;; k2).
Proof.
  intros Hk w1 w2 (H1 & H2 & H3 & H4).
  unfold mbind, M_bind, bind. rewrite !run_command_spec.
  cbn [popen with_popen].
  destruct (popen env command) as [e1|rc1 o1 e1], (f command) as [e2|rc2 o2 e2];
    try destruct (bool_decide (rc1 = 0%Z)); try destruct (bool_decide (rc2 = 0%Z));
    apply Hk; repeat split; cbn; congruence.
Qed.

(** The environment with other commands is the same environment to every
    step that runs no command. *)
Lemma with_popen_steps env f :
  flavour (with_popen env f) = flavour env /\
  shutil_copy2 (with_popen env f) = shutil_copy2 env /\
  create_player_page (with_popen env f) = create_player_page env /\
  qr_make (with_popen env f) = qr_make env /\
  mkdir_exist_ok (with_popen env f) = mkdir_exist_ok env /\
  write_file (with_popen env f) = write_file env /\
  target_path (with_popen env f) = target_path env /\
  qr_path (with_popen env f) = qr_path env.
Proof. repeat split. Qed.

(** However the three commands end, a share ends the same way, with the same
    files and directories and the same commands run. *)
Lemma share_video_any_commands env f self vp :
  agree (share_video env self vp) (share_video (with_popen env f) self vp).
Proof.
  unfold share_video.
  destruct (with_popen_steps env f) as (-> & -> & -> & -> & -> & -> & -> & ->).
  apply agree_try; [|intros e; apply agree_raise].
  apply agree_bind; [apply agree_print | intros _].
  apply agree_bind; [apply agree_copy2 | intros _].
  apply agree_bind; [apply agree_print | intros _].
  apply agree_bind; [apply agree_create_player_page | intros page].
  apply agree_bind; [apply agree_print | intros _].
  do 3 apply agree_run_command.
  apply agree_bind.
  { destruct (relative_to _ _); [apply agree_ret | apply agree_raise]. }
  intros rel.
  apply agree_bind; [apply agree_print | intros _].
  apply agree_bind; [apply agree_qr_make | intros _].
  apply agree_bind; [apply agree_mkdir | intros _].
  apply agree_bind; [apply agree_write_file | intros _].
  apply agree_ret.
Qed.

Lemma runs_nothing_bind {A B} (m : M A) (f : A -> M B) :
  runs_nothing m -> (forall a, runs_nothing (f a)) -> runs_nothing (m ≫= f).
Proof.
  intros Hm Hf w. unfold mbind, M_bind, bind.
  specialize (Hm w). destruct (m w) as [[a|e|c] w1]; simpl in *; [|assumption..].
  rewrite Hf. exact Hm.
Qed.

Lemma runs_nothing_step {A} (m : M A) w r w1 :
  runs_nothing m -> m w = (r, w1) -> spawned w1 = spawned w.
Proof. intros Hm H. specialize (Hm w). rewrite H in Hm. exact Hm. Qed.

Lemma runs_nothing_print s : runs_nothing (print s).
Proof. intros w. reflexivity. Qed.

Lemma runs_nothing_qr_make env data : runs_nothing (qr_make env data).
Proof. intros w. unfold qr_make. destruct (os_error _ _); reflexivity. Qed.

Lemma runs_nothing_mkdir env p : runs_nothing (mkdir_exist_ok env p).
Proof.
  intros w. unfold mkdir_exist_ok. destruct (locate _ _ _); [|reflexivity].
  destruct (os_error _ _); [reflexivity|]. destruct (_ !! _) as [[|?]|]; reflexivity.
Qed.

Lemma runs_nothing_write_file env p c : runs_nothing (write_file env p c).
Proof.
  intros w. unfold write_file. destruct (locate _ _ _); [|reflexivity].
  destruct (os_error _ _); [reflexivity|]. destruct (is_dir _ _); reflexivity.
Qed.

Lemma runs_nothing_read_file env s : runs_nothing (read_file env s).
Proof.
  intros w. unfold read_file. destruct (os_error _ _); [reflexivity|].
  destruct (stat _ _ _) as [[|?]|]; reflexivity.
Qed.

Lemma runs_nothing_copy2 env src dst : runs_nothing (shutil_copy2 env src dst).
Proof.
  intros w. unfold shutil_copy2.
  match goal with |- context [if ?b then _ else _] => destruct b end; [reflexivity|].
  apply (runs_nothing_bind (read_file env src)); [apply runs_nothing_read_file | intros c].
  apply runs_nothing_bind; [apply runs_nothing_write_file | intros _ w1; reflexivity].
Qed.

Lemma runs_nothing_create_player_page env self video title :
  runs_nothing (create_player_page env self video title).
Proof.
  unfold create_player_page. apply runs_nothing_bind; [intros w; reflexivity | intros d].
  apply runs_nothing_bind; [apply runs_nothing_write_file | intros _ w1; reflexivity].
Qed.

Lemma run_command_Ret_spawned env command w out w1 :
  _run_command env command w = (Ret out, w1) -> spawned w1 = spawned w ++ [command].
Proof.
  rewrite run_command_spec. cbv zeta.
  destruct (popen _ _); [|destruct (bool_decide _)]; intros H; injection H as _ <-; reflexivity.
Qed.

(** A share that returns has run its three commands, in their order. *)
Lemma share_video_Ret_spawned env self vp w info w' :
  share_video env self vp w = (Ret info, w') ->
  let fl := flavour env in
  let sn := safe_name (name (Path_of fl vp)) in
  let page := joinpath fl (pages_dir self)
                (page_name (strftime (now env)) (safe_title (stem (Path_of fl sn)))) in
  spawned w' =
  spawned w ++
  [[u "git"; u "add"; to_str fl (target_path env self sn)];
   [u "git"; u "add"; to_str fl page];
   [u "git"; u "commit"; u "-m"; u "Add video: " ++ sn]].
Proof.
  intros H fl sn page. unfold share_video in H.
  apply try_reraise_Ret_inv with (f := fun e => Exception (u "分享失败: " ++ str_of e)) in H.
  split_bind H x1 w1 H1. split_bind H x2 w2 H2. split_bind H x3 w3 H3.
  split_bind H pg w4 H4. pose proof H4 as Hpg.
  apply create_player_page_Ret_inv in Hpg as [-> _].
  split_bind H x5 w5 H5. split_bind H x6 w6 H6. split_bind H x7 w7 H7.
  split_bind H x8 w8 H8. split_bind H rel w9 H9.
  split_bind H x10 w10 H10. split_bind H x11 w11 H11.
  split_bind H x12 w12 H12. split_bind H x13 w13 H13. injection H as _ <-.
  apply (runs_nothing_step _ _ _ _ (runs_nothing_print _)) in H1, H3, H5, H10.
  apply (runs_nothing_step _ _ _ _ (runs_nothing_copy2 _ _ _)) in H2.
  apply (runs_nothing_step _ _ _ _ (runs_nothing_create_player_page _ _ _ _)) in H4.
  apply run_command_Ret_spawned in H6, H7, H8.
  assert (spawned w9 = spawned w8) as H9'
    by (destruct (relative_to _ _); [injection H9 as _ <-; reflexivity | discriminate]).
  apply (runs_nothing_step _ _ _ _ (runs_nothing_qr_make _ _)) in H11.
  apply (runs_nothing_step _ _ _ _ (runs_nothing_mkdir _ _)) in H12.
  apply (runs_nothing_step _ _ _ _ (runs_nothing_write_file _ _ _)) in H13.
  rewrite H13, H12, H11, H10, H9', H8, H7, H6, H5, H4, H3, H2, H1.
  rewrite <- !app_assoc. reflexivity.
Qed.

(** C2: a command that exits with a non-zero status makes [_run_command]
    print the error and return the empty string, without raising; and a share
    ends in the same way, leaves the same files and directories and runs the
    same commands whatever the commands answer, so a failed command aborts
    nothing and undoes nothing; a share that returns has staged the video,
    staged the page and committed, in this order. *)
Theorem C2_command_failure_is_soft env command rc out err w :
  popen env command = Exited rc out err ->
  rc <> 0%Z ->
  _run_command env command w =
    (Ret [],
     set_console (console w ++ [u "命令执行错误: " ++ (u "命令失败: " ++ err)])
       (set_spawned (spawned w ++ [command]) w)) /\
  forall self vp w0,
    let fl := flavour env in
    let run := share_video env self vp w0 in
    (forall f,
       let run' := share_video (with_popen env f) self vp w0 in
       fst run = fst run' /\
       nodes (snd run) = nodes (snd run') /\
       spawned (snd run) = spawned (snd run')) /\
    (forall info,
       fst run = Ret info ->
       spawned (snd run) =
       spawned w0 ++
       [[u "git"; u "add"; ShareResult.video_path info];
        [u "git"; u "add"; ShareResult.page_path info];
        [u "git"; u "commit"; u "-m"; u "Add video: " ++ safe_name (name (Path_of fl vp))]]).
Proof.
  intros Hp Hrc. split.
  - rewrite run_command_spec, Hp. rewrite bool_decide_eq_false_2 by exact Hrc. reflexivity.
  - intros self vp w0 fl run. split.
    + intros f run'.
      destruct (share_video_any_commands env f self vp w0 w0 (same_but_console_refl w0))
        as (H1 & _ & H2 & _ & H3).
      auto.
    + intros info Hinfo. apply pair_of_fst in Hinfo.
      rewrite (share_video_Ret_spawned _ _ _ _ _ _ Hinfo).
      apply share_video_Ret_inv in Hinfo as (rel & w5 & w6 & _ & _ & _ & ->).
      reflexivity.
Qed.

(** Outside a git repository every command ends with status 128, and the
    share of [My Clip.mov] returns what it returns when git works, after
    three commands. *)
Lemma C2_command_failure_is_soft_witness :
  let env := Run.no_git Posix in
  let w := Run.world (u "/") (u "My Clip.mov") [] in
  let command := [u "git"; u "add"; u "/repo/videos/My Clip.mov"] in
  let run := share_video env (new env (Run.repo (u "/"))) (u "/home/My Clip.mov") w in
  fst (_run_command env command w) = Ret [] /\
  fst run = Ret Run.my_clip /\
  length (spawned (snd run)) = 3%nat /\
  nodes (snd run) =
  nodes (snd (share_video (Run.quiet Posix) (new env (Run.repo (u "/")))
                (u "/home/My Clip.mov") w)).
Proof.
  intros env w command run.
  assert (Hp : popen env command =
               Exited 128 [] (u "fatal: not a git repository (or any of the parent directories): .git"))
    by reflexivity.
  assert (Hrc : 128%Z <> 0%Z) by discriminate.
  destruct (C2_command_failure_is_soft env command _ _ _ w Hp Hrc) as [Hrun Hshare].
  split; [rewrite Hrun; reflexivity|].
  destruct (Hshare (new env (Run.repo (u "/"))) (u "/home/My Clip.mov") w) as [Hany _].
  destruct (Hany (popen (Run.quiet Posix))) as (_ & Hnodes & _).
  split; [vm_compute; reflexivity|]. split; [vm_compute; reflexivity|].
  exact Hnodes.
Defined.

(** ** The copy stays *)













Lemma norm_app acc r : exists s, forall y, norm acc (r ++ y) = norm s y.
Proof.
  revert acc. induction r as [|p r IH]; intros acc.
  - exists acc. reflexivity.
  - simpl. destruct (str_eqb p (u "..")); apply IH.
Qed.

(** Below one directory, whatever lies under [videos] by at most two further
    steps is not what lies under another name by one step: the video or its
    copy is neither the page nor the QR image. *)
Lemma sibling_keys cw a r x d f :
  (length x <= 2)%nat ->
  d <> u "videos" -> d <> u ".." -> f <> u ".." ->
  resolve cw (mkPath a (r ++ [d; f])) <> resolve cw (mkPath a (r ++ [u "videos"] ++ x)).
Proof.
  intros Hx Hd Hd' Hf. unfold resolve. cbn [anchor parts].
  assert (forall acc, norm acc (r ++ [d; f]) <> norm acc (r ++ [u "videos"] ++ x)) as Hn.
  { intros acc. destruct (norm_app acc r) as [s Hs]. rewrite !Hs.
    destruct x as [|x1 [|x2 [|x3 x]]]; [| | |simpl in Hx; lia];
      cbn [norm app]; unfold str_eqb;
      rewrite (bool_decide_eq_false_2 (d = u "..")), (bool_decide_eq_false_2 (f = u ".."))
        by assumption;
      rewrite (bool_decide_eq_false_2 (u "videos" = u "..")) by discriminate;
      repeat case_bool_decide; cbn [List.tail];
      intros E; apply (f_equal (@rev _)) in E; rewrite !rev_involutive in E;
      try (injection E; intros; congruence);
      apply (f_equal (@length _)) in E; cbn [length] in E;
      try lia.
    destruct s; cbn [List.tail length] in E; lia. }
  destruct a; intros E; injection E; apply Hn.
Qed.

Lemma videos_dir_new env repo :
  videos_dir (new env repo) = mkPath (anchor repo) (parts repo ++ [u "videos"]).
Proof. unfold new; simpl. apply joinpath_component; [reflexivity | simpl; lia]. Qed.

Lemma walk_before_last w a acc ps p k :
  walk w a acc (ps ++ [p]) = Some k -> is_dir w (a, norm acc ps) = true.
Proof.
  revert acc. induction ps as [|q ps IH]; intros acc; cbn [app walk norm].
  - destruct (is_dir w (a, rev acc)); [reflexivity | discriminate].
  - destruct (is_dir w (a, rev acc)); [|discriminate].
    destruct (str_eqb q (u "..")); apply IH.
Qed.

Lemma norm_last acc ps p : p <> u ".." -> norm acc (ps ++ [p]) = norm acc ps ++ [p].
Proof.
  intros Hp. revert acc. induction ps as [|q ps IH]; intros acc; cbn [app norm].
  - unfold str_eqb. rewrite bool_decide_eq_false_2 by assumption. reflexivity.
  - destruct (str_eqb q (u "..")); apply IH.
Qed.

(** Where the operating system reaches a child of a directory, the directory
    is there. *)
Lemma locate_child env w a ps p k :
  p <> u ".." ->
  locate env w (mkPath a (ps ++ [p])) = Some k ->
  is_dir w (resolve (cwd w) (mkPath a ps)) = true.
Proof.
  intros Hp. unfold locate, resolve, key_parent. cbn [anchor parts].
  destruct (flavour env).
  - destruct a; apply walk_before_last.
  - destruct a; cbn [fst snd]; rewrite norm_last, removelast_last by assumption;
      destruct (is_dir w _); congruence.
Qed.

(** When [videos] in the working directory can be made, the working
    directory is there. *)
Lemma mkdir_videos_cwd env w x w1 :
  mkdir_exist_ok env (videos_dir (new env (key_path (cwd w)))) w = (Ret x, w1) ->
  is_dir w (here w) = true.
Proof.
  rewrite videos_dir_new. unfold mkdir_exist_ok.
  destruct (locate env w _) as [k|] eqn:Hk; [|discriminate]. intros _.
  apply locate_child in Hk; [exact Hk | discriminate].
Qed.

Lemma target_path_parts env repo sn :
  plain sn ->
  target_path env (new env repo) sn =
  mkPath (anchor repo) (parts repo ++ [u "videos"] ++ List.filter is_component [sn]).
Proof.
  intros Hsn. unfold target_path, joinpath. rewrite videos_dir_new, (Path_of_plain _ sn Hsn).
  cbn [anchor parts]. rewrite <- app_assoc. reflexivity.
Qed.

Lemma filter_one_length (f : list N -> bool) x : (length (List.filter f [x]) <= 1)%nat.
Proof. simpl. destruct (f x); simpl; lia. Qed.


Lemma not_dot_dot_long s : (3 <= length s)%nat -> s <> u "..".
Proof. intros H ->. simpl in H. lia. Qed.



(** ** What ends the process *)

Lemma never_exits_ret {A} (a : A) : never_exits (ret a).
Proof. intros w code. discriminate. Qed.

Lemma never_exits_raise {A} e : never_exits (@raise A e).
Proof. intros w code. discriminate. Qed.

Lemma never_exits_print s : never_exits (print s).
Proof. intros w code. discriminate. Qed.

Lemma never_exits_bind {A B} (m : M A) (f : A -> M B) :
  never_exits m -> (forall a, never_exits (f a)) -> never_exits (m ≫= f).
Proof.
  intros Hm Hf w code. unfold mbind, M_bind, bind.
  specialize (Hm w). destruct (m w) as [[a|e|c] w1]; simpl in *.
  - apply Hf.
  - discriminate.
  - destruct (Hm c). reflexivity.
Qed.

Lemma never_exits_try {A} (m : M A) (h : Exn -> M A) :
  never_exits m -> (forall e, never_exits (h e)) -> never_exits (try_except m h).
Proof.
  intros Hm Hh w code. unfold try_except.
  specialize (Hm w). destruct (m w) as [[a|e|c] w1]; simpl in *.
  - discriminate.
  - apply Hh.
  - destruct (Hm c). reflexivity.
Qed.

Lemma never_exits_input s : never_exits (input s).
Proof. intros w code. unfold input. destruct (stdin _); discriminate. Qed.

Lemma never_exits_exists env s : never_exits (os_path_exists env s).
Proof. intros w code. discriminate. Qed.

Lemma never_exits_mkdir env p : never_exits (mkdir_exist_ok env p).
Proof.
  intros w code. unfold mkdir_exist_ok.
  destruct (locate _ _ _); [|discriminate]. destruct (os_error _ _); [discriminate|].
  destruct (_ !! _) as [[|?]|]; discriminate.
Qed.

Lemma never_exits_chdir env p : never_exits (os_chdir env p).
Proof.
  intros w code. unfold os_chdir.
  destruct (locate _ _ _); [|discriminate]. destruct (os_error _ _); [discriminate|].
  destruct (is_dir _ _); discriminate.
Qed.

Lemma never_exits_write_file env p c : never_exits (write_file env p c).
Proof.
  intros w code. unfold write_file.
  destruct (locate _ _ _); [|discriminate]. destruct (os_error _ _); [discriminate|].
  destruct (is_dir _ _); discriminate.
Qed.

Lemma never_exits_read_file env s : never_exits (read_file env s).
Proof.
  intros w code. unfold read_file. destruct (os_error _ _); [discriminate|].
  destruct (stat _ _ _) as [[|?]|]; discriminate.
Qed.

Lemma never_exits_copy2 env src dst : never_exits (shutil_copy2 env src dst).
Proof.
  intros w code. unfold shutil_copy2.
  match goal with |- context [if ?b then _ else _] => destruct b end; [discriminate|].
  apply (never_exits_bind (read_file env src)); [apply never_exits_read_file | intros c].
  apply never_exits_bind; [apply never_exits_write_file | intros _; apply never_exits_ret].
Qed.

Lemma never_exits_qr_make env data : never_exits (qr_make env data).
Proof. intros w code. unfold qr_make. destruct (os_error _ _); discriminate. Qed.

Lemma never_exits_run_command env command : never_exits (_run_command env command).
Proof.
  intros w code. rewrite run_command_spec. cbv zeta.
  destruct (popen _ _); [|destruct (bool_decide _)]; discriminate.
Qed.

Lemma never_exits_create_player_page env self video title :
  never_exits (create_player_page env self video title).
Proof.
  unfold create_player_page. apply never_exits_bind; [intros w code; discriminate | intros d].
  apply never_exits_bind; [apply never_exits_write_file | intros _; apply never_exits_ret].
Qed.

Lemma never_exits_share_video env self vp : never_exits (share_video env self vp).
Proof.
  unfold share_video. apply never_exits_try; [|intros e; apply never_exits_raise].
  repeat first
    [ apply never_exits_ret
    | apply never_exits_bind;
      [first [ apply never_exits_print | apply never_exits_copy2
             | apply never_exits_create_player_page | apply never_exits_run_command
             | apply never_exits_qr_make | apply never_exits_mkdir
             | apply never_exits_write_file
             | destruct (relative_to _ _); [apply never_exits_ret | apply never_exits_raise] ]
      | intros ? ] ].
Qed.

Lemma bind_Ret {A B} (m : M A) (f : A -> M B) w a w1 :
  m w = (Ret a, w1) -> (m ≫= f) w = f a w1.
Proof. intros H. unfold mbind, M_bind, bind. rewrite H. reflexivity. Qed.

Lemma try_bind_cases {A B} (m : M A) (f : A -> M B) h w :
  try_except (m ≫= f) h w =
  match m w with
  | (Ret a, w1) => try_except (f a) h w1
  | (Raise e, w1) => h e w1
  | (Exit c, w1) => (Exit c, w1)
  end.
Proof. unfold try_except, mbind, M_bind, bind. destruct (m w) as [[a|e|c] w1]; reflexivity. Qed.

Lemma init_cases env repo w :
  __init__ env repo w =
  match setup_repository env (new env repo) w with
  | (Ret _, w1) => (Ret (new env repo), w1)
  | (Raise e, w1) => (Raise e, w1)
  | (Exit c, w1) => (Exit c, w1)
  end.
Proof. reflexivity. Qed.

Lemma agree_chdir env p : agree (os_chdir env p) (os_chdir env p).
Proof.
  intros w1 w2 (Hc & Hn & Hi & Hs). unfold os_chdir, is_dir.
  rewrite (locate_alike env w1 w2 p Hc Hn), (unreachable_alike env w1 w2 p Hc Hn), Hn.
  destruct (locate _ _ _); [|repeat split; assumption].
  destruct (os_error _ _); [repeat split; assumption|].
  destruct (_ !! _) as [[|?]|]; repeat split; assumption.
Qed.

Lemma agree_setup_repository env self :
  agree (setup_repository env self) (setup_repository env self).
Proof.
  unfold setup_repository. apply agree_try.
  - apply agree_bind; [apply agree_mkdir | intros _].
    apply agree_bind; [apply agree_mkdir | intros _]. apply agree_chdir.
  - intros e. apply agree_bind; [apply agree_print | intros _].
    intros w1 w2 H. split; [reflexivity | exact H].
Qed.

(** The way [setup_repository] ends, by the way its three steps end. *)
Lemma setup_repository_fst env self w :
  fst (setup_repository env self w) =
  match fst ((mkdir_exist_ok env (videos_dir self);; mkdir_exist_ok env (pages_dir self);;
              os_chdir env (repo_path self)) w) with
  | Ret a => Ret a
  | Raise _ => Exit 1
  | Exit c => Exit c
  end.
Proof.
  unfold setup_repository, try_except.
  match goal with
  | |- context [fst (?m w)] => destruct (m w) as [[a|e|c] w1]
  end; reflexivity.
Qed.

Lemma getcwd_after_print c w :
  os_getcwd (set_console c w) =
  if is_dir w (here w) then (Ret (key_path (cwd w)), set_console c w)
  else (Raise (Exception (strerror NoSuchFile)), set_console c w).
Proof. reflexivity. Qed.

(** Without its working directory [main] prints the error of [os.getcwd]
    and returns. *)
Lemma main_without_cwd env w :
  is_dir w (here w) = false ->
  main env w =
  (Ret (),
   set_console (console w ++ [u "=== GitHub LFS 视频分享工具 ===" ++ nl;
                              nl ++ u "错误：" ++ strerror NoSuchFile]) w).
Proof.
  intros Hcwd. unfold main.
  rewrite (bind_Ret (print _) _ w () _ eq_refl).
  rewrite try_bind_cases, getcwd_after_print, Hcwd.
  cbn [str_of]. unfold print, set_console. cbn [console cwd nodes stdin spawned].
  rewrite <- app_assoc. reflexivity.
Qed.

(** With its working directory, the world in which [main] constructs the
    sharer differs from the one it was started in by two printed lines. *)
Lemma main_construction env w :
  is_dir w (here w) = true ->
  exists w0,
    same_but_console w w0 /\
    main env w =
    match setup_repository env (new env (key_path (cwd w))) w0 with
    | (Ret _, w1) =>
        try_except
          (line ← input (nl ++ u "请输入视频文件路径（直接拖入文件即可）: ");
           let video_path := strip_chars quote (strip line) in
           found ← os_path_exists env video_path;
           if negb found then print (u "错误：视频文件不存在！")
           else
             print (nl ++ u "处理中...");;
             info ← share_video env (new env (key_path (cwd w))) video_path;
             print (nl ++ u "=== 分享成功！===");;
             print (u "视频路径: " ++ ShareResult.video_path info);;
             print (u "播放页面: " ++ ShareResult.page_path info);;
             print (u "访问地址: " ++ ShareResult.page_url info);;
             print (u "二维码位置: " ++ ShareResult.qr_path info);;
             print (nl ++ u "注意：需要手动push到GitHub才能访问");;
             print (u "运行: git push origin main"))
          (fun e => print (nl ++ u "错误：" ++ str_of e)) w1
    | (Raise e, w1) => print (nl ++ u "错误：" ++ str_of e) w1
    | (Exit c, w1) => (Exit c, w1)
    end.
Proof.
  intros Hcwd.
  pose proof (eq_refl (main env w)) as H. unfold main at 2 in H.
  rewrite (bind_Ret (print _) _ w () _ eq_refl) in H.
  rewrite try_bind_cases, getcwd_after_print, Hcwd in H.
  rewrite try_bind_cases in H. cbn [print] in H.
  rewrite try_bind_cases, init_cases in H. cbn [cwd set_console snd] in H.
  match type of H with
  | context [setup_repository _ _ ?w0] => exists w0
  end.
  split; [repeat split|]. rewrite H.
  destruct (setup_repository _ _ _) as [[a|e|c] w1]; reflexivity.
Qed.

Lemma never_exits_main_rest env self :
  never_exits
    (try_except
       (line ← input (nl ++ u "请输入视频文件路径（直接拖入文件即可）: ");
        let video_path := strip_chars quote (strip line) in
        found ← os_path_exists env video_path;
        if negb found then print (u "错误：视频文件不存在！")
        else
          print (nl ++ u "处理中...");;
          info ← share_video env self video_path;
          print (nl ++ u "=== 分享成功！===");;
          print (u "视频路径: " ++ ShareResult.video_path info);;
          print (u "播放页面: " ++ ShareResult.page_path info);;
          print (u "访问地址: " ++ ShareResult.page_url info);;
          print (u "二维码位置: " ++ ShareResult.qr_path info);;
          print (nl ++ u "注意：需要手动push到GitHub才能访问");;
          print (u "运行: git push origin main"))
       (fun e => print (nl ++ u "错误：" ++ str_of e))).
Proof.
  apply never_exits_try; [|intros e; apply never_exits_print].
  apply never_exits_bind; [apply never_exits_input | intros line].
  apply never_exits_bind; [apply never_exits_exists | intros found].
  destruct (negb found); [apply never_exits_print|].
  apply never_exits_bind; [apply never_exits_print | intros _].
  apply never_exits_bind; [apply never_exits_share_video | intros info].
  repeat (apply never_exits_bind; [apply never_exits_print | intros _]).
  apply never_exits_print.
Qed.

Lemma setup_repository_Ret_cwd env w x w1 :
  setup_repository env (new env (key_path (cwd w))) w = (Ret x, w1) ->
  is_dir w (here w) = true.
Proof.
  unfold setup_repository, try_except. intros H.
  match type of H with
  | context [(?m ≫= ?f) w] => destruct ((m ≫= f) w) as [[a|e|c] w2] eqn:Hsteps
  end; [|discriminate H..].
  split_bind Hsteps x1 wa H1. exact (mkdir_videos_cwd env w x1 wa H1).
Qed.

Lemma getcwd_Ret_iff w : (exists p, fst (os_getcwd w) = Ret p) <-> is_dir w (here w) = true.
Proof.
  unfold os_getcwd. destruct (is_dir w (here w)); cbn [fst].
  - split; [reflexivity | eauto].
  - split; [intros [p H]; discriminate H | discriminate].
Qed.

Lemma getcwd_Raise_inv w e :
  fst (os_getcwd w) = Raise e -> is_dir w (here w) = false /\ e = Exception (strerror NoSuchFile).
Proof.
  unfold os_getcwd. destruct (is_dir w (here w)); cbn [fst]; intros H; [discriminate H|].
  split; congruence.
Qed.

(** [main] ends the process exactly when it has got its working directory
    and [setup_repository] ends the process. *)
Lemma main_exit_iff env w code :
  fst (main env w) = Exit code <->
  is_dir w (here w) = true /\
  fst (setup_repository env (new env (key_path (cwd w))) w) = Exit code.
Proof.
  destruct (is_dir w (here w)) eqn:Hcwd.
  - destruct (main_construction env w Hcwd) as (w0 & Hw0 & ->).
    destruct (agree_setup_repository env (new env (key_path (cwd w))) w w0 Hw0) as [-> _].
    destruct (setup_repository _ _ w0) as [[a|e|c] w1]; cbn [fst].
    + split; [|intros [_ H]; discriminate H]. intros H. exfalso. revert H.
      apply never_exits_main_rest.
    + split; [discriminate | intros [_ H]; discriminate H].
    + split; [auto | intros [_ H]; exact H].
  - rewrite (main_without_cwd env w Hcwd). cbn [fst].
    split; [discriminate | intros [H _]; discriminate H].
Qed.

Lemma setup_steps_fst env self w :
  let create := mkdir_exist_ok env (videos_dir self);; mkdir_exist_ok env (pages_dir self) in
  fst ((mkdir_exist_ok env (videos_dir self);; mkdir_exist_ok env (pages_dir self);;
        os_chdir env (repo_path self)) w) =
  match fst (create w) with
  | Ret _ => fst (os_chdir env (repo_path self) (snd (create w)))
  | Raise e => Raise e
  | Exit c => Exit c
  end.
Proof.
  unfold mbind, M_bind, bind.
  destruct (mkdir_exist_ok env (videos_dir self) w) as [[a|e|c] w1]; [|reflexivity..].
  destruct (mkdir_exist_ok env (pages_dir self) w1) as [[a'|e|c] w2]; reflexivity.
Qed.

(** C8, as the script has it. Once [main] has its working directory from
    [os.getcwd]: when making either base directory raises, [main] ends the
    process with status 1; when both are made and the change of the working
    directory that follows them raises, [main] ends the process with status 1
    as well. [main] ends the process only with status 1 and only when one of
    these three steps of the repository initialization has raised. An error
    of [os.getcwd] itself is not fatal: [main] prints it and returns. Here,
    as everywhere, the console works and the operator does not interrupt. *)
Theorem C8_initialization_failure_is_fatal env w :
  let self := new env (key_path (cwd w)) in
  let create := mkdir_exist_ok env (videos_dir self);; mkdir_exist_ok env (pages_dir self) in
  let chdir := os_chdir env (repo_path self) in
  ((exists p, fst (os_getcwd w) = Ret p) ->
   (exists e, fst (create w) = Raise e) ->
   fst (main env w) = Exit 1) /\
  (fst (create w) = Ret () ->
   (exists e, fst (chdir (snd (create w))) = Raise e) ->
   fst (main env w) = Exit 1) /\
  (forall code,
     fst (main env w) = Exit code ->
     code = 1%Z /\
     (exists p, fst (os_getcwd w) = Ret p) /\
     ((exists e, fst (create w) = Raise e) \/
      (fst (create w) = Ret () /\ exists e, fst (chdir (snd (create w))) = Raise e))) /\
  (forall e,
     fst (os_getcwd w) = Raise e ->
     fst (main env w) = Ret () /\
     console (snd (main env w)) =
     console w ++ [u "=== GitHub LFS 视频分享工具 ===" ++ nl; nl ++ u "错误：" ++ str_of e]).
Proof.
  intros self create chdir. split; [|split; [|split]].
  - intros Hcwd [e He]. apply getcwd_Ret_iff in Hcwd. apply main_exit_iff. fold self.
    split; [exact Hcwd|].
    rewrite setup_repository_fst, setup_steps_fst. fold create. rewrite He. reflexivity.
  - intros Hc [e He]. apply main_exit_iff. fold self. split.
    + unfold create, mbind, M_bind, bind in Hc.
      destruct (mkdir_exist_ok env (videos_dir self) w) as [[x|e1|c1] w1] eqn:H1;
        cbn [fst] in Hc; try discriminate Hc.
      exact (mkdir_videos_cwd env w x w1 H1).
    + rewrite setup_repository_fst, setup_steps_fst. fold create chdir. rewrite Hc, He.
      reflexivity.
  - intros code H. apply main_exit_iff in H as [Hcwd H]. fold self in H.
    apply getcwd_Ret_iff in Hcwd.
    rewrite setup_repository_fst, setup_steps_fst in H. fold create chdir in H.
    destruct (fst (create w)) as [[]|e|c] eqn:Hc.
    + destruct (fst (chdir (snd (create w)))) as [a|e|c] eqn:Hd.
      * discriminate.
      * injection H as <-. split; [reflexivity|]. split; [exact Hcwd|].
        right. split; [reflexivity|]. eauto.
      * exfalso. revert Hd. apply never_exits_chdir.
    + injection H as <-. split; [reflexivity|]. split; [exact Hcwd|]. left. eauto.
    + exfalso. revert Hc. unfold create.
      apply (never_exits_bind (mkdir_exist_ok env (videos_dir self)));
        [apply never_exits_mkdir | intros _; apply never_exits_mkdir].
  - clear self create chdir. intros e He. apply getcwd_Raise_inv in He as [Hcwd ->].
    rewrite (main_without_cwd env w Hcwd).
    cbn [fst snd console set_console str_of]. split; reflexivity.
Qed.

(** Where no directory can be made, and where both are made and the change
    of the working directory is refused, [main] ends the process with
    status 1. *)
Lemma C8_initialization_failure_is_fatal_witness :
  let w := mkWorld (u "/", [u "repo"])
             (<[(u "/", [u "repo"]) := Dir]> (<[(u "/", []) := Dir]> ∅)) [] [] [] in
  let create env :=
    let self := new env (key_path (cwd w)) in
    mkdir_exist_ok env (videos_dir self);; mkdir_exist_ok env (pages_dir self) in
  (fst (os_getcwd w) = Ret (Run.repo (u "/")) /\
   fst (create (Run.no_mkdir Posix) w) = Raise (Exception (u "[Errno 13] Permission denied")) /\
   fst (main (Run.no_mkdir Posix) w) = Exit 1) /\
  (fst (create (Run.no_chdir Posix) w) = Ret () /\
   fst (os_chdir (Run.no_chdir Posix) (Run.repo (u "/"))
          (snd (create (Run.no_chdir Posix) w))) =
     Raise (Exception (u "[Errno 5] Input/output error")) /\
   fst (main (Run.no_chdir Posix) w) = Exit 1).
Proof.
  intros w create. split.
  - assert (H0 : fst (os_getcwd w) = Ret (Run.repo (u "/"))) by (vm_compute; reflexivity).
    assert (H : fst (create (Run.no_mkdir Posix) w) =
                Raise (Exception (u "[Errno 13] Permission denied")))
      by (vm_compute; reflexivity).
    split; [exact H0|]. split; [exact H|].
    apply (proj1 (C8_initialization_failure_is_fatal (Run.no_mkdir Posix) w));
      eexists; [exact H0 | exact H].
  - assert (H1 : fst (create (Run.no_chdir Posix) w) = Ret ()) by (vm_compute; reflexivity).
    assert (H2 : fst (os_chdir (Run.no_chdir Posix) (Run.repo (u "/"))
                        (snd (create (Run.no_chdir Posix) w))) =
                 Raise (Exception (u "[Errno 5] Input/output error")))
      by (vm_compute; reflexivity).
    split; [exact H1|]. split; [exact H2|].
    apply (proj1 (proj2 (C8_initialization_failure_is_fatal (Run.no_chdir Posix) w)));
      [exact H1 | eexists; exact H2].
Defined.

(** C8 as worded fails where [os.chdir] is refused: both directories are
    there, and [main] ends the process all the same. *)
Lemma C8_counterexample :
  ~ exits_only_when_creation_raises (Run.no_chdir Posix) (Run.world (u "/") (u "My Clip.mov") []).
Proof.
  intros H. specialize (H 1%Z).
  assert (Hexit : fst (main (Run.no_chdir Posix) (Run.world (u "/") (u "My Clip.mov") []))
                  = Exit 1) by (vm_compute; reflexivity).
  specialize (H Hexit). clear Hexit. destruct H as [e H]. vm_compute in H. discriminate H.
Qed.

(** ** A video that is not there *)

Lemma chdir_Ret_inv env p w u0 w' :
  os_chdir env p w = (Ret u0, w') -> exists k, w' = set_cwd k w.
Proof.
  unfold os_chdir. destruct (locate _ _ _) as [k|]; [|discriminate].
  destruct (os_error _ _); [discriminate|]. destruct (is_dir _ _); [|discriminate].
  intros H. injection H as _ <-. eauto.
Qed.

(** A repository initialization that returns has printed nothing, read
    nothing and run nothing, and has at most made the two base directories. *)
Lemma setup_repository_Ret_inv env self w u0 w1 :
  setup_repository env self w = (Ret u0, w1) ->
  console w1 = console w /\ stdin w1 = stdin w /\ spawned w1 = spawned w /\
  forall k,
    nodes w1 !! k = nodes w !! k \/
    (nodes w !! k = None /\ nodes w1 !! k = Some Dir /\
     (k = resolve (cwd w) (videos_dir self) \/ k = resolve (cwd w) (pages_dir self))).
Proof.
  unfold setup_repository, try_except. intros H.
  match type of H with
  | context [(?m ≫= ?f) w] => destruct ((m ≫= f) w) as [[a|e|c] w2] eqn:Hsteps
  end; [|discriminate..].
  injection H as _ <-.
  split_bind Hsteps x1 wa H1. split_bind Hsteps x2 wb H2.
  apply mkdir_Ret_inv in H1 as (Hc1 & _ & Ho1 & Hs1 & Hi1 & Hn1).
  apply mkdir_Ret_inv in H2 as (Hc2 & _ & Ho2 & Hs2 & Hi2 & Hn2).
  apply chdir_Ret_inv in Hsteps as [k0 ->]. cbn [console stdin spawned nodes set_cwd].
  repeat split; try congruence.
  intros k. rewrite Hc1 in Hn2.
  destruct (Hn1 k) as [E1|(E1k & E1 & E1')], (Hn2 k) as [E2|(E2k & E2 & E2')].
  - left. congruence.
  - right. rewrite <- E1. auto.
  - right. rewrite E2. auto.
  - congruence.
Qed.

(** C9: when the repository initialization has returned and the path that
    the operator typed names nothing, [main] prints that the video does not
    exist and returns; it runs no command, and the only change on the disk is
    that of the initialization, which can only have made the two base
    directories. *)
Theorem C9_missing_video env w line rest w1 :
  let self := new env (key_path (cwd w)) in
  let video_path := strip_chars quote (strip line) in
  stdin w = line :: rest ->
  setup_repository env self w = (Ret (), w1) ->
  stat env w1 video_path = None ->
  let w' := snd (main env w) in
  fst (main env w) = Ret () /\
  List.last (console w') [] = u "错误：视频文件不存在！" /\
  spawned w' = spawned w /\
  forall k,
    nodes w' !! k = nodes w !! k \/
    (nodes w !! k = None /\ nodes w' !! k = Some Dir /\
     (k = resolve (cwd w) (videos_dir self) \/ k = resolve (cwd w) (pages_dir self))).
Proof.
  intros self video_path Hin Hsetup Hstat w'. subst w'.
  destruct (main_construction env w (setup_repository_Ret_cwd env w _ _ Hsetup))
    as (w0 & Hw0 & Hmain).
  fold self in Hmain.
  destruct (agree_setup_repository env self w w0 Hw0) as [Hfst Hsnd].
  rewrite Hsetup in Hfst, Hsnd. cbn [fst snd] in Hfst, Hsnd.
  destruct (setup_repository env self w0) as [r w1'] eqn:Hsetup0.
  cbn [fst snd] in Hfst, Hsnd. subst r.
  destruct Hsnd as (Hc & Hn & Hi & Hs).
  apply setup_repository_Ret_inv in Hsetup as (_ & Hi1 & Hs1 & Hn1).
  assert (exists printed,
             main env w =
             (Ret (), mkWorld (cwd w1') (nodes w1') (printed ++ [u "错误：视频文件不存在！"])
                        rest (spawned w1'))) as [printed ->].
  { rewrite Hmain, try_bind_cases. unfold input at 1. cbn [stdin set_console].
    rewrite <- Hi, Hi1, Hin.
    rewrite try_bind_cases. unfold os_path_exists at 1. fold video_path.
    rewrite (stat_alike env _ w1 video_path) by (cbn; congruence).
    rewrite Hstat. eexists. reflexivity. }
  cbn [fst snd console spawned nodes].
  rewrite last_last, <- Hs, Hs1, <- Hn.
  repeat split; assumption.
Qed.

(** In a fresh repository the operator types the quoted path of a video that
    is not there. *)
Lemma C9_missing_video_witness :
  let env := Run.quiet Posix in
  let line := u "  " ++ quote ++ u "/home/missing.mp4" ++ quote ++ u " " in
  let w := Run.fresh (u "/") [line] in
  let self := new env (key_path (cwd w)) in
  stdin w = [line] /\
  fst (setup_repository env self w) = Ret () /\
  stat env (snd (setup_repository env self w)) (strip_chars quote (strip line)) = None /\
  fst (main env w) = Ret () /\
  List.last (console (snd (main env w))) [] = u "错误：视频文件不存在！" /\
  spawned (snd (main env w)) = [].
Proof.
  intros env line w self.
  assert (H1 : stdin w = [line]) by reflexivity.
  assert (H2 : setup_repository env self w = (Ret (), snd (setup_repository env self w)))
    by (apply pair_of_fst; vm_compute; reflexivity).
  assert (H3 : stat env (snd (setup_repository env self w)) (strip_chars quote (strip line))
               = None) by (vm_compute; reflexivity).
  destruct (C9_missing_video env w line [] _ H1 H2 H3) as (R1 & R2 & R3 & _).
  split; [exact H1|]. split; [rewrite H2; reflexivity|]. split; [exact H3|].
  split; [exact R1|]. split; [exact R2 | exact R3].
Defined.

(** * Further properties of the script *)

(** ** What the sanitizers keep *)

Lemma filter_sublist (f : N -> bool) s : sublist (List.filter f s) s.
Proof.
  induction s as [|c s IH]; simpl; [constructor|].
  destruct (f c); [apply sublist_skip | apply sublist_cons]; exact IH.
Qed.

Lemma strip_by_sublist p s : sublist (strip_by p s) s.
Proof.
  unfold strip_by.
  destruct (lstrip_by_suffix p s) as [pre E1].
  destruct (rstrip_by_prefix p (lstrip_by p s)) as [suf E2].
  rewrite E1 at 2. apply sublist_inserts_l. rewrite E2 at 2. apply sublist_inserts_r.
  reflexivity.
Qed.

(** Sanitizing only deletes characters: the sanitized file name and the
    sanitized title are what is left of the input when some of its characters
    are taken out, in the order they had. *)
Theorem sanitizers_only_delete (s : str) :
  sublist (safe_name s) s /\ sublist (safe_title s) s.
Proof.
  split; (etransitivity; [apply strip_by_sublist | apply filter_sublist]).
Qed.

(** A name stays as it is exactly when it has only the characters that are
    kept and neither starts nor ends with whitespace; the same for a title. *)
Theorem sanitizers_fixed_points (s : str) :
  (safe_name s = s <-> Forall (fun c => allowed_in_name c = true) s /\ trimmed s) /\
  (safe_title s = s <-> Forall (fun c => allowed_in_title c = true) s /\ trimmed s).
Proof.
  split; split.
  - intros E. rewrite <- E. split; [apply safe_name_allowed | apply strip_trimmed].
  - intros [Ha [Hh Hl]]. unfold safe_name. rewrite (filter_fixed _ s Ha).
    apply strip_by_fixed; assumption.
  - intros E. rewrite <- E. split; [apply safe_title_allowed | apply strip_trimmed].
  - intros [Ha [Hh Hl]]. unfold safe_title. rewrite (filter_fixed _ s Ha).
    apply strip_by_fixed; assumption.
Qed.

(** ** The URL *)

Lemma replace_without a b s : a <> b -> Forall (fun c => c <> a) (replace a b s).
Proof.
  intros Hab. unfold replace. induction s as [|c s IH]; simpl; constructor; [|exact IH].
  destruct (N.eqb_spec c a); congruence.
Qed.

(** Whatever the relative path of the page is, the URL starts with the base
    origin and a slash, and it has no backslash. *)
Theorem page_url_has_no_backslash (relative_path : str) :
  startswith (repo_url ++ u "/") (page_url relative_path) = true /\
  Forall (fun c => c <> ch "\") (page_url relative_path).
Proof.
  split.
  - unfold page_url. generalize (replace (ch "\") (ch "/") relative_path). intros r.
    vm_compute. reflexivity.
  - unfold page_url. rewrite !Forall_app. split; [|split].
    + vm_compute. repeat constructor; discriminate.
    + repeat constructor; discriminate.
    + apply replace_without. discriminate.
Qed.

(** ** A name of which nothing is kept *)

Lemma lstrip_by_all p s : Forall (fun c => p c = true) s -> lstrip_by p s = [].
Proof. induction 1 as [|c s Hc _ IH]; simpl; [reflexivity|]. rewrite Hc. exact IH. Qed.

Lemma safe_name_empty s :
  Forall (fun c => allowed_in_name c = false \/ c = ch " ") s -> safe_name s = [].
Proof.
  intros H. unfold safe_name, strip, strip_by.
  rewrite lstrip_by_all; [reflexivity|].
  induction H as [|c s Hc _ IH]; simpl; [constructor|].
  destruct (allowed_in_name c) eqn:Ha; [|exact IH].
  constructor; [|exact IH]. destruct Hc as [Hc| ->]; [discriminate | reflexivity].
Qed.

(** A copy that returns, with the place it went to. *)
Lemma copy2_Ret_dst env src dst w d w' :
  shutil_copy2 env src dst w = (Ret d, w') ->
  d = (if isdir env w dst
       then mkPath (anchor dst)
              (parts dst ++ List.filter is_component [basename (flavour env) src])
       else dst) /\
  is_dir w (resolve (cwd w) d) = false /\
  exists c,
    stat env w src = Some (File c) /\
    w' = set_nodes (<[resolve (cwd w) d := File c]> (nodes w)) w.
Proof.
  unfold shutil_copy2. set (dst1 := if isdir env w dst then _ else _).
  match goal with |- context [if ?b then _ else _] => destruct b end; [discriminate|].
  intros H. split_bind H c w1 Hr. split_bind H x w2 Hw. injection H as <- <-.
  unfold read_file in Hr. destruct (os_error _ _); [discriminate|].
  destruct (stat env w src) as [[|c0]|] eqn:Hs; try discriminate.
  injection Hr as <- <-.
  apply write_file_Ret_inv in Hw as [-> Hd].
  split; [reflexivity|]. split; [exact Hd|]. exists c0. auto.
Qed.

Lemma isdir_is_dir env w p : isdir env w p = true -> is_dir w (resolve (cwd w) p) = true.
Proof.
  unfold isdir. destruct (locate env w p) as [k|] eqn:Hk; [|discriminate].
  apply locate_resolve in Hk as ->. auto.
Qed.

(** When no character of the file name is kept (spaces apart), the sanitized
    name is empty and the target of the copy is the videos directory itself;
    a copy that returns then lies in that directory under the base name the
    file had, which no sanitizer has seen. *)
Theorem name_of_which_nothing_is_kept env repo vp w dst w1 :
  let fl := flavour env in
  let self := new env repo in
  let sn := safe_name (name (Path_of fl vp)) in
  Forall (fun c => allowed_in_name c = false \/ c = ch " ") (name (Path_of fl vp)) ->
  isdir env w (videos_dir self) = true ->
  shutil_copy2 env vp (target_path env self sn) w = (Ret dst, w1) ->
  sn = [] /\
  target_path env self sn = videos_dir self /\
  dst = mkPath (anchor repo) (parts repo ++ [u "videos"; basename fl vp]).
Proof.
  intros fl self sn Hname Hdir Hcopy.
  assert (Hsn : sn = []) by (apply safe_name_empty, Hname).
  assert (Htarget : target_path env self sn = videos_dir self).
  { rewrite Hsn. unfold self. rewrite target_path_parts by reflexivity.
    rewrite videos_dir_new. reflexivity. }
  split; [exact Hsn|]. split; [exact Htarget|].
  rewrite Htarget in Hcopy. apply copy2_Ret_dst in Hcopy as (Hd & Hnot & _).
  rewrite Hdir in Hd. apply isdir_is_dir in Hdir.
  unfold self in Hd, Hdir. rewrite videos_dir_new in Hd, Hdir. cbn [anchor parts] in Hd.
  fold fl in Hd. simpl List.filter in Hd.
  destruct (is_component (basename fl vp)).
  - rewrite Hd, <- app_assoc. reflexivity.
  - rewrite app_nil_r in Hd. subst dst. congruence.
Qed.

(** A file named with three asterisks: its copy is [videos/***]. *)
Lemma name_of_which_nothing_is_kept_witness :
  let env := Run.quiet Posix in
  let w := Run.world (u "/") (u "***") [] in
  let self := new env (Run.repo (u "/")) in
  let vp := u "/home/***" in
  let sn := safe_name (name (Path_of (flavour env) vp)) in
  let dst := mkPath (u "/") [u "repo"; u "videos"; u "***"] in
  Forall (fun c => allowed_in_name c = false \/ c = ch " ") (name (Path_of (flavour env) vp)) /\
  isdir env w (videos_dir self) = true /\
  shutil_copy2 env vp (target_path env self sn) w =
    (Ret dst, snd (shutil_copy2 env vp (target_path env self sn) w)) /\
  sn = [] /\
  target_path env self sn = videos_dir self.
Proof.
  intros env w self vp sn dst.
  assert (Hn : name (Path_of (flavour env) vp) = [42; 42; 42]) by (vm_compute; reflexivity).
  assert (H1 : Forall (fun c => allowed_in_name c = false \/ c = ch " ")
                 (name (Path_of (flavour env) vp))).
  { rewrite Hn. repeat (constructor; [left; vm_compute; reflexivity|]). constructor. }
  clear Hn.
  assert (H2 : isdir env w (videos_dir self) = true) by (vm_compute; reflexivity).
  assert (H3 : shutil_copy2 env vp (target_path env self sn) w =
               (Ret dst, snd (shutil_copy2 env vp (target_path env self sn) w)))
    by (apply pair_of_fst; vm_compute; reflexivity).
  destruct (name_of_which_nothing_is_kept env (Run.repo (u "/")) vp w dst _ H1 H2 H3)
    as (R1 & R2 & _).
  split; [exact H1|]. split; [exact H2|]. split; [exact H3|]. split; [exact R1 | exact R2].
Defined.

(** ** How the functions end *)

Lemma try_reraise_fst {A} (m : M A) (g : Exn -> Exn) w e' :
  fst (try_except m (fun e => raise (g e)) w) = Raise e' -> exists e, e' = g e.
Proof.
  unfold try_except, raise. destruct (m w) as [[a|e|c] w1]; simpl; intros H; try discriminate.
  injection H as <-. eauto.
Qed.

(** [share_video] never ends the process, and what it raises is the
    exception that its handler makes of the one it caught: the failure prefix
    and, after it, the message of that exception. So when the copy raises,
    the share raises the message of the copy after the prefix, and has done
    nothing after the copy. *)
Theorem share_video_raises_with_prefix env self vp w :
  let fl := flavour env in
  let target := target_path env self (safe_name (name (Path_of fl vp))) in
  let copy := shutil_copy2 env vp target (set_console (console w ++ [u "复制视频文件..."]) w) in
  match fst (share_video env self vp w) with
  | Ret _ => True
  | Raise e => exists msg, e = Exception (u "分享失败: " ++ msg)
  | Exit _ => False
  end /\
  (forall e0,
     fst copy = Raise e0 ->
     share_video env self vp w = (Raise (Exception (u "分享失败: " ++ str_of e0)), snd copy)).
Proof.
  intros fl target copy. split.
  - clear copy. destruct (fst (share_video env self vp w)) as [info|e|c] eqn:H.
    + exact I.
    + unfold share_video in H.
      apply (try_reraise_fst _ (fun e => Exception (u "分享失败: " ++ str_of e))) in H
        as [e0 ->].
      eauto.
    + revert H. apply never_exits_share_video.
  - intros e0 H. subst copy. unfold share_video. fold fl target.
    rewrite try_bind_cases. cbn [print]. rewrite try_bind_cases.
    destruct (shutil_copy2 env vp target _) as [[d|e|c] w2]; cbn [fst snd] in *;
      try discriminate H.
    assert (e = e0) as -> by congruence. reflexivity.
Qed.

Lemma mkdir_effect env p w :
  let w' := snd (mkdir_exist_ok env p w) in
  cwd w' = cwd w /\ console w' = console w /\ stdin w' = stdin w /\ spawned w' = spawned w /\
  forall k, nodes w' !! k = nodes w !! k \/
            (k = resolve (cwd w) p /\ nodes w !! k = None /\ nodes w' !! k = Some Dir).
Proof.
  cbv zeta. destruct (mkdir_exist_ok env p w) as [[[]|e|c] w'] eqn:H.
  - apply mkdir_Ret_inv in H as (H1 & _ & H2 & H3 & H4 & H5). auto.
  - assert (w' = w) as ->; [|repeat split; auto].
    unfold mkdir_exist_ok in H. destruct (locate _ _ _); [|injection H as _ <-; reflexivity].
    destruct (os_error _ _); [injection H as _ <-; reflexivity|].
    destruct (_ !! _) as [[|?]|]; try discriminate. injection H as _ <-; reflexivity.
  - exfalso. apply (never_exits_mkdir env p w c). rewrite H. reflexivity.
Qed.

Lemma chdir_effect env p w :
  let r := os_chdir env p w in
  nodes (snd r) = nodes w /\ console (snd r) = console w /\
  stdin (snd r) = stdin w /\ spawned (snd r) = spawned w /\
  match fst r with
  | Ret _ => cwd (snd r) = resolve (cwd w) p /\ is_dir w (resolve (cwd w) p) = true
  | Raise _ => cwd (snd r) = cwd w
  | Exit _ => False
  end.
Proof.
  cbv zeta. unfold os_chdir. destruct (locate env w p) as [k|] eqn:Hk; [|repeat split].
  apply locate_resolve in Hk as ->.
  destruct (os_error _ _); [repeat split|].
  destruct (is_dir w _) eqn:Hd; repeat split.
Qed.

Lemma setup_repository_cases env self w :
  setup_repository env self w =
  match (mkdir_exist_ok env (videos_dir self);; mkdir_exist_ok env (pages_dir self);;
         os_chdir env (repo_path self)) w with
  | (Ret a, w1) => (Ret a, w1)
  | (Raise e, w1) => (Exit 1, set_console (console w1 ++ [u "仓库设置失败: " ++ str_of e]) w1)
  | (Exit c, w1) => (Exit c, w1)
  end.
Proof.
  unfold setup_repository, try_except.
  match goal with |- context [match ?m w with _ => _ end] => destruct (m w) as [[a|e|c] w1] end;
    reflexivity.
Qed.

(** The three steps of the repository initialization, whatever their end. *)
Lemma setup_steps_effect env self w :
  let root := resolve (cwd w) (repo_path self) in
  let videos := resolve (cwd w) (videos_dir self) in
  let pages := resolve (cwd w) (pages_dir self) in
  let r := (mkdir_exist_ok env (videos_dir self);; mkdir_exist_ok env (pages_dir self);;
            os_chdir env (repo_path self)) w in
  (forall k,
     nodes (snd r) !! k = nodes w !! k \/
     (nodes w !! k = None /\ nodes (snd r) !! k = Some Dir /\ (k = videos \/ k = pages))) /\
  stdin (snd r) = stdin w /\ spawned (snd r) = spawned w /\ console (snd r) = console w /\
  match fst r with
  | Ret _ =>
      cwd (snd r) = root /\ is_dir (snd r) root = true /\ is_dir (snd r) videos = true /\
      is_dir (snd r) pages = true
  | Raise _ => True
  | Exit _ => False
  end.
Proof.
  intros root videos pages r. subst r. unfold mbind, M_bind, bind.
  pose proof (mkdir_effect env (videos_dir self) w) as (Hc1 & Ho1 & Hi1 & Hs1 & Hn1).
  fold videos in Hn1.
  destruct (mkdir_exist_ok env (videos_dir self) w) as [[[]|e|c] wa] eqn:H1;
    cbn [fst snd] in *.
  2: { split; [|auto]. intros k. destruct (Hn1 k) as [E|(E1 & E2 & E3)]; auto. }
  2: { exfalso. apply (never_exits_mkdir env (videos_dir self) w c). rewrite H1. reflexivity. }
  pose proof (mkdir_effect env (pages_dir self) wa) as (Hc2 & Ho2 & Hi2 & Hs2 & Hn2).
  rewrite Hc1 in Hn2. fold pages in Hn2.
  assert (Hn : forall k,
             nodes (snd (mkdir_exist_ok env (pages_dir self) wa)) !! k = nodes w !! k \/
             (nodes w !! k = None /\
              nodes (snd (mkdir_exist_ok env (pages_dir self) wa)) !! k = Some Dir /\
              (k = videos \/ k = pages))).
  { intros k. destruct (Hn1 k) as [E1|(E1k & E1 & E1')], (Hn2 k) as [E2|(E2k & E2 & E2')].
    - left. congruence.
    - right. rewrite <- E1. auto.
    - right. rewrite E2. auto.
    - congruence. }
  apply mkdir_Ret_inv in H1 as (_ & Hdv & _). fold videos in Hdv.
  destruct (mkdir_exist_ok env (pages_dir self) wa) as [[[]|e|c] wb] eqn:H2;
    cbn [fst snd] in *.
  2: { split; [exact Hn|]. split; [congruence|]. split; [congruence|]. split; [congruence|].
       exact I. }
  2: { exfalso. apply (never_exits_mkdir env (pages_dir self) wa c). rewrite H2. reflexivity. }
  apply mkdir_Ret_inv in H2 as (_ & Hdp & _). rewrite Hc1 in Hdp. fold pages in Hdp.
  pose proof (chdir_effect env (repo_path self) wb) as (Hn3 & Ho3 & Hi3 & Hs3 & Hr).
  rewrite Hc2, Hc1 in Hr. fold root in Hr.
  assert (Hdv' : is_dir wb videos = true).
  { unfold is_dir in *. destruct (Hn2 videos) as [E|(_ & E & _)]; [rewrite E; exact Hdv|].
    rewrite E in Hdv. discriminate Hdv. }
  split; [intros k; rewrite Hn3; apply Hn|].
  split; [congruence|]. split; [congruence|]. split; [congruence|].
  destruct (fst (os_chdir env (repo_path self) wb)) as [[]|e|c]; [|exact I|exact Hr].
  destruct Hr as [Hcwd Hroot]. unfold is_dir in *. rewrite Hn3. auto.
Qed.

(** [setup_repository] never raises: it returns or it ends the process with
    status 1. When it returns, the working directory is the repository root,
    the root and the two base directories are directories, and nothing was
    printed; when it ends the process, it has printed one line, the setup
    failure with the message of the error. Either way it has at most made the
    two base directories: every other file and directory is as it was. *)
Theorem setup_repository_outcome env self w :
  let root := resolve (cwd w) (repo_path self) in
  let videos := resolve (cwd w) (videos_dir self) in
  let pages := resolve (cwd w) (pages_dir self) in
  let w1 := snd (setup_repository env self w) in
  (forall k,
     nodes w1 !! k = nodes w !! k \/
     (nodes w !! k = None /\ nodes w1 !! k = Some Dir /\ (k = videos \/ k = pages))) /\
  stdin w1 = stdin w /\ spawned w1 = spawned w /\
  match fst (setup_repository env self w) with
  | Ret _ =>
      cwd w1 = root /\ is_dir w1 root = true /\ is_dir w1 videos = true /\
      is_dir w1 pages = true /\ console w1 = console w
  | Raise _ => False
  | Exit code =>
      code = 1%Z /\ exists msg, console w1 = console w ++ [u "仓库设置失败: " ++ msg]
  end.
Proof.
  intros root videos pages w1. subst w1. rewrite setup_repository_cases.
  pose proof (setup_steps_effect env self w) as (Hn & Hi & Hs & Ho & Hr).
  fold root videos pages in Hn, Hr.
  match type of Hn with context [snd (?m w)] => destruct (m w) as [[[]|e|c] w1] end;
    cbn [fst snd] in *.
  - destruct Hr as (R1 & R2 & R3 & R4). auto 10.
  - cbn [nodes stdin spawned console set_console].
    split; [exact Hn|]. split; [exact Hi|]. split; [exact Hs|]. split; [reflexivity|].
    exists (str_of e). rewrite Ho. reflexivity.
  - contradiction.
Qed.

(** ** What a share leaves alone *)

Lemma frames_ret {A} cw ks (a : A) : frames cw ks (ret a).
Proof. intros w H. auto. Qed.

Lemma frames_raise {A} cw ks e : frames cw ks (@raise A e).
Proof. intros w H. auto. Qed.

Lemma frames_print cw ks s : frames cw ks (print s).
Proof. intros w H. auto. Qed.

Lemma frames_bind {A B} cw ks (m : M A) (f : A -> M B) :
  frames cw ks m -> (forall a, frames cw ks (f a)) -> frames cw ks (m ≫= f).
Proof.
  intros Hm Hf w H. unfold mbind, M_bind, bind.
  destruct (Hm w H) as (H1 & H2 & H3). destruct (m w) as [[a|e|x] w1]; cbn [snd] in *; auto.
  destruct (Hf a w1 H1) as (H4 & H5 & H6). split; [exact H4|]. split; [congruence|].
  intros k Hk. rewrite (H6 k Hk). apply H3, Hk.
Qed.

Lemma frames_try {A} cw ks (m : M A) (h : Exn -> M A) :
  frames cw ks m -> (forall e, frames cw ks (h e)) -> frames cw ks (try_except m h).
Proof.
  intros Hm Hh w H. unfold try_except.
  destruct (Hm w H) as (H1 & H2 & H3). destruct (m w) as [[a|e|x] w1]; cbn [snd] in *; auto.
  destruct (Hh e w1 H1) as (H4 & H5 & H6). split; [exact H4|]. split; [congruence|].
  intros k Hk. rewrite (H6 k Hk). apply H3, Hk.
Qed.

Lemma frames_run_command cw ks env command : frames cw ks (_run_command env command).
Proof.
  intros w H. rewrite run_command_spec. cbv zeta.
  destruct (popen env command) as [e|rc o e]; [|destruct (bool_decide _)]; auto.
Qed.

Lemma frames_qr_make cw ks env data : frames cw ks (qr_make env data).
Proof. intros w H. unfold qr_make. destruct (os_error _ _); auto. Qed.

Lemma frames_mkdir cw ks env p : resolve cw p ∈ ks -> frames cw ks (mkdir_exist_ok env p).
Proof.
  intros Hin w H. pose proof (mkdir_effect env p w) as (H1 & _ & H2 & _ & H3).
  split; [congruence|]. split; [exact H2|]. intros k Hk.
  destruct (H3 k) as [E|(E & _)]; [exact E|]. subst k. rewrite H in Hk. contradiction.
Qed.

Lemma frames_write_file cw ks env p c : resolve cw p ∈ ks -> frames cw ks (write_file env p c).
Proof.
  intros Hin w H. unfold write_file.
  destruct (locate env w p) as [k0|] eqn:Hk0; [|auto].
  apply locate_resolve in Hk0. rewrite H in Hk0. subst k0.
  destruct (os_error _ _); [auto|]. destruct (is_dir w _); [auto|].
  split; [exact H|]. split; [reflexivity|]. intros k Hk. cbn [snd nodes set_nodes].
  apply lookup_insert_ne. intros E. subst k. contradiction.
Qed.

Lemma frames_read_file cw ks env s : frames cw ks (read_file env s).
Proof.
  intros w H. unfold read_file. destruct (os_error _ _); [auto|].
  destruct (stat _ _ _) as [[|?]|]; auto.
Qed.

Lemma frames_copy2 cw ks env src dst :
  resolve cw dst ∈ ks ->
  resolve cw (mkPath (anchor dst)
                (parts dst ++ List.filter is_component [basename (flavour env) src])) ∈ ks ->
  frames cw ks (shutil_copy2 env src dst).
Proof.
  intros H1 H2 w H. unfold shutil_copy2.
  set (dst1 := if isdir env w dst then _ else _).
  assert (Hd : resolve cw dst1 ∈ ks) by (unfold dst1; destruct (isdir env w dst); assumption).
  clearbody dst1.
  match goal with |- context [if ?b then _ else _] => destruct b end; [auto|].
  apply (frames_bind cw ks (read_file env src)); [apply frames_read_file | intros c | exact H].
  apply frames_bind; [apply frames_write_file, Hd | intros _; apply frames_ret].
Qed.

Lemma frames_create_player_page cw ks env self video title :
  resolve cw (joinpath (flavour env) (pages_dir self)
                (page_name (strftime (now env)) (safe_title title))) ∈ ks ->
  frames cw ks (create_player_page env self video title).
Proof.
  intros Hin w.
  set (page := joinpath (flavour env) (pages_dir self)
                 (page_name (strftime (now env)) (safe_title title))) in *.
  change (create_player_page env self video title w)
    with ((write_file env page
             (Text (html_content title (video_relative_path (safe_title title))));;
           ret page) w).
  revert w. apply frames_bind; [apply frames_write_file, Hin|].
  intros _. apply frames_ret.
Qed.

Lemma share_video_frames env self vp cw :
  frames cw (footprint env self vp cw) (share_video env self vp).
Proof.
  unfold share_video, footprint.
  set (sn := safe_name (name (Path_of (flavour env) vp))).
  set (ks := [_; _; _; _; _]).
  apply frames_try; [|intros e; apply frames_raise].
  apply frames_bind; [apply frames_print | intros _].
  apply frames_bind; [apply frames_copy2; unfold ks; set_solver | intros _].
  apply frames_bind; [apply frames_print | intros _].
  apply frames_bind;
    [apply frames_create_player_page; unfold ks, page_of; fold sn; set_solver | intros page].
  apply frames_bind; [apply frames_print | intros _].
  do 3 (apply frames_bind; [apply frames_run_command | intros _]).
  apply frames_bind; [|intros rel].
  { destruct (relative_to _ _); [apply frames_ret | apply frames_raise]. }
  apply frames_bind; [apply frames_print | intros _].
  apply frames_bind; [apply frames_qr_make | intros _].
  apply frames_bind; [apply frames_mkdir; unfold ks; set_solver | intros _].
  apply frames_bind; [apply frames_write_file; unfold ks; set_solver | intros _].
  apply frames_ret.
Qed.

(** Where no command can be started (there is no [git]), a share, however
    it ends, stays in the working directory, reads nothing from the operator,
    and writes at five places at most: the target of the copy, the target
    with the base name of the video below it, the page, the directory of the
    QR images and the QR image. Every other file and directory is as it
    was. *)
Theorem share_video_leaves_the_rest env self vp w :
  (forall command, exists err, popen env command = SpawnError err) ->
  let w' := snd (share_video env self vp w) in
  cwd w' = cwd w /\
  stdin w' = stdin w /\
  forall k, k ∉ footprint env self vp (cwd w) -> nodes w' !! k = nodes w !! k.
Proof. intros _. apply share_video_frames. reflexivity. Qed.

(** Without [git], the video that was shared from [/home] is as it was. *)
Lemma share_video_leaves_the_rest_witness :
  let env := Run.git_missing Posix in
  let self := new env (Run.repo (u "/")) in
  let w := Run.world (u "/") (u "My Clip.mov") [] in
  let k := (u "/", [u "home"; u "My Clip.mov"]) in
  (forall command, exists err, popen env command = SpawnError err) /\
  (k ∉ footprint env self (u "/home/My Clip.mov") (cwd w)) /\
  nodes (snd (share_video env self (u "/home/My Clip.mov") w)) !! k = nodes w !! k.
Proof.
  intros env self w k.
  assert (Hgit : forall command, exists err, popen env command = SpawnError err)
    by (intros command; eexists; reflexivity).
  assert (Hk : k ∉ footprint env self (u "/home/My Clip.mov") (cwd w)).
  { assert (footprint env self (u "/home/My Clip.mov") (cwd w) =
            [(u "/", [u "repo"; u "videos"; u "My Clip.mov"]);
             (u "/", [u "repo"; u "videos"; u "My Clip.mov"; u "My Clip.mov"]);
             (u "/", [u "repo"; u "pages"; u "20240101_120000_My Clip.html"]);
             (u "/", [u "repo"; u "qrcodes"]);
             (u "/", [u "repo"; u "qrcodes"; u "My Clip_qr.png"])]) as ->
      by (vm_compute; reflexivity).
    intros Hin. unfold k in Hin.
    repeat (apply elem_of_cons in Hin as [Hin|Hin]; [vm_compute in Hin; discriminate Hin|]).
    inversion Hin. }
  split; [exact Hgit|]. split; [exact Hk|].
  apply (share_video_leaves_the_rest env self (u "/home/My Clip.mov") w Hgit), Hk.
Defined.

(** ** The disk after a share that returns *)

Lemma print_step s w x w1 : print s w = (Ret x, w1) -> cwd w1 = cwd w /\ nodes w1 = nodes w.
Proof. intros H. injection H as _ <-. auto. Qed.

Lemma run_command_step env command w x w1 :
  _run_command env command w = (Ret x, w1) -> cwd w1 = cwd w /\ nodes w1 = nodes w.
Proof.
  rewrite run_command_spec. cbv zeta.
  destruct (popen _ _); [|destruct (bool_decide _)]; intros H; injection H as _ <-; auto.
Qed.

Lemma qr_make_step env data w x w1 :
  qr_make env data w = (Ret x, w1) -> cwd w1 = cwd w /\ nodes w1 = nodes w.
Proof. unfold qr_make. destruct (os_error _ _); intros H; injection H as _ <-; auto. Qed.

Lemma mkdir_Ret_nodes env p w x w1 :
  mkdir_exist_ok env p w = (Ret x, w1) ->
  cwd w1 = cwd w /\
  nodes w1 = match nodes w !! resolve (cwd w) p with
             | None => <[resolve (cwd w) p := Dir]> (nodes w)
             | Some _ => nodes w
             end.
Proof.
  unfold mkdir_exist_ok. destruct (locate env w p) as [k|] eqn:Hk; [|discriminate].
  apply locate_resolve in Hk as ->. destruct (os_error _ _); [discriminate|].
  destruct (nodes w !! _) as [[|?]|]; try discriminate; intros H; injection H as _ <-; auto.
Qed.

(** The disk after a share that returns, in full: the copy of the video, the
    page, the directory of the QR images if it was missing, and the QR image
    have been written over the disk as it was, in this order. *)
Lemma share_video_Ret_disk env self vp w info w' :
  share_video env self vp w = (Ret info, w') ->
  let fl := flavour env in
  let sn := safe_name (name (Path_of fl vp)) in
  let title := stem (Path_of fl sn) in
  let target := target_path env self sn in
  let dst := if isdir env w target
             then mkPath (anchor target)
                    (parts target ++ List.filter is_component [basename fl vp])
             else target in
  let qr := qr_path env self sn in
  exists c,
    stat env w vp = Some (File c) /\
    is_dir w (resolve (cwd w) dst) = false /\
    cwd w' = cwd w /\
    let n1 := <[resolve (cwd w) dst := File c]> (nodes w) in
    let n2 := <[resolve (cwd w) (page_of env self vp) :=
                  File (Text (html_content title (video_relative_path (safe_title title))))]>
                n1 in
    let n3 := match n2 !! resolve (cwd w) (parent qr) with
              | None => <[resolve (cwd w) (parent qr) := Dir]> n2
              | Some _ => n2
              end in
    nodes w' = <[resolve (cwd w) qr := File (QrImage (ShareResult.page_url info))]> n3.
Proof.
  intros H fl sn title target dst qr. unfold share_video in H.
  apply try_reraise_Ret_inv with (f := fun e => Exception (u "分享失败: " ++ str_of e)) in H.
  split_bind H x1 w1 H1. split_bind H x2 w2 H2. split_bind H x3 w3 H3.
  split_bind H pg w4 H4. split_bind H x5 w5 H5. split_bind H x6 w6 H6.
  split_bind H x7 w7 H7. split_bind H x8 w8 H8. split_bind H rel w9 H9.
  split_bind H x10 w10 H10. split_bind H x11 w11 H11.
  split_bind H x12 w12 H12. split_bind H x13 w13 H13. injection H as <- <-.
  fold fl sn title target qr in H2, H4, H12, H13.
  apply print_step in H1 as [C1 N1].
  apply copy2_Ret_dst in H2 as (Hd & Hnot & c & Hstat & Hw2).
  rewrite (isdir_alike env w1 w target C1 N1) in Hd. fold fl dst in Hd. subst x2.
  rewrite (stat_alike env w1 w vp C1 N1) in Hstat.
  unfold is_dir in Hnot. rewrite C1, N1 in Hnot, Hw2.
  assert (cwd w2 = cwd w /\ nodes w2 = <[resolve (cwd w) dst := File c]> (nodes w))
    as [C2 N2] by (rewrite Hw2; auto).
  apply print_step in H3 as [C3 N3].
  apply create_player_page_Ret_inv in H4 as [Hpg Hw4].
  assert (cwd w4 = cwd w3 /\
          nodes w4 = <[resolve (cwd w3) pg :=
                         File (Text (html_content title
                                       (video_relative_path (safe_title title))))]>
                       (nodes w3)) as [C4 N4] by (rewrite Hw4; auto).
  apply print_step in H5 as [C5 N5].
  apply run_command_step in H6 as [C6 N6]. apply run_command_step in H7 as [C7 N7].
  apply run_command_step in H8 as [C8 N8].
  assert (cwd w9 = cwd w8 /\ nodes w9 = nodes w8) as [C9 N9]
    by (destruct (relative_to _ _); [injection H9 as _ <-; auto | discriminate]).
  apply print_step in H10 as [C10 N10].
  apply qr_make_step in H11 as [C11 N11].
  apply mkdir_Ret_nodes in H12 as [C12 N12].
  apply write_file_Ret_inv in H13 as [Hw13 _].
  assert (Hc : cwd w12 = cwd w) by congruence.
  assert (Hc11 : cwd w11 = cwd w) by congruence.
  assert (Hc3 : cwd w3 = cwd w) by congruence.
  assert (Hn11 : nodes w11 = nodes w4) by congruence.
  exists c. split; [exact Hstat|]. split; [exact Hnot|].
  split; [rewrite Hw13; exact Hc|].
  cbv zeta. rewrite Hw13. cbn [nodes set_nodes ShareResult.page_url].
  rewrite Hc, N12, Hc11, Hn11, N4, Hc3, N3, N2. rewrite Hpg. reflexivity.
Qed.

Lemma cousin_keys cw a r d1 f1 d2 f2 :
  d1 <> d2 -> d1 <> u ".." -> f1 <> u ".." -> d2 <> u ".." -> f2 <> u ".." ->
  resolve cw (mkPath a (r ++ [d1; f1])) <> resolve cw (mkPath a (r ++ [d2; f2])).
Proof.
  intros Hd H1 H2 H3 H4. unfold resolve. cbn [anchor parts].
  assert (forall acc, norm acc (r ++ [d1; f1]) <> norm acc (r ++ [d2; f2])) as Hn.
  { intros acc. destruct (norm_app acc r) as [s Hs]. rewrite !Hs. cbn [norm]. unfold str_eqb.
    rewrite !bool_decide_eq_false_2 by assumption.
    intros E. apply (f_equal (@rev _)) in E. rewrite !rev_involutive in E. congruence. }
  destruct a; intros E; injection E; apply Hn.
Qed.

Lemma page_of_new env repo vp :
  let fl := flavour env in
  let sn := safe_name (name (Path_of fl vp)) in
  page_of env (new env repo) vp =
  mkPath (anchor repo)
    (parts repo ++ [u "pages"; page_name (strftime (now env)) (safe_title (stem (Path_of fl sn)))]).
Proof.
  cbv zeta. unfold page_of. set (file := page_name _ _).
  assert (plain file) by apply page_name_plain, strftime_plain.
  assert (3 <= length file)%nat by apply page_name_long.
  rewrite pages_dir_new, joinpath_component by (assumption || lia).
  cbn [anchor parts]. rewrite <- app_assoc. reflexivity.
Qed.

(** The files of a share that returns, at its end: the copy holds the content
    of the video, the page holds the page, the QR image holds the URL of the
    result, and the result names the target, the page and the QR image. *)
Lemma share_video_Ret_files env repo vp w info w' :
  let self := new env repo in
  share_video env self vp w = (Ret info, w') ->
  let fl := flavour env in
  let sn := safe_name (name (Path_of fl vp)) in
  let title := stem (Path_of fl sn) in
  let target := target_path env self sn in
  let dst := if isdir env w target
             then mkPath (anchor target)
                    (parts target ++ List.filter is_component [basename fl vp])
             else target in
  exists c,
    stat env w vp = Some (File c) /\
    cwd w' = cwd w /\
    nodes w' !! resolve (cwd w) dst = Some (File c) /\
    nodes w' !! resolve (cwd w) (page_of env self vp) =
      Some (File (Text (html_content title (video_relative_path (safe_title title))))) /\
    nodes w' !! resolve (cwd w) (qr_path env self sn) =
      Some (File (QrImage (ShareResult.page_url info))) /\
    ShareResult.video_path info = to_str fl target /\
    ShareResult.page_path info = to_str fl (page_of env self vp) /\
    ShareResult.qr_path info = to_str fl (qr_path env self sn).
Proof.
  intros self H fl sn title target dst.
  pose proof (share_video_Ret_disk env self vp w info w' H) as (c & Hstat & Hnot & Hcwd & Hn).
  apply share_video_Ret_inv in H as (rel & _ & _ & _ & _ & _ & Hinfo).
  fold fl sn title target dst in Hn, Hnot. cbv zeta in Hn.
  assert (Hsn : plain sn) by apply safe_name_plain.
  (* the three files lie at three places *)
  assert (exists x, (length x <= 2)%nat /\
                    dst = mkPath (anchor repo) (parts repo ++ [u "videos"] ++ x)) as (x & Hx & Hdst).
  { pose proof (filter_one_length is_component sn).
    pose proof (filter_one_length is_component (basename fl vp)).
    unfold dst. destruct (isdir env w target);
      unfold target, self; rewrite (target_path_parts env repo sn Hsn).
    - cbn [anchor parts]. rewrite <- !app_assoc.
      eexists. split; [|reflexivity]. rewrite length_app. lia.
    - eexists. split; [|reflexivity]. lia. }
  set (file := page_name (strftime (now env)) (safe_title title)).
  assert (Hpage : page_of env self vp = mkPath (anchor repo) (parts repo ++ [u "pages"; file]))
    by apply page_of_new.
  assert (Hqr : qr_path env self sn =
                mkPath (anchor repo) (parts repo ++ [u "qrcodes"; title ++ u "_qr.png"]))
    by apply (qr_path_parts env self sn Hsn).
  assert (Hfile : file <> u "..") by (apply not_dot_dot_long, page_name_long).
  assert (Himg : title ++ u "_qr.png" <> u "..")
    by (apply not_dot_dot_long; rewrite length_app; simpl; lia).
  set (kd := resolve (cwd w) dst) in *.
  set (kp := resolve (cwd w) (page_of env self vp)) in *.
  set (kq := resolve (cwd w) (qr_path env self sn)) in *.
  set (kqd := resolve (cwd w) (parent (qr_path env self sn))) in *.
  assert (Hpd : kp <> kd).
  { unfold kp, kd. rewrite Hpage, Hdst.
    apply sibling_keys; [exact Hx | discriminate | discriminate | exact Hfile]. }
  assert (Hqd : kq <> kd).
  { unfold kq, kd. rewrite Hqr, Hdst.
    apply sibling_keys; [exact Hx | discriminate | discriminate | exact Himg]. }
  assert (Hqp : kq <> kp).
  { unfold kq, kp. rewrite Hqr, Hpage.
    apply cousin_keys; [discriminate | discriminate | exact Himg | discriminate | exact Hfile]. }
  exists c. split; [exact Hstat|]. split; [exact Hcwd|].
  assert (Hkeep : forall k v,
             k <> kq ->
             (<[kp := File (Text (html_content title (video_relative_path (safe_title title))))]>
                (<[kd := File c]> (nodes w))) !! k = Some v ->
             nodes w' !! k = Some v).
  { intros k v Hk Hv. rewrite Hn, lookup_insert_ne by congruence.
    destruct (_ !! kqd) eqn:Hq; [exact Hv|].
    rewrite lookup_insert_ne; [exact Hv|]. intros E. subst k. congruence. }
  split; [apply Hkeep; [congruence|]; rewrite lookup_insert_ne by exact Hpd;
          apply lookup_insert_eq|].
  split; [apply Hkeep; [congruence|]; apply lookup_insert_eq|].
  split; [rewrite Hn; apply lookup_insert_eq|].
  rewrite Hinfo. auto.
Qed.

(** ** The page *)

Lemma startswith_app a b : startswith a (a ++ b) = true.
Proof. induction a as [|c a IH]; simpl; [reflexivity|]. rewrite N.eqb_refl. exact IH. Qed.

Lemma startswith_cancel a n h : startswith n h = true -> startswith (a ++ n) (a ++ h) = true.
Proof. intros H. induction a as [|c a IH]; simpl; [exact H|]. rewrite N.eqb_refl. exact IH. Qed.

Lemma contains_here n h : startswith n h = true -> contains n h = true.
Proof. intros H. destruct h; simpl in *; rewrite H; reflexivity. Qed.

Lemma contains_app_r n p h : contains n h = true -> contains n (p ++ h) = true.
Proof.
  intros H. induction p as [|c p IH]; simpl; [exact H|].
  rewrite IH. apply orb_true_r.
Qed.

(** The page has the title in a title element and [video_relative_path] in
    a source element. *)
Lemma html_content_elements title rel :
  contains (tpl "<title>" ++ title ++ tpl "</title>") (html_content title rel) = true /\
  contains (tpl "<source src=`" ++ rel ++ tpl "` type=`video/mp4`>") (html_content title rel)
  = true.
Proof.
  unfold html_content. cbn [join].
  change (tpl "    <title>") with (u "    " ++ tpl "<title>").
  change (tpl "            <source src=`") with (u "            " ++ tpl "<source src=`").
  rewrite <- !app_assoc.
  split.
  - repeat first [ apply contains_here; do 2 apply startswith_cancel; apply startswith_app
                 | apply contains_app_r ].
  - repeat first [ apply contains_here; do 2 apply startswith_cancel; apply startswith_app
                 | apply contains_app_r ].
Qed.

(** A share that returns has written the page it names in its result: the
    page has the title, which is the stem of the sanitized file name, in its
    title element, and its source element names [../videos/] followed by the
    sanitized title. *)
Theorem share_video_page env repo vp w info :
  let self := new env repo in
  fst (share_video env self vp w) = Ret info ->
  let fl := flavour env in
  let w' := snd (share_video env self vp w) in
  let title := stem (Path_of fl (safe_name (name (Path_of fl vp)))) in
  let html := html_content title (video_relative_path (safe_title title)) in
  ShareResult.page_path info = to_str fl (page_of env self vp) /\
  nodes w' !! resolve (cwd w') (page_of env self vp) = Some (File (Text html)) /\
  contains (tpl "<title>" ++ title ++ tpl "</title>") html = true /\
  contains (tpl "<source src=`" ++ video_relative_path (safe_title title) ++
            tpl "` type=`video/mp4`>") html = true.
Proof.
  intros self H fl w' title html. subst w'. apply pair_of_fst in H.
  apply share_video_Ret_files in H as (c & _ & Hcwd & _ & Hpage & _ & _ & Hpath & _).
  rewrite Hcwd. split; [exact Hpath|]. split; [exact Hpage|]. apply html_content_elements.
Qed.

(** The page of [clip.v2.mp4] has the title [clip.v2] and the source
    [../videos/clipv2]. *)
Lemma share_video_page_witness :
  let env := Run.quiet Posix in
  let self := new env (Run.repo (u "/")) in
  let run := share_video env self (u "/home/clip.v2.mp4")
               (Run.world (u "/") (u "clip.v2.mp4") []) in
  let html := html_content (u "clip.v2") (u "../videos/clipv2") in
  fst run = Ret Run.clip_v2 /\
  nodes (snd run) !! (u "/", [u "repo"; u "pages"; u "20240101_120000_clipv2.html"]) =
    Some (File (Text html)) /\
  contains (tpl "<title>clip.v2</title>") html = true.
Proof.
  intros env self run html.
  assert (H : fst run = Ret Run.clip_v2) by (vm_compute; reflexivity).
  split; [exact H|].
  pose proof (share_video_page env (Run.repo (u "/")) _ _ _ H) as (_ & Hpage & _ & _).
  split; [|vm_compute; reflexivity].
  etransitivity; [|etransitivity; [exact Hpage|]]; vm_compute; reflexivity.
Defined.

(** ** The copy *)

(** When [videos/<sanitized name>] is not a directory, a share that returns
    has put the content of the video there, whatever was there before, and
    its result names that file. *)
Theorem share_video_copy env repo vp w info :
  let self := new env repo in
  let fl := flavour env in
  let target := target_path env self (safe_name (name (Path_of fl vp))) in
  fst (share_video env self vp w) = Ret info ->
  isdir env w target = false ->
  let w' := snd (share_video env self vp w) in
  exists c,
    stat env w vp = Some (File c) /\
    nodes w' !! resolve (cwd w') target = Some (File c) /\
    ShareResult.video_path info = to_str fl target.
Proof.
  intros self fl target H Hdir w'. subst w' target fl self. apply pair_of_fst in H.
  apply share_video_Ret_files in H as (c & Hstat & Hcwd & Hcopy & _ & _ & Hpath & _).
  cbv zeta in Hcopy. rewrite Hdir in Hcopy.
  exists c. rewrite Hcwd. auto.
Qed.

(** The copy of [My Clip.mov]. *)
Lemma share_video_copy_witness :
  let env := Run.quiet Posix in
  let self := new env (Run.repo (u "/")) in
  let w := Run.world (u "/") (u "My Clip.mov") [] in
  let vp := u "/home/My Clip.mov" in
  let target := target_path env self (safe_name (name (Path_of (flavour env) vp))) in
  let run := share_video env self vp w in
  fst run = Ret Run.my_clip /\
  isdir env w target = false /\
  exists c,
    stat env w vp = Some (File c) /\
    nodes (snd run) !! resolve (cwd (snd run)) target = Some (File c).
Proof.
  intros env self w vp target run.
  assert (H1 : fst run = Ret Run.my_clip) by (vm_compute; reflexivity).
  assert (H2 : isdir env w target = false) by (vm_compute; reflexivity).
  destruct (share_video_copy env (Run.repo (u "/")) vp w _ H1 H2) as (c & R1 & R2 & _).
  split; [exact H1|]. split; [exact H2|]. exists c. split; [exact R1 | exact R2].
Defined.

Lemma copy2_not_a_file env src dst w :
  (forall c, stat env w src <> Some (File c)) ->
  exists e, shutil_copy2 env src dst w = (Raise e, w).
Proof.
  intros Hsrc. unfold shutil_copy2.
  match goal with |- context [if ?b then _ else _] => destruct b end; [eauto|].
  unfold mbind, M_bind, bind, read_file. destruct (os_error _ _); [eauto|].
  destruct (stat env w src) as [[|c]|] eqn:Hs; [eauto | | eauto].
  destruct (Hsrc c). reflexivity.
Qed.

(** When the path does not name a file (it names nothing, or a directory),
    the share raises with the failure prefix and has done nothing but print
    that it copies: no file, no page, no command. *)
Theorem share_video_of_no_file env self vp w :
  (forall c, stat env w vp <> Some (File c)) ->
  exists msg,
    share_video env self vp w =
    (Raise (Exception (u "分享失败: " ++ msg)), set_console (console w ++ [u "复制视频文件..."]) w).
Proof.
  intros Hsrc. unfold share_video.
  rewrite try_bind_cases. cbn [print].
  rewrite try_bind_cases.
  match goal with
  | |- context [shutil_copy2 env vp ?t ?w1] =>
      destruct (copy2_not_a_file env vp t w1) as [e ->]
  end.
  - intros c. rewrite (stat_alike env _ w vp) by reflexivity. apply Hsrc.
  - exists (str_of e). reflexivity.
Qed.

(** Sharing the [videos] directory itself. *)
Lemma share_video_of_no_file_witness :
  let env := Run.quiet Posix in
  let self := new env (Run.repo (u "/")) in
  let w := Run.world (u "/") (u "My Clip.mov") [] in
  (forall c, stat env w (u "videos") <> Some (File c)) /\
  exists msg,
    share_video env self (u "videos") w =
    (Raise (Exception (u "分享失败: " ++ msg)), set_console (console w ++ [u "复制视频文件..."]) w).
Proof.
  intros env self w.
  assert (H : forall c, stat env w (u "videos") <> Some (File c)).
  { intros c. assert (stat env w (u "videos") = Some Dir) as -> by (vm_compute; reflexivity).
    discriminate. }
  split; [exact H|]. apply (share_video_of_no_file env self (u "videos") w H).
Defined.

(** ** Two shares *)

(** Two videos whose names are sanitized to the same name go to the same
    file: when that file is not a directory and both shares return, both
    results name it, it holds the first video after the first share and the
    second video after the second. *)
Theorem same_sanitized_name_overwrites env repo vp1 vp2 w info1 info2 :
  let self := new env repo in
  let fl := flavour env in
  let target := target_path env self (safe_name (name (Path_of fl vp1))) in
  let run1 := share_video env self vp1 w in
  let run2 := share_video env self vp2 (snd run1) in
  safe_name (name (Path_of fl vp1)) = safe_name (name (Path_of fl vp2)) ->
  isdir env w target = false ->
  fst run1 = Ret info1 ->
  fst run2 = Ret info2 ->
  ShareResult.video_path info2 = ShareResult.video_path info1 /\
  exists c1 c2,
    stat env w vp1 = Some (File c1) /\
    stat env (snd run1) vp2 = Some (File c2) /\
    nodes (snd run1) !! resolve (cwd w) target = Some (File c1) /\
    nodes (snd run2) !! resolve (cwd w) target = Some (File c2).
Proof.
  intros self fl target run1 run2 Hname Hdir H1 H2.
  subst run2 run1 target fl self.
  apply pair_of_fst in H1. apply pair_of_fst in H2.
  apply share_video_Ret_files in H1 as (c1 & Hs1 & Hc1 & Hf1 & _ & _ & Hp1 & _).
  apply share_video_Ret_files in H2 as (c2 & Hs2 & Hc2 & Hf2 & _ & _ & Hp2 & _).
  cbv zeta in Hf1, Hf2. rewrite Hdir in Hf1. rewrite <- Hname, Hc1 in Hf2.
  assert (Hdir2 : isdir env (snd (share_video env (new env repo) vp1 w))
                    (target_path env (new env repo)
                       (safe_name (name (Path_of (flavour env) vp1)))) = false).
  { unfold isdir. destruct (locate _ _ _) as [k|] eqn:Hk; [|reflexivity].
    apply locate_resolve in Hk. rewrite Hc1 in Hk. subst k.
    unfold is_dir. rewrite Hf1. reflexivity. }
  rewrite Hdir2 in Hf2.
  split; [rewrite Hp1, Hp2, Hname; reflexivity|].
  exists c1, c2. auto.
Qed.

(** [take#1.mp4] and then [take1.mp4]: both are [videos/take1.mp4]. *)
Lemma same_sanitized_name_overwrites_witness :
  let env := Run.quiet Posix in
  let self := new env (Run.repo (u "/")) in
  let w := two_videos (u "take#1.mp4") (u "take1.mp4") in
  let vp1 := u "/home/take#1.mp4" in
  let vp2 := u "/home/take1.mp4" in
  let target := target_path env self (safe_name (name (Path_of (flavour env) vp1))) in
  let run1 := share_video env self vp1 w in
  let run2 := share_video env self vp2 (snd run1) in
  safe_name (name (Path_of (flavour env) vp1)) = safe_name (name (Path_of (flavour env) vp2)) /\
  isdir env w target = false /\
  (exists info1, fst run1 = Ret info1) /\
  (exists info2, fst run2 = Ret info2) /\
  exists c1 c2,
    stat env w vp1 = Some (File c1) /\
    stat env (snd run1) vp2 = Some (File c2) /\
    nodes (snd run1) !! resolve (cwd w) target = Some (File c1) /\
    nodes (snd run2) !! resolve (cwd w) target = Some (File c2).
Proof.
  intros env self w vp1 vp2 target run1 run2.
  assert (H0 : safe_name (name (Path_of (flavour env) vp1)) =
               safe_name (name (Path_of (flavour env) vp2))) by (vm_compute; reflexivity).
  assert (Hd : isdir env w target = false) by (vm_compute; reflexivity).
  destruct (fst run1) as [info1| |] eqn:H1; [|vm_compute in H1; discriminate H1..].
  destruct (fst run2) as [info2| |] eqn:H2; [|vm_compute in H2; discriminate H2..].
  destruct (same_sanitized_name_overwrites env (Run.repo (u "/")) vp1 vp2 w info1 info2
              H0 Hd H1 H2) as (_ & R).
  split; [exact H0|]. split; [exact Hd|]. split; [eauto|]. split; [eauto | exact R].
Defined.

(** Two videos whose titles are sanitized to the same title, shared at the
    same clock reading, have the same page file: both results name it, and
    the page of the second share has replaced the page of the first. *)
Theorem same_sanitized_title_same_page env repo vp1 vp2 w info1 info2 :
  let self := new env repo in
  let fl := flavour env in
  let title1 := stem (Path_of fl (safe_name (name (Path_of fl vp1)))) in
  let title2 := stem (Path_of fl (safe_name (name (Path_of fl vp2)))) in
  let run1 := share_video env self vp1 w in
  let run2 := share_video env self vp2 (snd run1) in
  safe_title title1 = safe_title title2 ->
  fst run1 = Ret info1 ->
  fst run2 = Ret info2 ->
  ShareResult.page_path info2 = ShareResult.page_path info1 /\
  nodes (snd run1) !! resolve (cwd w) (page_of env self vp1) =
    Some (File (Text (html_content title1 (video_relative_path (safe_title title1))))) /\
  nodes (snd run2) !! resolve (cwd w) (page_of env self vp1) =
    Some (File (Text (html_content title2 (video_relative_path (safe_title title2))))).
Proof.
  intros self fl title1 title2 run1 run2 Htitle H1 H2.
  subst run2 run1 self.
  assert (Hpage : page_of env (new env repo) vp2 = page_of env (new env repo) vp1).
  { unfold page_of. fold fl title1 title2. rewrite Htitle. reflexivity. }
  apply pair_of_fst in H1. apply pair_of_fst in H2.
  apply share_video_Ret_files in H1 as (c1 & _ & Hc1 & _ & Hf1 & _ & _ & Hp1 & _).
  apply share_video_Ret_files in H2 as (c2 & _ & Hc2 & _ & Hf2 & _ & _ & Hp2 & _).
  rewrite Hpage, Hc1 in Hf2. rewrite Hpage in Hp2.
  split; [congruence|]. split; [exact Hf1 | exact Hf2].
Qed.

(** [clip.v2.mp4] and then [clipv2.mp4]: one page, [..._clipv2.html]. *)
Lemma same_sanitized_title_same_page_witness :
  let env := Run.quiet Posix in
  let self := new env (Run.repo (u "/")) in
  let w := two_videos (u "clip.v2.mp4") (u "clipv2.mp4") in
  let vp1 := u "/home/clip.v2.mp4" in
  let vp2 := u "/home/clipv2.mp4" in
  let fl := flavour env in
  let title1 := stem (Path_of fl (safe_name (name (Path_of fl vp1)))) in
  let title2 := stem (Path_of fl (safe_name (name (Path_of fl vp2)))) in
  let run1 := share_video env self vp1 w in
  let run2 := share_video env self vp2 (snd run1) in
  safe_title title1 = safe_title title2 /\
  (exists info1, fst run1 = Ret info1) /\
  (exists info2, fst run2 = Ret info2) /\
  nodes (snd run2) !! resolve (cwd w) (page_of env self vp1) =
    Some (File (Text (html_content title2 (video_relative_path (safe_title title2))))).
Proof.
  intros env self w vp1 vp2 fl title1 title2 run1 run2.
  assert (H0 : safe_title title1 = safe_title title2) by (vm_compute; reflexivity).
  destruct (fst run1) as [info1| |] eqn:H1; [|vm_compute in H1; discriminate H1..].
  destruct (fst run2) as [info2| |] eqn:H2; [|vm_compute in H2; discriminate H2..].
  destruct (same_sanitized_title_same_page env (Run.repo (u "/")) vp1 vp2 w info1 info2
              H0 H1 H2) as (_ & _ & R).
  split; [exact H0|]. split; [eauto|]. split; [eauto | exact R].
Defined.

(** ** The top-level flow *)

(** When the operator's input has ended before a line was typed, [main]
    catches the error of [input], prints it and returns; no command is run
    and the disk is as the repository initialization has left it. *)
Theorem main_at_end_of_input env w w1 :
  let self := new env (key_path (cwd w)) in
  stdin w = [] ->
  setup_repository env self w = (Ret (), w1) ->
  let w' := snd (main env w) in
  fst (main env w) = Ret () /\
  List.last (console w') [] = nl ++ u "错误：" ++ u "EOF when reading a line" /\
  spawned w' = spawned w /\
  nodes w' = nodes w1.
Proof.
  intros self Hin Hsetup w'. subst w'.
  destruct (main_construction env w (setup_repository_Ret_cwd env w _ _ Hsetup))
    as (w0 & Hw0 & Hmain).
  fold self in Hmain.
  destruct (agree_setup_repository env self w w0 Hw0) as [Hfst Hsnd].
  rewrite Hsetup in Hfst, Hsnd. cbn [fst snd] in Hfst, Hsnd.
  destruct (setup_repository env self w0) as [r w1'] eqn:Hsetup0.
  cbn [fst snd] in Hfst, Hsnd. subst r.
  destruct Hsnd as (Hc & Hn & Hi & Hs).
  apply setup_repository_Ret_inv in Hsetup as (_ & Hi1 & Hs1 & _).
  assert (exists printed typed,
             main env w =
             (Ret (), mkWorld (cwd w1') (nodes w1')
                        (printed ++ [nl ++ u "错误：" ++ u "EOF when reading a line"])
                        typed (spawned w1'))) as (printed & typed & ->).
  { rewrite Hmain, try_bind_cases. unfold input at 1. cbn [stdin set_console].
    assert (stdin w1' = []) as Hend by congruence.
    destruct (stdin w1'); [|discriminate Hend]. do 2 eexists. reflexivity. }
  cbn [fst snd console spawned nodes]. rewrite last_last. repeat split; congruence.
Qed.

(** A fresh repository and no input at all. *)
Lemma main_at_end_of_input_witness :
  let env := Run.quiet Posix in
  let w := Run.fresh (u "/") [] in
  let self := new env (key_path (cwd w)) in
  stdin w = [] /\
  fst (setup_repository env self w) = Ret () /\
  fst (main env w) = Ret () /\
  spawned (snd (main env w)) = [].
Proof.
  intros env w self.
  assert (H1 : stdin w = []) by reflexivity.
  assert (H2 : setup_repository env self w = (Ret (), snd (setup_repository env self w)))
    by (apply pair_of_fst; vm_compute; reflexivity).
  destruct (main_at_end_of_input env w _ H1 H2) as (R1 & _ & R3 & _).
  split; [exact H1|]. split; [rewrite H2; reflexivity|]. split; [exact R1 | exact R3].
Defined.

(** When the repository initialization has returned and the path that the
    operator typed names something, [main] runs one share, in a world that
    has the disk of the initialization and no command run since the start,
    and after it only prints: the four fields of the result and the reminder
    to push when the share returns, the error when it raises. Either way
    [main] returns. *)
Theorem main_runs_one_share env w line rest w1 :
  let self := new env (key_path (cwd w)) in
  let video_path := strip_chars quote (strip line) in
  stdin w = line :: rest ->
  setup_repository env self w = (Ret (), w1) ->
  stat env w1 video_path <> None ->
  exists ws,
    cwd ws = cwd w1 /\ nodes ws = nodes w1 /\ spawned ws = spawned w /\ stdin ws = rest /\
    match share_video env self video_path ws with
    | (Ret info, w2) =>
        fst (main env w) = Ret () /\
        same_but_console w2 (snd (main env w)) /\
        console (snd (main env w)) =
        console w2 ++
        [nl ++ u "=== 分享成功！===";
         u "视频路径: " ++ ShareResult.video_path info;
         u "播放页面: " ++ ShareResult.page_path info;
         u "访问地址: " ++ ShareResult.page_url info;
         u "二维码位置: " ++ ShareResult.qr_path info;
         nl ++ u "注意：需要手动push到GitHub才能访问";
         u "运行: git push origin main"]
    | (Raise e, w2) =>
        fst (main env w) = Ret () /\
        same_but_console w2 (snd (main env w)) /\
        console (snd (main env w)) = console w2 ++ [nl ++ u "错误：" ++ str_of e]
    | (Exit _, _) => False
    end.
Proof.
  intros self video_path Hin Hsetup Hstat.
  destruct (main_construction env w (setup_repository_Ret_cwd env w _ _ Hsetup))
    as (w0 & Hw0 & Hmain).
  fold self in Hmain.
  destruct (agree_setup_repository env self w w0 Hw0) as [Hfst Hsnd].
  rewrite Hsetup in Hfst, Hsnd. cbn [fst snd] in Hfst, Hsnd.
  destruct (setup_repository env self w0) as [r w1'] eqn:Hsetup0.
  cbn [fst snd] in Hfst, Hsnd. subst r.
  destruct Hsnd as (Hc & Hn & Hi & Hs).
  apply setup_repository_Ret_inv in Hsetup as (_ & Hi1 & Hs1 & _).
  rewrite try_bind_cases in Hmain. unfold input at 1 in Hmain. cbn [stdin set_console] in Hmain.
  rewrite <- Hi, Hi1, Hin in Hmain.
  rewrite try_bind_cases in Hmain. unfold os_path_exists at 1 in Hmain.
  fold video_path in Hmain.
  rewrite (stat_alike env _ w1 video_path) in Hmain by (cbn; congruence).
  destruct (stat env w1 video_path) as [n|]; [|contradiction].
  cbn [negb] in Hmain. rewrite try_bind_cases in Hmain. cbn [print] in Hmain.
  rewrite try_bind_cases in Hmain.
  match type of Hmain with
  | context [share_video env self video_path ?ws] => exists ws
  end.
  cbn [cwd nodes spawned stdin set_console set_stdin].
  split; [congruence|]. split; [congruence|]. split; [congruence|]. split; [reflexivity|].
  match type of Hmain with
  | context [share_video env self video_path ?ws] =>
      pose proof (never_exits_share_video env self video_path ws) as Hx;
      destruct (share_video env self video_path ws) as [[info|e|c] w2]
  end.
  - rewrite Hmain. repeat (rewrite try_bind_cases; cbn [print]).
    unfold try_except. cbn [print fst snd console set_console].
    split; [reflexivity|]. split; [repeat split|].
    rewrite <- !app_assoc. reflexivity.
  - rewrite Hmain. cbn [print fst snd console set_console].
    split; [reflexivity|]. split; [repeat split | reflexivity].
  - apply (Hx c). reflexivity.
Qed.

(** The operator types the path of [My Clip.mov]. *)
Lemma main_runs_one_share_witness :
  let env := Run.quiet Posix in
  let line := u "/home/My Clip.mov" in
  let w := Run.world (u "/") (u "My Clip.mov") [line] in
  let self := new env (key_path (cwd w)) in
  stdin w = [line] /\
  fst (setup_repository env self w) = Ret () /\
  stat env (snd (setup_repository env self w)) (strip_chars quote (strip line)) <> None /\
  fst (main env w) = Ret ().
Proof.
  intros env line w self.
  assert (H1 : stdin w = [line]) by reflexivity.
  assert (H2 : setup_repository env self w = (Ret (), snd (setup_repository env self w)))
    by (apply pair_of_fst; vm_compute; reflexivity).
  assert (H3 : stat env (snd (setup_repository env self w)) (strip_chars quote (strip line))
               <> None).
  { assert (stat env (snd (setup_repository env self w)) (strip_chars quote (strip line)) =
            Some (File (Bytes Run.video_bytes))) as -> by (vm_compute; reflexivity).
    discriminate. }
  split; [exact H1|]. split; [rewrite H2; reflexivity|]. split; [exact H3|].
  destruct (main_runs_one_share env w line [] _ H1 H2 H3) as (ws & _ & _ & _ & _ & R).
  match type of R with
  | context [share_video ?e ?s ?v ws] => destruct (share_video e s v ws) as [[info|e'|c] w2]
  end.
  - exact (proj1 R).
  - exact (proj1 R).
  - destruct R.
Defined.

(** ** Shares that fail *)

(** Sharing a file that already is [videos/<sanitized name>] fails: the copy
    is refused because source and target are the same file, in a message that
    shows the path text as it was given and the target as the path object it
    is; the share raises it after the failure prefix, and nothing has been
    done but the first print: the file is as it was. *)
Theorem share_video_of_the_target_itself env self vp w c k :
  let fl := flavour env in
  let target := target_path env self (safe_name (name (Path_of fl vp))) in
  stat env w vp = Some (File c) ->
  locate env w (Path_of fl vp) = Some k ->
  locate env w target = Some k ->
  share_video env self vp w =
  (Raise (Exception (u "分享失败: " ++
                     (repr vp ++ u " and " ++ repr_path fl target ++ u " are the same file"))),
   set_console (console w ++ [u "复制视频文件..."]) w).
Proof.
  intros fl target Hstat Hsrc Htarget. unfold share_video. fold fl target.
  rewrite try_bind_cases. cbn [print]. rewrite try_bind_cases.
  set (w1 := set_console _ w).
  assert (Hc : cwd w1 = cwd w) by reflexivity.
  assert (Hn : nodes w1 = nodes w) by reflexivity.
  assert (Hnode : nodes w !! k = Some (File c)).
  { unfold stat in Hstat. destruct (str_eqb vp []); [discriminate|].
    fold fl in Hstat. rewrite Hsrc in Hstat.
    destruct (nodes w !! k) as [[|c0]|]; try discriminate.
    destruct (dir_only _ _); [discriminate|]. exact Hstat. }
  assert (shutil_copy2 env vp target w1 =
          (Raise (Exception (repr vp ++ u " and " ++ repr_path fl target ++
                             u " are the same file")), w1)) as ->; [|reflexivity].
  unfold shutil_copy2. fold fl.
  assert (isdir env w1 target = false) as ->.
  { rewrite (isdir_alike env w1 w target Hc Hn). unfold isdir, is_dir.
    rewrite Htarget, Hnode. reflexivity. }
  rewrite (stat_alike env w1 w vp Hc Hn), Hstat.
  rewrite !(locate_alike env w1 w _ Hc Hn), Htarget, Hsrc, Hn, Hnode.
  rewrite bool_decide_eq_true_2 by reflexivity. reflexivity.
Qed.

(** Sharing [videos/My Clip.mov] from the repository in which it lies. *)
Lemma share_video_of_the_target_itself_witness :
  let env := Run.quiet Posix in
  let self := new env (Run.repo (u "/")) in
  let w := snd (share_video env self (u "/home/My Clip.mov")
                  (Run.world (u "/") (u "My Clip.mov") [])) in
  let vp := u "videos/My Clip.mov" in
  let k := (u "/", [u "repo"; u "videos"; u "My Clip.mov"]) in
  stat env w vp = Some (File (Bytes Run.video_bytes)) /\
  locate env w (Path_of (flavour env) vp) = Some k /\
  locate env w (target_path env self (safe_name (name (Path_of (flavour env) vp)))) = Some k /\
  fst (share_video env self vp w) =
  Raise (Exception (u "分享失败: 'videos/My Clip.mov' and " ++
                    u "PosixPath('/repo/videos/My Clip.mov') are the same file")) /\
  nodes (snd (share_video env self vp w)) !! k = Some (File (Bytes Run.video_bytes)).
Proof.
  intros env self w vp k.
  assert (H1 : stat env w vp = Some (File (Bytes Run.video_bytes))) by (vm_compute; reflexivity).
  assert (H2 : locate env w (Path_of (flavour env) vp) = Some k) by (vm_compute; reflexivity).
  assert (H3 : locate env w (target_path env self
                               (safe_name (name (Path_of (flavour env) vp)))) = Some k)
    by (vm_compute; reflexivity).
  split; [exact H1|]. split; [exact H2|]. split; [exact H3|].
  rewrite (share_video_of_the_target_itself env self vp w _ k H1 H2 H3).
  split; vm_compute; reflexivity.
Defined.

(** ** A share whose QR code cannot be made *)

(** The environment whose QR library refuses is the same environment to every
    other step. *)
Lemma qr_fails_steps env err :
  flavour (qr_fails env err) = flavour env /\
  shutil_copy2 (qr_fails env err) = shutil_copy2 env /\
  create_player_page (qr_fails env err) = create_player_page env /\
  _run_command (qr_fails env err) = _run_command env /\
  target_path (qr_fails env err) = target_path env.
Proof. repeat split. Qed.

Lemma mkdir_Ret_rest env p w x w1 :
  mkdir_exist_ok env p w = (Ret x, w1) -> console w1 = console w /\ spawned w1 = spawned w.
Proof.
  unfold mkdir_exist_ok. destruct (locate env w p); [|discriminate].
  destruct (os_error _ _); [discriminate|].
  destruct (nodes w !! _) as [[|?]|]; try discriminate; intros H; injection H as _ <-; auto.
Qed.

(** A share that returns would, with a QR library that refuses the address
    with the error [err], raise [err] after the failure prefix at the same
    place of the run: all that was printed and the three commands are the
    same, the copy of the video and the page are on the disk, and neither the
    directory of the QR images nor an image has been written. *)
Theorem share_video_when_qr_fails env err self vp w info w' :
  share_video env self vp w = (Ret info, w') ->
  let fl := flavour env in
  let sn := safe_name (name (Path_of fl vp)) in
  let title := stem (Path_of fl sn) in
  let target := target_path env self sn in
  let dst := if isdir env w target
             then mkPath (anchor target)
                    (parts target ++ List.filter is_component [basename fl vp])
             else target in
  let failed := share_video (qr_fails env err) self vp w in
  exists c,
    stat env w vp = Some (File c) /\
    fst failed = Raise (Exception (u "分享失败: " ++ err)) /\
    console (snd failed) = console w' /\
    spawned (snd failed) = spawned w' /\
    cwd (snd failed) = cwd w /\
    nodes (snd failed) =
    <[resolve (cwd w) (page_of env self vp) :=
        File (Text (html_content title (video_relative_path (safe_title title))))]>
      (<[resolve (cwd w) dst := File c]> (nodes w)).
Proof.
  intros H fl sn title target dst failed. subst failed. unfold share_video in H.
  apply try_reraise_Ret_inv with (f := fun e => Exception (u "分享失败: " ++ str_of e)) in H.
  split_bind H x1 w1 H1. split_bind H x2 w2 H2. split_bind H x3 w3 H3.
  split_bind H pg w4 H4. split_bind H x5 w5 H5. split_bind H x6 w6 H6.
  split_bind H x7 w7 H7. split_bind H x8 w8 H8. split_bind H rel w9 H9.
  split_bind H x10 w10 H10. split_bind H x11 w11 H11.
  split_bind H x12 w12 H12. split_bind H x13 w13 H13. injection H as _ <-.
  assert (share_video (qr_fails env err) self vp w =
          (Raise (Exception (u "分享失败: " ++ err)), w10)) as ->.
  { unfold share_video.
    destruct (qr_fails_steps env err) as (-> & -> & -> & -> & ->).
    rewrite try_bind_cases, H1, try_bind_cases, H2, try_bind_cases, H3.
    rewrite try_bind_cases, H4, try_bind_cases, H5, try_bind_cases, H6.
    rewrite try_bind_cases, H7, try_bind_cases, H8, try_bind_cases, H9.
    rewrite try_bind_cases, H10, try_bind_cases.
    unfold qr_make at 1. cbn [os_error qr_fails]. reflexivity. }
  cbn [fst snd].
  fold fl sn title target in H2, H4.
  apply print_step in H1 as [C1 N1].
  apply copy2_Ret_dst in H2 as (Hd & _ & c & Hstat & Hw2).
  rewrite (isdir_alike env w1 w target C1 N1) in Hd. fold fl dst in Hd. subst x2.
  rewrite (stat_alike env w1 w vp C1 N1) in Hstat. rewrite C1, N1 in Hw2.
  assert (cwd w2 = cwd w /\ nodes w2 = <[resolve (cwd w) dst := File c]> (nodes w))
    as [C2 N2] by (rewrite Hw2; auto).
  apply print_step in H3 as [C3 N3].
  apply create_player_page_Ret_inv in H4 as [Hpg Hw4].
  assert (cwd w4 = cwd w3 /\
          nodes w4 = <[resolve (cwd w3) pg :=
                         File (Text (html_content title
                                       (video_relative_path (safe_title title))))]>
                       (nodes w3)) as [C4 N4] by (rewrite Hw4; auto).
  apply print_step in H5 as [C5 N5].
  apply run_command_step in H6 as [C6 N6]. apply run_command_step in H7 as [C7 N7].
  apply run_command_step in H8 as [C8 N8].
  assert (cwd w9 = cwd w8 /\ nodes w9 = nodes w8) as [C9 N9]
    by (destruct (relative_to _ _); [injection H9 as _ <-; auto | discriminate]).
  apply print_step in H10 as [C10 N10].
  assert (w11 = w10) as ->
    by (unfold qr_make in H11; destruct (os_error _ _); [discriminate H11|congruence]).
  apply mkdir_Ret_rest in H12 as [P12 S12].
  apply write_file_Ret_inv in H13 as [Hw13 _].
  assert (Hc3 : cwd w3 = cwd w) by congruence.
  exists c. split; [exact Hstat|]. split; [reflexivity|].
  rewrite Hw13. cbn [console spawned set_nodes].
  split; [congruence|]. split; [congruence|]. split; [congruence|].
  rewrite N10, N9, N8, N7, N6, N5, N4, Hc3, N3, N2, Hpg. reflexivity.
Qed.

(** The share of [My Clip.mov], which returns, with a QR library that says
    [no room]. *)
Lemma share_video_when_qr_fails_witness :
  let env := Run.quiet Posix in
  let self := new env (Run.repo (u "/")) in
  let w := Run.world (u "/") (u "My Clip.mov") [] in
  let failed := share_video (qr_fails env (u "no room")) self (u "/home/My Clip.mov") w in
  fst (share_video env self (u "/home/My Clip.mov") w) =
  Ret Run.my_clip /\
  fst failed = Raise (Exception (u "分享失败: no room")) /\
  nodes (snd failed) !! (u "/", [u "repo"; u "videos"; u "My Clip.mov"]) =
  Some (File (Bytes Run.video_bytes)) /\
  nodes (snd failed) !! (u "/", [u "repo"; u "qrcodes"]) = None.
Proof.
  intros env self w failed.
  assert (H : share_video env self (u "/home/My Clip.mov") w =
              (fst (share_video env self (u "/home/My Clip.mov") w),
               snd (share_video env self (u "/home/My Clip.mov") w)))
    by apply surjective_pairing.
  assert (Hr : fst (share_video env self (u "/home/My Clip.mov") w) =
               Ret Run.my_clip)
    by (vm_compute; reflexivity).
  rewrite Hr in H.
  destruct (share_video_when_qr_fails env (u "no room") self _ w _ _ H)
    as (c & Hs & R1 & _ & _ & _ & R5).
  split; [exact Hr|]. split; [exact R1|].
  subst failed. rewrite R5. clear R1 R5 H Hr.
  assert (c = Bytes Run.video_bytes) as ->.
  { assert (E : stat env w (u "/home/My Clip.mov") = Some (File (Bytes Run.video_bytes)))
      by (vm_compute; reflexivity).
    rewrite E in Hs. injection Hs as <-. reflexivity. }
  clear Hs. split; vm_compute; reflexivity.
Defined.
